(** * CS4245 / CS4265 codec drivers with the MOD Devices board glue

    A shallow embedding of the clock resolver and of the GPIO helpers of
    the two ALSA SoC codec drivers (cs4245.c for the MOD Duo, cs4265.c
    for the MOD Duo X), followed by the properties stated about them.

    Conventions.
    - A C [int] is a [Z]; where the C code computes on [int] the
      wrap-around is written out with [CInt.to_int], and a conversion to
      [u32] with [CInt.to_u32].
    - The static variables of a driver are the fields of a record that is
      threaded through the calls by a small state monad; the monad also
      collects, in call order, the transactions issued to the outside
      (GPIO writes, register updates).
    - A GPIO line is named after the field of the descriptor bundle that
      holds it ([modduo_gpios->headphone_clk] is
      [modduo_gpios.headphone_clk]). *)

From Stdlib Require Import ZArith List Bool Lia.
Import ListNotations.
Open Scope Z_scope.

(** ** C integers *)

Module CInt.

Definition int_min : Z := - 2 ^ 31.
Definition int_max : Z := 2 ^ 31 - 1.

(** [z] is the value of some C [int]. *)
Definition in_int (z : Z) : Prop := int_min <= z <= int_max.

(** [z] is the value of some [u32] / [unsigned int]. *)
Definition in_u32 (z : Z) : Prop := 0 <= z < 2 ^ 32.

(** Conversion to [int]: two's complement wrap-around (the kernel is
    built with wrapping signed arithmetic). *)
Definition to_int (z : Z) : Z := (z + 2 ^ 31) mod 2 ^ 32 - 2 ^ 31.

(** Conversion to [u32], as the usual arithmetic conversions do when an
    [int] meets a [u32] in a comparison. *)
Definition to_u32 (z : Z) : Z := z mod 2 ^ 32.

(** Modelled from the spec: the kernel's [abs] macro, which is not among
    the sources; the spec has [steps = |target - current|].  On an
    [int] it is [x < 0 ? -x : x], the negation again an [int]. *)
Definition abs (x : Z) : Z := if x <? 0 then to_int (- x) else x.

(** [bool] to [int] and back, as C converts them. *)
Definition of_bool (b : bool) : Z := if b then 1 else 0.
Definition to_bool (z : Z) : bool := negb (z =? 0).

End CInt.

(** ** Kernel constants used by the drivers *)

Module Linux.

(** Modelled from the spec: the errno values, whose header is not among
    the sources; the spec names the errors only (UnsupportedRate is
    [-EINVAL]).  The values are those of errno-base.h. *)
Definition EINVAL : Z := 22.
Definition ENOMEM : Z := 12.

(** Modelled from the spec: the DAI format and stream constants of the
    ASoC headers (soc-dai.h, asound.h), which are not among the
    sources. *)
Definition SND_SOC_DAIFMT_I2S : Z := 1.
Definition SND_SOC_DAIFMT_RIGHT_J : Z := 2.
Definition SND_SOC_DAIFMT_LEFT_J : Z := 3.
Definition SND_SOC_DAIFMT_FORMAT_MASK : Z := 15.
Definition SNDRV_PCM_STREAM_CAPTURE : Z := 1.

(** Return value of an interrupt handler that served its interrupt. *)
Definition IRQ_HANDLED : Z := 1.

(** Modelled from the spec: the clock-provider part of a DAI format, from
    the same ASoC header: the mask and the two settings the drivers
    accept (codec provides both clocks, codec consumes both). *)
Definition SND_SOC_DAIFMT_MASTER_MASK : Z := 61440.
Definition SND_SOC_DAIFMT_CBM_CFM : Z := Z.shiftl 1 12.
Definition SND_SOC_DAIFMT_CBS_CFS : Z := Z.shiftl 4 12.

End Linux.

(** ** State and transactions: the monad the driver code runs in *)

Module Eff.

(** What a call leaves behind: its return value, the state after it and
    the transactions it issued, oldest first. *)
Record outcome (S E A : Type) : Type :=
  Outcome { val : A; post : S; trace : list E }.
Arguments Outcome {S E A} _ _ _.
Arguments val {S E A} _.
Arguments post {S E A} _.
Arguments trace {S E A} _.

Definition M (S E A : Type) : Type := S -> outcome S E A.

Section Ops.
Context {S E : Type}.

Definition ret {A} (a : A) : M S E A := fun s => Outcome a s [].

Definition bind {A B} (m : M S E A) (f : A -> M S E B) : M S E B :=
  fun s =>
    let r1 := m s in
    let r2 := f (val r1) (post r1) in
    Outcome (val r2) (post r2) (trace r1 ++ trace r2).

Definition gets {A} (f : S -> A) : M S E A := fun s => Outcome (f s) s [].

Definition modify (f : S -> S) : M S E unit := fun s => Outcome tt (f s) [].

Definition emit (e : E) : M S E unit := fun s => Outcome tt s [e].

(** [n] runs of [body], one after the other. *)
Fixpoint iter (n : nat) (body : M S E unit) : M S E unit :=
  match n with
  | O => ret tt
  | Datatypes.S k => bind body (fun _ => iter k body)
  end.

(** [for (i = 0; i < bound; i++) body], for a body that does not use
    [i]: no run at all when [bound <= 0]. *)
Definition for_lt (bound : Z) (body : M S E unit) : M S E unit :=
  iter (Z.to_nat bound) body.

(** From a state where [P] holds, the call returns a value and leaves
    a state related by [Q]. *)
Definition hoare {A} (P : S -> Prop) (m : M S E A) (Q : A -> S -> Prop)
  : Prop :=
  forall s, P s -> Q (val (m s)) (post (m s)).

(** The call keeps [I]. *)
Definition preserves {A} (I : S -> Prop) (m : M S E A) : Prop :=
  hoare I m (fun _ => I).

End Ops.

End Eff.

Import Eff.

Declare Scope eff_scope.
Delimit Scope eff_scope with eff.
Notation "x <- m ;; k" := (bind m (fun x => k))
  (at level 61, m at next level, right associativity) : eff_scope.
Notation "m ;; k" := (bind m (fun _ => k))
  (at level 61, right associativity) : eff_scope.
Open Scope eff_scope.

(** ** Register map seen from the codec driver *)

Module Regmap.

(** One call of [snd_soc_component_update_bits]. *)
Record update : Type := Update { reg : Z; mask : Z; bits : Z }.

(** Modelled from the spec: the register cache behind
    [snd_soc_component_update_bits] (regmap is not among the sources):
    a read-modify-write restricted to the mask bits, the bits outside
    the mask preserved. *)
Definition update_bits (r m v : Z) (cache : Z -> Z) : Z -> Z :=
  fun a => if a =? r
           then Z.lor (Z.land (cache a) (Z.lnot m)) (Z.land v m)
           else cache a.

End Regmap.

(** ** cs4245.c: the CS4245 codec on the MOD Duo *)

Module CS4245.

Import CInt Linux.

(** *** Clock resolver *)

Module cs4245_clk_para.
Record t : Type := P {
  mclk : Z;     (* u32 *)
  rate : Z;     (* u32 *)
  fm_mode : Z;  (* u8 *)
  mclkdiv : Z   (* u8 *)
}.
End cs4245_clk_para.
Import cs4245_clk_para.

Definition clk_map_table : list cs4245_clk_para.t :=
  [
    (* 32k *)
    P 8192000 32000 0 0;
    P 12288000 32000 0 1;
    P 16384000 32000 0 2;
    P 24576000 32000 0 3;
    P 32768000 32000 0 4;
    (* 44.1k *)
    P 11289600 44100 0 0;
    P 16934400 44100 0 1;
    P 22579200 44100 0 2;
    P 33868000 44100 0 3;
    P 45158400 44100 0 4;
    (* 48k *)
    P 12288000 48000 0 0;
    P 18432000 48000 0 1;
    P 24576000 48000 0 2;
    P 36864000 48000 0 3;
    P 49152000 48000 0 4;
    (* 64k *)
    P 8192000 64000 1 0;
    P 12288000 64000 1 1;
    P 16934400 64000 1 2;
    P 24576000 64000 1 3;
    P 32768000 64000 1 4;
    (* 88.2k *)
    P 11289600 88200 1 0;
    P 16934400 88200 1 1;
    P 22579200 88200 1 2;
    P 33868000 88200 1 3;
    P 45158400 88200 1 4;
    (* 96k *)
    P 12288000 96000 1 0;
    P 18432000 96000 1 1;
    P 24576000 96000 1 2;
    P 36864000 96000 1 3;
    P 49152000 96000 1 4;
    (* 128k *)
    P 8192000 128000 2 0;
    P 12288000 128000 2 1;
    P 16934400 128000 2 2;
    P 24576000 128000 2 3;
    P 32768000 128000 2 4;
    (* 176.4k *)
    P 11289600 176400 2 0;
    P 16934400 176400 2 1;
    P 22579200 176400 2 2;
    P 33868000 176400 2 3;
    P 49152000 176400 2 4;
    (* 192k *)
    P 12288000 192000 2 0;
    P 18432000 192000 2 1;
    P 24576000 192000 2 2;
    P 36864000 192000 2 3;
    P 49152000 192000 2 4
  ].

(** The scan of [cs4245_get_clk_index] from row [i] on, [tbl] being the
    rows still to visit.  The [int] arguments meet [u32] fields, so the
    comparisons are made on their [u32] conversions. *)
Fixpoint get_clk_index_from (tbl : list cs4245_clk_para.t) (i : Z)
         (mclk_arg rate_arg : Z) : Z :=
  match tbl with
  | [] => - EINVAL
  | e :: rest =>
      if (rate e =? to_u32 rate_arg) && (mclk e =? to_u32 mclk_arg)
      then i
      else get_clk_index_from rest (i + 1) mclk_arg rate_arg
  end.

Definition cs4245_get_clk_index (mclk_arg rate_arg : Z) : Z :=
  get_clk_index_from clk_map_table 0 mclk_arg rate_arg.

(** [clk_map_table[index]], for an index the scan returned. *)
Definition clk_map_table_at (index : Z) : cs4245_clk_para.t :=
  nth (Z.to_nat index) clk_map_table (P 0 0 0 0).

(** [struct cs4245_private] with the register cache of its regmap. *)
Record cs4245_private : Type := Private {
  format : Z;          (* u8 *)
  sysclk : Z;          (* u32 *)
  regcache : Z -> Z
}.

Definition with_sysclk (v : Z) (c : cs4245_private) : cs4245_private :=
  Private (format c) v (regcache c).
Definition with_regcache (f : Z -> Z) (c : cs4245_private) : cs4245_private :=
  Private (format c) (sysclk c) f.

Definition codec (A : Type) : Type := M cs4245_private Regmap.update A.

Definition snd_soc_component_update_bits (r m v : Z) : codec unit :=
  modify (fun c => with_regcache (Regmap.update_bits r m v (regcache c)) c) ;;
  emit (Regmap.Update r m v).

(** The loop of [cs4245_set_sysclk]: is there a row whose [mclk] is
    [freq]? *)
Fixpoint sysclk_scan (tbl : list cs4245_clk_para.t) (freq : Z) : bool :=
  match tbl with
  | [] => false
  | e :: rest => if mclk e =? freq then true else sysclk_scan rest freq
  end.

(** [freq] is an [unsigned int]; the messages to the kernel log are left
    out. *)
Definition cs4245_set_sysclk (clk_id freq dir : Z) : codec Z :=
  if freq =? 0 then ret 0
  else if negb (clk_id =? 0) then ret (- EINVAL)
  else if sysclk_scan clk_map_table freq
       then modify (with_sysclk freq) ;; ret 0
       else modify (with_sysclk 0) ;; ret (- EINVAL).

(** Register addresses and fields, from cs4245.h. *)
Definition CS4245_DAC_CTL : Z := 3.
Definition CS4245_DAC_CTL_DIF : Z := Z.shiftl 3 4.
Definition CS4245_ADC_CTL : Z := 4.
Definition CS4245_ADC_DIF : Z := Z.shiftl 1 4.
Definition CS4245_ADC_FM : Z := Z.shiftl 3 6.
Definition CS4245_MCLK_FREQ : Z := 5.
Definition CS4245_MCLK_FREQ_MASK : Z := Z.shiftl 7 4.

(** [stream] is [substream->stream], [rate] and [width] what
    [params_rate] and [params_width] return. *)
Definition cs4245_pcm_hw_params (stream rate_arg width : Z) : codec Z :=
  fmt <- gets format ;;
  if (stream =? SNDRV_PCM_STREAM_CAPTURE)
     && (Z.land fmt SND_SOC_DAIFMT_FORMAT_MASK =? SND_SOC_DAIFMT_RIGHT_J)
  then ret (- EINVAL)
  else
    clk <- gets sysclk ;;
    let index := cs4245_get_clk_index (to_int clk) (to_int rate_arg) in
    if 0 <=? index then
      snd_soc_component_update_bits CS4245_ADC_CTL CS4245_ADC_FM
        (Z.shiftl (fm_mode (clk_map_table_at index)) 6) ;;
      snd_soc_component_update_bits CS4245_MCLK_FREQ CS4245_MCLK_FREQ_MASK
        (Z.shiftl (mclkdiv (clk_map_table_at index)) 4) ;;
      let sel := Z.land fmt SND_SOC_DAIFMT_FORMAT_MASK in
      if sel =? SND_SOC_DAIFMT_I2S then
        snd_soc_component_update_bits CS4245_DAC_CTL CS4245_DAC_CTL_DIF
          (Z.shiftl 1 4) ;;
        snd_soc_component_update_bits CS4245_ADC_CTL CS4245_ADC_DIF
          (Z.shiftl 1 4) ;;
        ret 0
      else if sel =? SND_SOC_DAIFMT_RIGHT_J then
        (if width =? 16
         then snd_soc_component_update_bits CS4245_DAC_CTL
                CS4245_DAC_CTL_DIF (Z.shiftl 2 4)
         else snd_soc_component_update_bits CS4245_DAC_CTL
                CS4245_DAC_CTL_DIF (Z.shiftl 3 4)) ;;
        ret 0
      else if sel =? SND_SOC_DAIFMT_LEFT_J then
        snd_soc_component_update_bits CS4245_DAC_CTL CS4245_DAC_CTL_DIF 0 ;;
        snd_soc_component_update_bits CS4245_ADC_CTL CS4245_ADC_DIF 0 ;;
        ret 0
      else ret (- EINVAL)
    else ret (- EINVAL).

(** *** Board GPIOs of the MOD Duo *)

Definition CHANNEL_LEFT : Z := 0.
Definition CHANNEL_RIGHT : Z := 1.

Definition GPIO_BYPASS : Z := 0.
Definition GPIO_PROCESS : Z := 1.

(** The descriptors of [struct _modduo_gpios]. *)
Module modduo_gpios.
Inductive line : Type :=
| headphone_clk
| headphone_dir
| gain_stage_left1
| gain_stage_left2
| gain_stage_right1
| gain_stage_right2
| true_bypass_left
| true_bypass_right.

Scheme Equality for line.
End modduo_gpios.
Import modduo_gpios.

(** One call of [gpiod_set_value]: the line and the value passed. *)
Definition gpio_write : Type := (line * Z)%type.

(** The static variables of the file, the [initialized] flag of
    [modduo_gpios] and the level each output line was last driven to. *)
Record state : Type := State {
  headphone_volume : Z;
  input_left_gain_stage : Z;
  input_right_gain_stage : Z;
  left_true_bypass : bool;
  right_true_bypass : bool;
  initialized : bool;
  level : line -> bool
}.

Definition with_headphone_volume (v : Z) (s : state) : state :=
  State v (input_left_gain_stage s) (input_right_gain_stage s)
        (left_true_bypass s) (right_true_bypass s) (initialized s) (level s).
Definition with_input_left_gain_stage (v : Z) (s : state) : state :=
  State (headphone_volume s) v (input_right_gain_stage s)
        (left_true_bypass s) (right_true_bypass s) (initialized s) (level s).
Definition with_input_right_gain_stage (v : Z) (s : state) : state :=
  State (headphone_volume s) (input_left_gain_stage s) v
        (left_true_bypass s) (right_true_bypass s) (initialized s) (level s).
Definition with_left_true_bypass (b : bool) (s : state) : state :=
  State (headphone_volume s) (input_left_gain_stage s)
        (input_right_gain_stage s) b (right_true_bypass s) (initialized s)
        (level s).
Definition with_right_true_bypass (b : bool) (s : state) : state :=
  State (headphone_volume s) (input_left_gain_stage s)
        (input_right_gain_stage s) (left_true_bypass s) b (initialized s)
        (level s).
Definition with_level (f : line -> bool) (s : state) : state :=
  State (headphone_volume s) (input_left_gain_stage s)
        (input_right_gain_stage s) (left_true_bypass s)
        (right_true_bypass s) (initialized s) f.

Definition cmd (A : Type) : Type := M state gpio_write A.

(** Modelled from the spec: [gpiod_set_value] of gpiolib, which is not
    among the sources.  A digital pin is a single line with two levels;
    a write latches the level (any non-zero value is the high level)
    and is one pin transaction. *)
Definition gpiod_set_value (desc : line) (value : Z) : cmd unit :=
  modify (fun s =>
            with_level (fun l => if line_beq l desc then to_bool value
                                 else level s l) s) ;;
  emit (desc, value).

Definition set_headphone_volume (new_volume : Z) : cmd unit :=
  cur <- gets headphone_volume ;;
  let steps := abs (to_int (new_volume - cur)) in
  ini <- gets initialized ;;
  (if ini then
     gpiod_set_value headphone_dir (if new_volume >? cur then 1 else 0) ;;
     for_lt steps
       (gpiod_set_value headphone_clk 1 ;;
        gpiod_set_value headphone_clk 0)
   else ret tt) ;;
  modify (with_headphone_volume new_volume).

(** The first [switch] of [set_gain_stage]: the two descriptors of the
    channel, its mirror written; nothing for another channel, where the
    function returns. *)
Definition gain_stage_select (channel state_arg : Z)
  : cmd (option (line * line)) :=
  if channel =? CHANNEL_LEFT then
    modify (with_input_left_gain_stage state_arg) ;;
    ret (Some (gain_stage_left1, gain_stage_left2))
  else if channel =? CHANNEL_RIGHT then
    modify (with_input_right_gain_stage state_arg) ;;
    ret (Some (gain_stage_right1, gain_stage_right2))
  else ret None.

Definition set_gain_stage (channel state_arg : Z) : cmd unit :=
  sel <- gain_stage_select channel state_arg ;;
  match sel with
  | None => ret tt
  | Some (gpio1, gpio2) =>
      ini <- gets initialized ;;
      if negb ini then ret tt
      else if state_arg =? 0 then
        gpiod_set_value gpio1 1 ;; gpiod_set_value gpio2 1
      else if state_arg =? 1 then
        gpiod_set_value gpio1 1 ;; gpiod_set_value gpio2 0
      else if state_arg =? 2 then
        gpiod_set_value gpio1 0 ;; gpiod_set_value gpio2 1
      else if state_arg =? 3 then
        gpiod_set_value gpio1 0 ;; gpiod_set_value gpio2 0
      else ret tt
  end.

Definition set_true_bypass (channel : Z) (state_arg : bool) : cmd unit :=
  if channel =? CHANNEL_LEFT then
    ini <- gets initialized ;;
    (if ini
     then gpiod_set_value true_bypass_left
            (if state_arg then GPIO_BYPASS else GPIO_PROCESS)
     else ret tt) ;;
    modify (with_left_true_bypass state_arg)
  else if channel =? CHANNEL_RIGHT then
    ini <- gets initialized ;;
    (if ini
     then gpiod_set_value true_bypass_right
            (if state_arg then GPIO_BYPASS else GPIO_PROCESS)
     else ret tt) ;;
    modify (with_right_true_bypass state_arg)
  else ret tt.

(** *** Controls: [value] is [ucontrol->value.integer.value[0]], a
    [long]; it becomes an [int] or a [bool] where a setter takes one. *)

Definition headphone_get : cmd Z := gets headphone_volume.

Definition headphone_put (value : Z) : cmd Z :=
  cur <- gets headphone_volume ;;
  if negb (cur =? value)
  then set_headphone_volume (to_int value) ;; ret 1
  else ret 0.

Definition input_left_gain_stage_get : cmd Z := gets input_left_gain_stage.
Definition input_right_gain_stage_get : cmd Z := gets input_right_gain_stage.

Definition input_left_gain_stage_put (value : Z) : cmd Z :=
  cur <- gets input_left_gain_stage ;;
  if negb (cur =? value)
  then set_gain_stage CHANNEL_LEFT (to_int value) ;; ret 1
  else ret 0.

Definition input_right_gain_stage_put (value : Z) : cmd Z :=
  cur <- gets input_right_gain_stage ;;
  if negb (cur =? value)
  then set_gain_stage CHANNEL_RIGHT (to_int value) ;; ret 1
  else ret 0.

Definition left_true_bypass_get : cmd Z :=
  gets (fun s => of_bool (left_true_bypass s)).
Definition right_true_bypass_get : cmd Z :=
  gets (fun s => of_bool (right_true_bypass s)).

Definition left_true_bypass_put (value : Z) : cmd Z :=
  cur <- gets left_true_bypass ;;
  if negb (of_bool cur =? value)
  then set_true_bypass CHANNEL_LEFT (to_bool value) ;; ret 1
  else ret 0.

Definition right_true_bypass_put (value : Z) : cmd Z :=
  cur <- gets right_true_bypass ;;
  if negb (of_bool cur =? value)
  then set_true_bypass CHANNEL_RIGHT (to_bool value) ;; ret 1
  else ret 0.

(** *** Register map configuration and the other DAI operations *)

(** The remaining register addresses and fields of cs4245.h. *)
Definition CS4245_CHIP_ID : Z := 1.
Definition CS4245_PWRCTL : Z := 2.
Definition CS4245_ADC_MASTER : Z := Z.shiftl 1 0.
Definition CS4245_DAC_CTL_MUTE : Z := Z.shiftl 1 2.
Definition CS4245_ADC_CTL_MUTE : Z := Z.shiftl 1 2.
Definition CS4245_SIG_SEL : Z := 6.
Definition CS4245_CHB_PGA_CTL : Z := 7.
Definition CS4245_CHA_PGA_CTL : Z := 8.
Definition CS4245_ADC_CTL2 : Z := 9.
Definition CS4245_DAC_CHB_VOL : Z := 10.
Definition CS4245_DAC_CHA_VOL : Z := 11.
Definition CS4245_DAC_CTL2 : Z := 12.
Definition CS4245_INT_STATUS : Z := 13.
Definition CS4245_INT_MASK : Z := 14.
Definition CS4245_STATUS_MODE_MSB : Z := 15.
Definition CS4245_STATUS_MODE_LSB : Z := 16.
Definition CS4245_MAX_REGISTER : Z := 16.

(** [struct reg_default]: a register and its power-on value. *)
Definition cs4245_reg_defaults : list (Z * Z) :=
  [ (CS4245_PWRCTL, 15);          (* 0x0F *)
    (CS4245_DAC_CTL, 8);          (* 0x08 *)
    (CS4245_ADC_CTL, 0);
    (CS4245_MCLK_FREQ, 0);
    (CS4245_SIG_SEL, 64);         (* 0x40 *)
    (CS4245_CHB_PGA_CTL, 0);
    (CS4245_CHA_PGA_CTL, 0);
    (CS4245_ADC_CTL2, 25);        (* 0x19 *)
    (CS4245_DAC_CHB_VOL, 0);
    (CS4245_DAC_CHA_VOL, 0);
    (CS4245_DAC_CTL2, 192);       (* 0xC0 *)
    (CS4245_INT_STATUS, 0);
    (CS4245_INT_MASK, 0);
    (CS4245_STATUS_MODE_MSB, 0);
    (CS4245_STATUS_MODE_LSB, 0) ].

(** [case CS4245_CHIP_ID ... CS4245_MAX_REGISTER]; [reg] is an
    [unsigned int]. *)
Definition cs4245_readable_register (reg : Z) : bool :=
  (CS4245_CHIP_ID <=? reg) && (reg <=? CS4245_MAX_REGISTER).

Definition cs4245_volatile_register (reg : Z) : bool :=
  reg =? CS4245_INT_STATUS.

Definition with_format (v : Z) (c : cs4245_private) : cs4245_private :=
  Private v (sysclk c) (regcache c).

(** The second [switch] of [cs4245_set_fmt]: the interface format kept
    in [iface] (a [u8] that starts at 0), or nothing where the function
    returns [-EINVAL]. *)
Definition set_fmt_iface (fmt : Z) : option Z :=
  let sel := Z.land fmt SND_SOC_DAIFMT_FORMAT_MASK in
  if sel =? SND_SOC_DAIFMT_I2S then Some (Z.lor 0 SND_SOC_DAIFMT_I2S)
  else if sel =? SND_SOC_DAIFMT_RIGHT_J
       then Some (Z.lor 0 SND_SOC_DAIFMT_RIGHT_J)
  else if sel =? SND_SOC_DAIFMT_LEFT_J
       then Some (Z.lor 0 SND_SOC_DAIFMT_LEFT_J)
  else None.

(** [fmt] is an [unsigned int]. *)
Definition cs4245_set_fmt (fmt : Z) : codec Z :=
  let master := Z.land fmt SND_SOC_DAIFMT_MASTER_MASK in
  known <-
    (if master =? SND_SOC_DAIFMT_CBM_CFM then
       snd_soc_component_update_bits CS4245_ADC_CTL CS4245_ADC_MASTER
         CS4245_ADC_MASTER ;;
       ret true
     else if master =? SND_SOC_DAIFMT_CBS_CFS then
       snd_soc_component_update_bits CS4245_ADC_CTL CS4245_ADC_MASTER 0 ;;
       ret true
     else ret false) ;;
  if negb known then ret (- EINVAL)
  else
    match set_fmt_iface fmt with
    | None => ret (- EINVAL)
    | Some iface => modify (with_format iface) ;; ret 0
    end.

Definition cs4245_digital_mute (mute direction : Z) : codec Z :=
  (if negb (mute =? 0) then
     snd_soc_component_update_bits CS4245_DAC_CTL CS4245_DAC_CTL_MUTE
       CS4245_DAC_CTL_MUTE ;;
     snd_soc_component_update_bits CS4245_ADC_CTL CS4245_ADC_CTL_MUTE
       CS4245_ADC_CTL_MUTE
   else
     snd_soc_component_update_bits CS4245_DAC_CTL CS4245_DAC_CTL_MUTE 0 ;;
     snd_soc_component_update_bits CS4245_ADC_CTL CS4245_ADC_CTL_MUTE 0) ;;
  ret 0.

End CS4245.

(** ** cs4265.c: the CS4265 codec on the MOD Duo X

    The file is modelled as built for the Duo X, with [__MOD_DEVICES__]
    and [_MOD_DEVICE_DUOX] defined. *)

Module CS4265.

Import CInt Linux.

(** *** Clock resolver *)

Module cs4265_clk_para.
Record t : Type := P {
  mclk : Z;     (* u32 *)
  rate : Z;     (* u32 *)
  fm_mode : Z;  (* u8 *)
  mclkdiv : Z   (* u8 *)
}.
End cs4265_clk_para.
Import cs4265_clk_para.

Definition clk_map_table : list cs4265_clk_para.t :=
  [
    (* 32k *)
    P 8192000 32000 0 0;
    P 12288000 32000 0 1;
    P 16384000 32000 0 2;
    P 24576000 32000 0 3;
    P 32768000 32000 0 4;
    (* 44.1k *)
    P 11289600 44100 0 0;
    P 16934400 44100 0 1;
    P 22579200 44100 0 2;
    P 33868000 44100 0 3;
    P 45158400 44100 0 4;
    (* 48k *)
    P 12288000 48000 0 0;
    P 18432000 48000 0 1;
    P 24576000 48000 0 2;
    P 36864000 48000 0 3;
    P 49152000 48000 0 4;
    (* 64k *)
    P 8192000 64000 1 0;
    P 12288000 64000 1 1;
    P 16934400 64000 1 2;
    P 24576000 64000 1 3;
    P 32768000 64000 1 4;
    (* 88.2k *)
    P 11289600 88200 1 0;
    P 16934400 88200 1 1;
    P 22579200 88200 1 2;
    P 33868000 88200 1 3;
    P 45158400 88200 1 4;
    (* 96k *)
    P 12288000 96000 1 0;
    P 18432000 96000 1 1;
    P 24576000 96000 1 2;
    P 36864000 96000 1 3;
    P 49152000 96000 1 4;
    (* 128k *)
    P 8192000 128000 2 0;
    P 12288000 128000 2 1;
    P 16934400 128000 2 2;
    P 24576000 128000 2 3;
    P 32768000 128000 2 4;
    (* 176.4k *)
    P 11289600 176400 2 0;
    P 16934400 176400 2 1;
    P 22579200 176400 2 2;
    P 33868000 176400 2 3;
    P 49152000 176400 2 4;
    (* 192k *)
    P 12288000 192000 2 0;
    P 18432000 192000 2 1;
    P 24576000 192000 2 2;
    P 36864000 192000 2 3;
    P 49152000 192000 2 4
  ].

Fixpoint get_clk_index_from (tbl : list cs4265_clk_para.t) (i : Z)
         (mclk_arg rate_arg : Z) : Z :=
  match tbl with
  | [] => - EINVAL
  | e :: rest =>
      if (rate e =? to_u32 rate_arg) && (mclk e =? to_u32 mclk_arg)
      then i
      else get_clk_index_from rest (i + 1) mclk_arg rate_arg
  end.

Definition cs4265_get_clk_index (mclk_arg rate_arg : Z) : Z :=
  get_clk_index_from clk_map_table 0 mclk_arg rate_arg.

Definition clk_map_table_at (index : Z) : cs4265_clk_para.t :=
  nth (Z.to_nat index) clk_map_table (P 0 0 0 0).

(** The fields of [struct cs4265_private] the clock code uses. *)
Record cs4265_private : Type := Private {
  format : Z;          (* u8 *)
  sysclk : Z           (* u32 *)
}.

Definition with_sysclk (v : Z) (c : cs4265_private) : cs4265_private :=
  Private (format c) v.

Definition codec (A : Type) : Type := M cs4265_private Regmap.update A.

Fixpoint sysclk_scan (tbl : list cs4265_clk_para.t) (freq : Z) : bool :=
  match tbl with
  | [] => false
  | e :: rest => if mclk e =? freq then true else sysclk_scan rest freq
  end.

Definition cs4265_set_sysclk (clk_id freq dir : Z) : codec Z :=
  if freq =? 0 then ret 0
  else if negb (clk_id =? 0) then ret (- EINVAL)
  else if sysclk_scan clk_map_table freq
       then modify (with_sysclk freq) ;; ret 0
       else modify (with_sysclk 0) ;; ret (- EINVAL).

(** *** Board GPIOs of the MOD Duo X *)

Definition CHANNEL_LEFT : Z := 0.
Definition CHANNEL_RIGHT : Z := 1.

Definition GPIO_BYPASS : Z := 0.
Definition GPIO_PROCESS : Z := 1.

(** tip means enable2, ring enable1 *)
Definition EXP_PEDAL_SIGNAL_ON_TIP : bool := false.
Definition EXP_PEDAL_SIGNAL_ON_RING : bool := true.

(** The descriptors of [struct _modduox_gpios]. *)
Module modduox_gpios.
Inductive line : Type :=
| headphone_cv_mode
| headphone_clk
| headphone_dir
| gain_stage_left1
| gain_stage_left2
| gain_stage_right1
| gain_stage_right2
| true_bypass_left
| true_bypass_right
| exp_enable1
| exp_enable2
| exp_flag1
| exp_flag2.

Scheme Equality for line.
End modduox_gpios.

Definition gpio_write : Type := (modduox_gpios.line * Z)%type.

(** The static variables of the file; [initialized], [irqFlag1] and
    [irqFlag2] of [modduox_gpios]; the level each line was last driven
    to; and, on the kernel's side, the interrupt lines on which
    [exp_flag_irq_handler] is installed. *)
Record state : Type := State {
  headphone_volume : Z;
  input_left_gain_stage : Z;
  input_right_gain_stage : Z;
  left_true_bypass : bool;
  right_true_bypass : bool;
  headphone_cv_mode : bool;
  cv_exp_pedal_mode : bool;
  exp_pedal_mode : bool;
  initialized : bool;
  irqFlag1 : Z;
  irqFlag2 : Z;
  level : modduox_gpios.line -> bool;
  irq_handlers : list Z
}.

Definition with_headphone_volume (v : Z) (s : state) : state :=
  State v (input_left_gain_stage s) (input_right_gain_stage s)
        (left_true_bypass s) (right_true_bypass s) (headphone_cv_mode s)
        (cv_exp_pedal_mode s) (exp_pedal_mode s) (initialized s)
        (irqFlag1 s) (irqFlag2 s) (level s) (irq_handlers s).
Definition with_input_left_gain_stage (v : Z) (s : state) : state :=
  State (headphone_volume s) v (input_right_gain_stage s)
        (left_true_bypass s) (right_true_bypass s) (headphone_cv_mode s)
        (cv_exp_pedal_mode s) (exp_pedal_mode s) (initialized s)
        (irqFlag1 s) (irqFlag2 s) (level s) (irq_handlers s).
Definition with_input_right_gain_stage (v : Z) (s : state) : state :=
  State (headphone_volume s) (input_left_gain_stage s) v
        (left_true_bypass s) (right_true_bypass s) (headphone_cv_mode s)
        (cv_exp_pedal_mode s) (exp_pedal_mode s) (initialized s)
        (irqFlag1 s) (irqFlag2 s) (level s) (irq_handlers s).
Definition with_left_true_bypass (v : bool) (s : state) : state :=
  State (headphone_volume s) (input_left_gain_stage s)
        (input_right_gain_stage s) v (right_true_bypass s)
        (headphone_cv_mode s) (cv_exp_pedal_mode s) (exp_pedal_mode s)
        (initialized s) (irqFlag1 s) (irqFlag2 s) (level s)
        (irq_handlers s).
Definition with_right_true_bypass (v : bool) (s : state) : state :=
  State (headphone_volume s) (input_left_gain_stage s)
        (input_right_gain_stage s) (left_true_bypass s) v
        (headphone_cv_mode s) (cv_exp_pedal_mode s) (exp_pedal_mode s)
        (initialized s) (irqFlag1 s) (irqFlag2 s) (level s)
        (irq_handlers s).
Definition with_headphone_cv_mode (v : bool) (s : state) : state :=
  State (headphone_volume s) (input_left_gain_stage s)
        (input_right_gain_stage s) (left_true_bypass s)
        (right_true_bypass s) v (cv_exp_pedal_mode s) (exp_pedal_mode s)
        (initialized s) (irqFlag1 s) (irqFlag2 s) (level s)
        (irq_handlers s).
Definition with_cv_exp_pedal_mode (v : bool) (s : state) : state :=
  State (headphone_volume s) (input_left_gain_stage s)
        (input_right_gain_stage s) (left_true_bypass s)
        (right_true_bypass s) (headphone_cv_mode s) v (exp_pedal_mode s)
        (initialized s) (irqFlag1 s) (irqFlag2 s) (level s)
        (irq_handlers s).
Definition with_exp_pedal_mode (v : bool) (s : state) : state :=
  State (headphone_volume s) (input_left_gain_stage s)
        (input_right_gain_stage s) (left_true_bypass s)
        (right_true_bypass s) (headphone_cv_mode s) (cv_exp_pedal_mode s)
        v (initialized s) (irqFlag1 s) (irqFlag2 s) (level s)
        (irq_handlers s).
Definition with_initialized (v : bool) (s : state) : state :=
  State (headphone_volume s) (input_left_gain_stage s)
        (input_right_gain_stage s) (left_true_bypass s)
        (right_true_bypass s) (headphone_cv_mode s) (cv_exp_pedal_mode s)
        (exp_pedal_mode s) v (irqFlag1 s) (irqFlag2 s) (level s)
        (irq_handlers s).
Definition with_irqFlag1 (v : Z) (s : state) : state :=
  State (headphone_volume s) (input_left_gain_stage s)
        (input_right_gain_stage s) (left_true_bypass s)
        (right_true_bypass s) (headphone_cv_mode s) (cv_exp_pedal_mode s)
        (exp_pedal_mode s) (initialized s) v (irqFlag2 s) (level s)
        (irq_handlers s).
Definition with_irqFlag2 (v : Z) (s : state) : state :=
  State (headphone_volume s) (input_left_gain_stage s)
        (input_right_gain_stage s) (left_true_bypass s)
        (right_true_bypass s) (headphone_cv_mode s) (cv_exp_pedal_mode s)
        (exp_pedal_mode s) (initialized s) (irqFlag1 s) v (level s)
        (irq_handlers s).
Definition with_level (v : modduox_gpios.line -> bool) (s : state) : state :=
  State (headphone_volume s) (input_left_gain_stage s)
        (input_right_gain_stage s) (left_true_bypass s)
        (right_true_bypass s) (headphone_cv_mode s) (cv_exp_pedal_mode s)
        (exp_pedal_mode s) (initialized s) (irqFlag1 s) (irqFlag2 s) v
        (irq_handlers s).
Definition with_irq_handlers (v : list Z) (s : state) : state :=
  State (headphone_volume s) (input_left_gain_stage s)
        (input_right_gain_stage s) (left_true_bypass s)
        (right_true_bypass s) (headphone_cv_mode s) (cv_exp_pedal_mode s)
        (exp_pedal_mode s) (initialized s) (irqFlag1 s) (irqFlag2 s)
        (level s) v.

Definition cmd (A : Type) : Type := M state gpio_write A.

(** Modelled from the spec: [gpiod_set_value] of gpiolib, which is not
    among the sources.  A digital pin is a single line with two levels;
    a write latches the level (any non-zero value is the high level)
    and is one pin transaction. *)
Definition gpiod_set_value (desc : modduox_gpios.line) (value : Z)
  : cmd unit :=
  modify (fun s =>
            with_level (fun l => if modduox_gpios.line_beq l desc
                                 then to_bool value
                                 else level s l) s) ;;
  emit (desc, value).

(** What the kernel answers during [moddevices_init]. *)
Record probe_env : Type := ProbeEnv {
  devm_kzalloc_ok : bool;            (* the allocation did not return NULL *)
  gain_stage_left1_is_err : bool;    (* IS_ERR(gain_stage_left1) *)
  gain_stage_left2_is_null : bool;   (* !gain_stage_left2 *)
  gpiod_to_irq_flag1 : Z;            (* gpiod_to_irq(exp_flag1) *)
  gpiod_to_irq_flag2 : Z;            (* gpiod_to_irq(exp_flag2) *)
  request_irq_flag1 : Z;             (* what request_irq returns, 1st call *)
  request_irq_flag2 : Z              (* what request_irq returns, 2nd call *)
}.

(** The variables as their initializers leave them, before the probe:
    no descriptor bundle yet, no line driven, no handler installed. *)
Definition boot : state :=
  State 0 0 0 true true false false EXP_PEDAL_SIGNAL_ON_TIP
        false 0 0 (fun _ => false) [].

(** The levels the output lines are requested with ([GPIOD_OUT_HIGH],
    and [GPIOD_OUT_LOW] for the inverted bypass lines); the two sense
    lines are inputs and keep what they read. *)
Definition devm_gpiod_get_levels (old : modduox_gpios.line -> bool)
  : modduox_gpios.line -> bool :=
  fun l =>
    match l with
    | modduox_gpios.true_bypass_left
    | modduox_gpios.true_bypass_right => false
    | modduox_gpios.exp_flag1
    | modduox_gpios.exp_flag2 => old l
    | _ => true
    end.

(** [request_irq(irq, exp_flag_irq_handler, ...)] answering [result]:
    on success the handler is installed on [irq]. *)
Definition request_irq (result irq : Z) : cmd Z :=
  if result =? 0
  then modify (fun s => with_irq_handlers (irq :: irq_handlers s) s) ;;
       ret 0
  else ret result.

Definition moddevices_init (env : probe_env) : cmd Z :=
  if negb (devm_kzalloc_ok env) then ret (- ENOMEM)
  else
    (* devm_kzalloc: a zeroed bundle *)
    modify (with_initialized false) ;;
    modify (with_irqFlag1 0) ;;
    modify (with_irqFlag2 0) ;;
    modify (fun s => with_level (devm_gpiod_get_levels (level s)) s) ;;
    if gain_stage_left1_is_err env || gain_stage_left2_is_null env then
      modify (with_initialized false) ;;
      ret 0
    else
      (* put headphone volume to lowest setting, so we know where we are *)
      gpiod_set_value modduox_gpios.headphone_dir 0 ;;
      for_lt 16
        (gpiod_set_value modduox_gpios.headphone_clk 1 ;;
         gpiod_set_value modduox_gpios.headphone_clk 0) ;;
      hcv <- gets headphone_cv_mode ;;
      gpiod_set_value modduox_gpios.headphone_cv_mode
        (if hcv then 1 else 0) ;;
      gpiod_set_value modduox_gpios.exp_enable1 0 ;;
      gpiod_set_value modduox_gpios.exp_enable2 0 ;;
      gpiod_set_value modduox_gpios.gain_stage_left1 1 ;;
      gpiod_set_value modduox_gpios.gain_stage_left2 1 ;;
      gpiod_set_value modduox_gpios.gain_stage_right1 1 ;;
      gpiod_set_value modduox_gpios.gain_stage_right2 1 ;;
      modify (with_initialized true) ;;
      modify (with_irqFlag1 (to_int (gpiod_to_irq_flag1 env))) ;;
      modify (with_irqFlag2 (to_int (gpiod_to_irq_flag2 env))) ;;
      f1 <- gets irqFlag1 ;;
      f2 <- gets irqFlag2 ;;
      (if (0 <? f1) && (0 <? f2) then
         r1 <- request_irq (request_irq_flag1 env) f1 ;;
         if negb (r1 =? 0) then
           modify (with_irqFlag1 0) ;; modify (with_irqFlag2 0)
         else
           r2 <- request_irq (request_irq_flag2 env) f2 ;;
           if negb (r2 =? 0) then
             modify (with_irqFlag1 0) ;; modify (with_irqFlag2 0)
           else ret tt
       else ret tt) ;;
      ret 0.

Definition set_headphone_volume (new_volume : Z) : cmd unit :=
  cur <- gets headphone_volume ;;
  let steps := abs (to_int (new_volume - cur)) in
  ini <- gets initialized ;;
  (if ini then
     gpiod_set_value modduox_gpios.headphone_dir
       (if new_volume >? cur then 1 else 0) ;;
     for_lt steps
       (gpiod_set_value modduox_gpios.headphone_clk 1 ;;
        gpiod_set_value modduox_gpios.headphone_clk 0)
   else ret tt) ;;
  modify (with_headphone_volume new_volume).

Definition gain_stage_select (channel state_arg : Z)
  : cmd (option (modduox_gpios.line * modduox_gpios.line)) :=
  if channel =? CHANNEL_LEFT then
    modify (with_input_left_gain_stage state_arg) ;;
    ret (Some (modduox_gpios.gain_stage_left1,
               modduox_gpios.gain_stage_left2))
  else if channel =? CHANNEL_RIGHT then
    modify (with_input_right_gain_stage state_arg) ;;
    ret (Some (modduox_gpios.gain_stage_right1,
               modduox_gpios.gain_stage_right2))
  else ret None.

Definition set_gain_stage (channel state_arg : Z) : cmd unit :=
  sel <- gain_stage_select channel state_arg ;;
  match sel with
  | None => ret tt
  | Some (gpio1, gpio2) =>
      ini <- gets initialized ;;
      if negb ini then ret tt
      else if state_arg =? 0 then
        gpiod_set_value gpio1 1 ;; gpiod_set_value gpio2 1
      else if state_arg =? 1 then
        gpiod_set_value gpio1 1 ;; gpiod_set_value gpio2 0
      else if state_arg =? 2 then
        gpiod_set_value gpio1 0 ;; gpiod_set_value gpio2 1
      else if state_arg =? 3 then
        gpiod_set_value gpio1 0 ;; gpiod_set_value gpio2 0
      else ret tt
  end.

Definition set_true_bypass (channel : Z) (state_arg : bool) : cmd unit :=
  if channel =? CHANNEL_LEFT then
    ini <- gets initialized ;;
    (if ini
     then gpiod_set_value modduox_gpios.true_bypass_left
            (if state_arg then GPIO_BYPASS else GPIO_PROCESS)
     else ret tt) ;;
    modify (with_left_true_bypass state_arg)
  else if channel =? CHANNEL_RIGHT then
    ini <- gets initialized ;;
    (if ini
     then gpiod_set_value modduox_gpios.true_bypass_right
            (if state_arg then GPIO_BYPASS else GPIO_PROCESS)
     else ret tt) ;;
    modify (with_right_true_bypass state_arg)
  else ret tt.

Definition set_headphone_cv_mode (mode : Z) : cmd unit :=
  if (mode =? 0) || (mode =? 1) then
    ini <- gets initialized ;;
    (if ini
     then gpiod_set_value modduox_gpios.headphone_cv_mode mode
     else ret tt) ;;
    modify (with_headphone_cv_mode (negb (mode =? 0)))
  else ret tt.

(** The message to the kernel log of the ignored call is left out. *)
Definition set_exp_pedal_mode (mode : Z) : cmd unit :=
  if (mode =? 0) || (mode =? 1) then
    cv <- gets cv_exp_pedal_mode ;;
    ini <- gets initialized ;;
    (if cv && ini then
       f1 <- gets irqFlag1 ;;
       f2 <- gets irqFlag2 ;;
       if (f1 <=? 0) || (f2 <=? 0) then ret tt
       else if mode =? of_bool EXP_PEDAL_SIGNAL_ON_TIP then
         gpiod_set_value modduox_gpios.exp_enable1 0 ;;
         gpiod_set_value modduox_gpios.exp_enable2 1
       else
         gpiod_set_value modduox_gpios.exp_enable2 0 ;;
         gpiod_set_value modduox_gpios.exp_enable1 1
     else ret tt) ;;
    modify (with_exp_pedal_mode (negb (mode =? 0)))
  else ret tt.

Definition set_cv_exp_pedal_mode (mode : Z) : cmd unit :=
  if mode =? 0 then (* cv mode *)
    modify (with_cv_exp_pedal_mode false) ;;
    ini <- gets initialized ;;
    if ini then
      gpiod_set_value modduox_gpios.exp_enable1 0 ;;
      gpiod_set_value modduox_gpios.exp_enable2 0
    else ret tt
  else if mode =? 1 then (* exp.pedal mode *)
    modify (with_cv_exp_pedal_mode true) ;;
    side <- gets exp_pedal_mode ;;
    set_exp_pedal_mode (of_bool side)
  else ret tt.

(** The handler of both sense-line interrupts; its message to the kernel
    log, which reads the two sense lines, is left out. *)
Definition exp_flag_irq_handler (irq : Z) : cmd Z :=
  set_cv_exp_pedal_mode 0 ;;
  ret IRQ_HANDLED.

(** *** Controls: [value] is [ucontrol->value.integer.value[0]], a
    [long]; it becomes an [int] or a [bool] where a setter takes one. *)

Definition headphone_get : cmd Z := gets headphone_volume.

Definition headphone_put (value : Z) : cmd Z :=
  cur <- gets headphone_volume ;;
  if negb (cur =? value)
  then set_headphone_volume (to_int value) ;; ret 1
  else ret 0.

Definition input_left_gain_stage_get : cmd Z := gets input_left_gain_stage.
Definition input_right_gain_stage_get : cmd Z := gets input_right_gain_stage.

Definition input_left_gain_stage_put (value : Z) : cmd Z :=
  cur <- gets input_left_gain_stage ;;
  if negb (cur =? value)
  then set_gain_stage CHANNEL_LEFT (to_int value) ;; ret 1
  else ret 0.

Definition input_right_gain_stage_put (value : Z) : cmd Z :=
  cur <- gets input_right_gain_stage ;;
  if negb (cur =? value)
  then set_gain_stage CHANNEL_RIGHT (to_int value) ;; ret 1
  else ret 0.

Definition left_true_bypass_get : cmd Z :=
  gets (fun s => of_bool (left_true_bypass s)).
Definition right_true_bypass_get : cmd Z :=
  gets (fun s => of_bool (right_true_bypass s)).

Definition left_true_bypass_put (value : Z) : cmd Z :=
  cur <- gets left_true_bypass ;;
  if negb (of_bool cur =? value)
  then set_true_bypass CHANNEL_LEFT (to_bool value) ;; ret 1
  else ret 0.

Definition right_true_bypass_put (value : Z) : cmd Z :=
  cur <- gets right_true_bypass ;;
  if negb (of_bool cur =? value)
  then set_true_bypass CHANNEL_RIGHT (to_bool value) ;; ret 1
  else ret 0.

Definition headphone_cv_mode_get : cmd Z :=
  gets (fun s => of_bool (headphone_cv_mode s)).

Definition headphone_cv_mode_put (value : Z) : cmd Z :=
  cur <- gets headphone_cv_mode ;;
  if negb (of_bool cur =? value)
  then set_headphone_cv_mode (to_int value) ;; ret 1
  else ret 0.

Definition cv_exp_pedal_mode_get : cmd Z :=
  gets (fun s => of_bool (cv_exp_pedal_mode s)).

Definition cv_exp_pedal_mode_put (value : Z) : cmd Z :=
  cur <- gets cv_exp_pedal_mode ;;
  if negb (of_bool cur =? value)
  then set_cv_exp_pedal_mode (to_int value) ;; ret 1
  else ret 0.

Definition exp_pedal_mode_get : cmd Z :=
  gets (fun s => of_bool (exp_pedal_mode s)).

Definition exp_pedal_mode_put (value : Z) : cmd Z :=
  cur <- gets exp_pedal_mode ;;
  if negb (of_bool cur =? value)
  then set_exp_pedal_mode (to_int value) ;; ret 1
  else ret 0.

(** *** The driver after the probe: control writes and interrupts *)

Inductive event : Type :=
| ctl_headphone (value : Z)
| ctl_input_left_gain_stage (value : Z)
| ctl_input_right_gain_stage (value : Z)
| ctl_left_true_bypass (value : Z)
| ctl_right_true_bypass (value : Z)
| ctl_headphone_cv_mode (value : Z)
| ctl_cv_exp_pedal_mode (value : Z)
| ctl_exp_pedal_mode (value : Z)
| exp_flag_irq (irq : Z).

Definition handle (ev : event) : cmd Z :=
  match ev with
  | ctl_headphone v => headphone_put v
  | ctl_input_left_gain_stage v => input_left_gain_stage_put v
  | ctl_input_right_gain_stage v => input_right_gain_stage_put v
  | ctl_left_true_bypass v => left_true_bypass_put v
  | ctl_right_true_bypass v => right_true_bypass_put v
  | ctl_headphone_cv_mode v => headphone_cv_mode_put v
  | ctl_cv_exp_pedal_mode v => cv_exp_pedal_mode_put v
  | ctl_exp_pedal_mode v => exp_pedal_mode_put v
  | exp_flag_irq irq => exp_flag_irq_handler irq
  end.

(** A control can be written at any time; an interrupt is delivered
    only on a line the handler was installed on. *)
Definition enabled (s : state) (ev : event) : Prop :=
  match ev with
  | exp_flag_irq irq => In irq (irq_handlers s)
  | _ => True
  end.

(** The states of the driver once [moddevices_init] has returned 0. *)
Inductive reachable (env : probe_env) : state -> Prop :=
| reach_probe :
    val (moddevices_init env boot) = 0 ->
    reachable env (post (moddevices_init env boot))
| reach_event : forall s ev,
    reachable env s -> enabled s ev ->
    reachable env (post (handle ev s)).

End CS4265.

(** ** Vocabulary of the statements *)

Module Spec.

(** [n] clock pulses on the line [clk]: each one drives it to 1, then
    to 0. *)
Fixpoint pulses {L : Type} (clk : L) (n : nat) : list (L * Z) :=
  match n with
  | O => []
  | S k => (clk, 1) :: (clk, 0) :: pulses clk k
  end.

(** The writes of a trace that go to the line [l] (told by [eqb]). *)
Definition writes_to {L : Type} (eqb : L -> L -> bool) (l : L)
           (t : list (L * Z)) : list (L * Z) :=
  filter (fun w => eqb (fst w) l) t.

(** The writes of a volume move from [cur] to [target]: the direction
    line once, to 1 for a move up and to 0 otherwise, then
    [|target - cur|] pulses on the clock line. *)
Definition volume_run {L : Type} (dir clk : L) (cur target : Z)
  : list (L * Z) :=
  (dir, if target >? cur then 1 else 0)
    :: pulses clk (Z.abs_nat (target - cur)).

(** The two-line pattern the spec tabulates for a gain-stage level:
    level 0 is (1,1), level 1 is (1,0), level 2 is (0,1), level 3 is
    (0,0). *)
Definition gain_pattern (lvl : Z) : Z * Z :=
  if lvl =? 0 then (1, 1)
  else if lvl =? 1 then (1, 0)
  else if lvl =? 2 then (0, 1)
  else (0, 0).

(** A setter drives the two lines [g1] and [g2] to the pattern of
    [lvl]: these two writes and no other, again the same two when the
    call is repeated on the state it left, and the two lines hold the
    pattern afterwards. *)
Definition drives_pattern {S L : Type} (level : S -> L -> bool)
           (set : Eff.M S (L * Z) unit) (g1 g2 : L) (lvl : Z) (st : S)
  : Prop :=
  let out := set st in
  let again := set (Eff.post out) in
  Eff.trace out = [(g1, fst (gain_pattern lvl)); (g2, snd (gain_pattern lvl))]
  /\ Eff.trace again = Eff.trace out
  /\ level (Eff.post out) g1 = CInt.to_bool (fst (gain_pattern lvl))
  /\ level (Eff.post out) g2 = CInt.to_bool (snd (gain_pattern lvl)).

(** A setter writes no pin, and the getter then returns [v]. *)
Definition silent_update {S L : Type} (set : Eff.M S (L * Z) unit)
           (get : Eff.M S (L * Z) Z) (v : Z) (st : S) : Prop :=
  Eff.trace (set st) = []
  /\ Eff.val (get (Eff.post (set st))) = v.

(** A bypass setter called with [engaged]: the mirror records
    [engaged] as given; with the pins initialized the one write drives
    the bypass line [pin] to 0 when engaged and to 1 when not, and
    without them no pin is written. *)
Definition bypass_inverted {S L : Type} (level : S -> L -> bool)
           (initialized mirror : S -> bool) (set : Eff.M S (L * Z) unit)
           (pin : L) (engaged : bool) (st : S) : Prop :=
  let out := set st in
  mirror (Eff.post out) = engaged
  /\ Eff.trace out
     = (if initialized st then [(pin, if engaged then 0 else 1)] else [])
  /\ (initialized st = true -> level (Eff.post out) pin = negb engaged).

(** On the Duo X, the interrupt handler is installed only on a pin set
    that is initialized. *)
Definition irq_safe (s : CS4265.state) : Prop :=
  CS4265.irq_handlers s <> [] -> CS4265.initialized s = true.

(** What no setter of the Duo X touches: the [initialized] flag and the
    interrupt lines the handler is installed on. *)
Definition same_probe_facts (s s' : CS4265.state) : Prop :=
  CS4265.initialized s' = CS4265.initialized s
  /\ CS4265.irq_handlers s' = CS4265.irq_handlers s.

(** Rows of a clock table, seen through their two clock fields. *)
Section Rows.
Context {row : Type} (mclk rate : row -> Z).

(** The row answers the request [(m, r)]: the test of the scan. *)
Definition answers (m r : Z) (e : row) : Prop :=
  rate e = CInt.to_u32 r /\ mclk e = CInt.to_u32 m.

(** The two clock fields are non-negative and below [2^31]. *)
Definition row_small (e : row) : bool :=
  (0 <=? mclk e) && (mclk e <? 2 ^ 31)
  && (0 <=? rate e) && (rate e <? 2 ^ 31).

(** The [(mclk, rate)] pair a row is looked up by. *)
Definition key (e : row) : Z * Z := (mclk e, rate e).

(** What the lookup owes to the request [(m, r)]: a row of the table
    with that pair is returned by its index, which is the first one
    whose row has the pair; without such a row the answer is
    [-EINVAL]. *)
Definition resolves (table : list row) (lookup : Z -> Z -> Z)
           (table_at : Z -> row) (m r : Z) : Prop :=
  (forall e, In e table -> mclk e = m -> rate e = r ->
     exists k,
       lookup m r = Z.of_nat k /\
       nth_error table k = Some e /\
       table_at (lookup m r) = e /\
       forall j e', (j < k)%nat -> nth_error table j = Some e' ->
                    ~ (mclk e' = m /\ rate e' = r))
  /\
  ((forall e, In e table -> ~ (mclk e = m /\ rate e = r)) ->
   lookup m r = - Linux.EINVAL).

(** Some row of the table has [freq] as its master clock. *)
Definition has_mclk (table : list row) (freq : Z) : Prop :=
  exists e, In e table /\ mclk e = freq.

End Rows.

(** What [set_sysclk] does, case by case, for a driver given by its
    table, its stored clock and its two clock functions: a zero
    frequency is ignored; a clock id other than 0 is refused and the
    stored clock kept; for clock id 0 a frequency of the table is
    stored, and any other is refused and the stored clock cleared, after
    which no rate resolves. *)
Section Sysclk.
Context {row priv : Type} (mclk : row -> Z) (table : list row).
Context (sysclk : priv -> Z).
Context (set_sysclk : Z -> Z -> Z -> Eff.M priv Regmap.update Z).
Context (lookup : Z -> Z -> Z).

Definition sysclk_contract (clk_id freq dir : Z) (c : priv) : Prop :=
  let out := set_sysclk clk_id freq dir c in
  (freq = 0 -> Eff.val out = 0 /\ Eff.post out = c)
  /\
  (freq <> 0 -> clk_id <> 0 ->
   Eff.val out = - Linux.EINVAL /\ Eff.post out = c)
  /\
  (freq <> 0 -> clk_id = 0 -> has_mclk mclk table freq ->
   Eff.val out = 0 /\ sysclk (Eff.post out) = freq)
  /\
  (freq <> 0 -> clk_id = 0 -> ~ has_mclk mclk table freq ->
   Eff.val out = - Linux.EINVAL /\ sysclk (Eff.post out) = 0 /\
   forall r, lookup (CInt.to_int (sysclk (Eff.post out))) r
             = - Linux.EINVAL).
End Sysclk.

(** No pair occurs twice in [l]. *)
Fixpoint keys_distinct (l : list (Z * Z)) : bool :=
  match l with
  | [] => true
  | k :: rest =>
      forallb (fun k' => negb ((fst k =? fst k') && (snd k =? snd k'))) rest
      && keys_distinct rest
  end.

End Spec.

(** ** Vocabulary of the further properties *)

Module Props.

(** The field of [width] bits of [x] that starts at bit [lo]. *)
Definition field (x lo width : Z) : Z :=
Z.land (Z.shiftr x lo) (Z.ones width).

(** The clock-provider settings and the interface formats the drivers
  accept. *)
Definition known_master (m : Z) : Prop :=
m = Linux.SND_SOC_DAIFMT_CBM_CFM \/ m = Linux.SND_SOC_DAIFMT_CBS_CFS.

Definition known_format (f : Z) : Prop :=
f = Linux.SND_SOC_DAIFMT_I2S \/ f = Linux.SND_SOC_DAIFMT_RIGHT_J
\/ f = Linux.SND_SOC_DAIFMT_LEFT_J.

(** Some row of the CS4245 table has the pair [(m, r)]. *)
Definition has_row (m r : Z) : Prop :=
exists e, In e CS4245.clk_map_table
          /\ CS4245.cs4245_clk_para.mclk e = m
          /\ CS4245.cs4245_clk_para.rate e = r.

(** A capture stream on a right-justified interface, which
  [cs4245_pcm_hw_params] refuses. *)
Definition capture_right_justified (stream fmt : Z) : Prop :=
stream = Linux.SNDRV_PCM_STREAM_CAPTURE
/\ Z.land fmt Linux.SND_SOC_DAIFMT_FORMAT_MASK
   = Linux.SND_SOC_DAIFMT_RIGHT_J.

(** The register cache once [cs4245_pcm_hw_params] has written the clock
  fields of the row [e], and the two updates that do it. *)
Definition clocked (e : CS4245.cs4245_clk_para.t) (cache : Z -> Z)
: Z -> Z :=
Regmap.update_bits CS4245.CS4245_MCLK_FREQ CS4245.CS4245_MCLK_FREQ_MASK
  (Z.shiftl (CS4245.cs4245_clk_para.mclkdiv e) 4)
  (Regmap.update_bits CS4245.CS4245_ADC_CTL CS4245.CS4245_ADC_FM
     (Z.shiftl (CS4245.cs4245_clk_para.fm_mode e) 6) cache).

Definition clock_updates (e : CS4245.cs4245_clk_para.t)
: list Regmap.update :=
[ Regmap.Update CS4245.CS4245_ADC_CTL CS4245.CS4245_ADC_FM
    (Z.shiftl (CS4245.cs4245_clk_para.fm_mode e) 6);
  Regmap.Update CS4245.CS4245_MCLK_FREQ CS4245.CS4245_MCLK_FREQ_MASK
    (Z.shiftl (CS4245.cs4245_clk_para.mclkdiv e) 4) ].

(** The calls of the DAI operations of the CS4245. *)
Inductive dai_call : Type :=
| call_set_sysclk (clk_id freq dir : Z)
| call_set_fmt (fmt : Z)
| call_digital_mute (mute direction : Z)
| call_hw_params (stream rate width : Z).

Definition dai_run (c : dai_call) : CS4245.codec Z :=
match c with
| call_set_sysclk clk_id freq dir => CS4245.cs4245_set_sysclk clk_id freq dir
| call_set_fmt fmt => CS4245.cs4245_set_fmt fmt
| call_digital_mute mute direction => CS4245.cs4245_digital_mute mute direction
| call_hw_params stream rate width =>
    CS4245.cs4245_pcm_hw_params stream rate width
end.

(** The state after a list of calls, first call first. *)
Fixpoint dai_runs (cs : list dai_call) (c : CS4245.cs4245_private)
: CS4245.cs4245_private :=
match cs with
| [] => c
| x :: rest => dai_runs rest (Eff.post (dai_run x c))
end.

(** What the private data of the CS4245 always satisfies: the stored
  format is unset (0) or one of the three accepted formats, and the
  stored clock is unset (0) or a master clock of the table. *)
Definition private_ok (c : CS4245.cs4245_private) : Prop :=
(CS4245.format c = 0 \/ known_format (CS4245.format c))
/\ (CS4245.sysclk c = 0
    \/ Spec.has_mclk CS4245.cs4245_clk_para.mclk CS4245.clk_map_table
                     (CS4245.sysclk c)).

(** Every transaction of a call satisfies [P]. *)
Definition emits_only {S E A : Type} (P : E -> Prop) (m : Eff.M S E A)
: Prop :=
forall s, Forall P (Eff.trace (m s)).

End Props.

(** ** Vocabulary of the further properties: the controls of the Duo X *)

Module DuoX.

(** The eight board controls of cs4265.c. *)
Inductive control : Type :=
| k_headphone
| k_gain_left
| k_gain_right
| k_bypass_left
| k_bypass_right
| k_headphone_cv_mode
| k_cv_exp_pedal_mode
| k_exp_pedal_mode.

(** The [get] handler of a control. *)
Definition get (k : control) : CS4265.cmd Z :=
match k with
| k_headphone => CS4265.headphone_get
| k_gain_left => CS4265.input_left_gain_stage_get
| k_gain_right => CS4265.input_right_gain_stage_get
| k_bypass_left => CS4265.left_true_bypass_get
| k_bypass_right => CS4265.right_true_bypass_get
| k_headphone_cv_mode => CS4265.headphone_cv_mode_get
| k_cv_exp_pedal_mode => CS4265.cv_exp_pedal_mode_get
| k_exp_pedal_mode => CS4265.exp_pedal_mode_get
end.

(** The [put] handler of a control. *)
Definition put (k : control) (value : Z) : CS4265.cmd Z :=
match k with
| k_headphone => CS4265.headphone_put value
| k_gain_left => CS4265.input_left_gain_stage_put value
| k_gain_right => CS4265.input_right_gain_stage_put value
| k_bypass_left => CS4265.left_true_bypass_put value
| k_bypass_right => CS4265.right_true_bypass_put value
| k_headphone_cv_mode => CS4265.headphone_cv_mode_put value
| k_cv_exp_pedal_mode => CS4265.cv_exp_pedal_mode_put value
| k_exp_pedal_mode => CS4265.exp_pedal_mode_put value
end.

(** The control an event acts on; the interrupt acts on the
  CV / expression-pedal mode. *)
Definition control_of (ev : CS4265.event) : control :=
match ev with
| CS4265.ctl_headphone _ => k_headphone
| CS4265.ctl_input_left_gain_stage _ => k_gain_left
| CS4265.ctl_input_right_gain_stage _ => k_gain_right
| CS4265.ctl_left_true_bypass _ => k_bypass_left
| CS4265.ctl_right_true_bypass _ => k_bypass_right
| CS4265.ctl_headphone_cv_mode _ => k_headphone_cv_mode
| CS4265.ctl_cv_exp_pedal_mode _ => k_cv_exp_pedal_mode
| CS4265.ctl_exp_pedal_mode _ => k_exp_pedal_mode
| CS4265.exp_flag_irq _ => k_cv_exp_pedal_mode
end.

(** The lines a control drives; the two mode controls of the
  expression-pedal input share the two enable lines. *)
Definition lines (k : control) : list CS4265.modduox_gpios.line :=
match k with
| k_headphone => [CS4265.modduox_gpios.headphone_dir;
                  CS4265.modduox_gpios.headphone_clk]
| k_gain_left => [CS4265.modduox_gpios.gain_stage_left1;
                  CS4265.modduox_gpios.gain_stage_left2]
| k_gain_right => [CS4265.modduox_gpios.gain_stage_right1;
                   CS4265.modduox_gpios.gain_stage_right2]
| k_bypass_left => [CS4265.modduox_gpios.true_bypass_left]
| k_bypass_right => [CS4265.modduox_gpios.true_bypass_right]
| k_headphone_cv_mode => [CS4265.modduox_gpios.headphone_cv_mode]
| k_cv_exp_pedal_mode
| k_exp_pedal_mode => [CS4265.modduox_gpios.exp_enable1;
                       CS4265.modduox_gpios.exp_enable2]
end.

(** The values a control is meant for: an [int] for the three integer
  controls, 0 or 1 for the five boolean ones. *)
Definition valid (k : control) (value : Z) : Prop :=
match k with
| k_headphone | k_gain_left | k_gain_right => CInt.in_int value
| _ => value = 0 \/ value = 1
end.






(** The three mode switches. *)
Definition mode_control (k : control) : bool :=
match k with
| k_headphone_cv_mode | k_cv_exp_pedal_mode | k_exp_pedal_mode => true
| _ => false
end.

End DuoX.

(** ** Vocabulary of the further properties: the controls of the Duo *)

Module Duo.

(** The five board controls of cs4245.c. *)
Inductive control : Type :=
| k_headphone
| k_gain_left
| k_gain_right
| k_bypass_left
| k_bypass_right.

(** The [get] handler of a control. *)
Definition get (k : control) : CS4245.cmd Z :=
match k with
| k_headphone => CS4245.headphone_get
| k_gain_left => CS4245.input_left_gain_stage_get
| k_gain_right => CS4245.input_right_gain_stage_get
| k_bypass_left => CS4245.left_true_bypass_get
| k_bypass_right => CS4245.right_true_bypass_get
end.

(** The [put] handler of a control. *)
Definition put (k : control) (value : Z) : CS4245.cmd Z :=
match k with
| k_headphone => CS4245.headphone_put value
| k_gain_left => CS4245.input_left_gain_stage_put value
| k_gain_right => CS4245.input_right_gain_stage_put value
| k_bypass_left => CS4245.left_true_bypass_put value
| k_bypass_right => CS4245.right_true_bypass_put value
end.

(** The lines a control drives. *)
Definition lines (k : control) : list CS4245.modduo_gpios.line :=
match k with
| k_headphone => [CS4245.modduo_gpios.headphone_dir;
                  CS4245.modduo_gpios.headphone_clk]
| k_gain_left => [CS4245.modduo_gpios.gain_stage_left1;
                  CS4245.modduo_gpios.gain_stage_left2]
| k_gain_right => [CS4245.modduo_gpios.gain_stage_right1;
                   CS4245.modduo_gpios.gain_stage_right2]
| k_bypass_left => [CS4245.modduo_gpios.true_bypass_left]
| k_bypass_right => [CS4245.modduo_gpios.true_bypass_right]
end.

(** The values a control is meant for: an [int] for the three integer
  controls, 0 or 1 for the two bypass switches. *)
Definition valid (k : control) (value : Z) : Prop :=
match k with
| k_headphone | k_gain_left | k_gain_right => CInt.in_int value
| _ => value = 0 \/ value = 1
end.

End Duo.
(** ** Facts about the C integer conversions *)

Section CIntFacts.

Import CInt.

Lemma to_int_id z : in_int z -> to_int z = z.
Proof.
  unfold in_int, int_min, int_max, to_int. intros H.
  rewrite Z.mod_small; lia.
Qed.

Lemma to_u32_nonneg z : 0 <= z < 2 ^ 32 -> to_u32 z = z.
Proof. unfold to_u32. intros H. apply Z.mod_small. exact H. Qed.

(** A negative [int] becomes a [u32] of at least [2^31]. *)
Lemma to_u32_neg z : int_min <= z < 0 -> to_u32 z = z + 2 ^ 32.
Proof.
  unfold int_min, to_u32. intros H.
  symmetry. apply Z.mod_unique with (q := -1); lia.
Qed.

(** On an [int], the [u32] conversion hits a value below [2^31] only
    when the [int] is that value. *)
Lemma to_u32_eq_small z v :
  in_int z -> 0 <= v < 2 ^ 31 -> (to_u32 z = v <-> z = v).
Proof.
  unfold in_int, int_max. intros Hz Hv.
  destruct (Z_lt_le_dec z 0) as [Hn | Hp].
  - rewrite to_u32_neg by lia. unfold int_min in Hz. lia.
  - rewrite to_u32_nonneg by lia. tauto.
Qed.

Lemma abs_small z : - 2 ^ 31 < z < 2 ^ 31 -> abs z = Z.abs z.
Proof.
  unfold abs. intros H.
  destruct (Z.ltb_spec z 0).
  - rewrite to_int_id by (unfold in_int, int_min, int_max; lia). lia.
  - lia.
Qed.

End CIntFacts.
(** ** The clock resolver *)

(** The two drivers carry the same scan over a table of their own row
    type; the facts are proved once, over a scan given by its two
    equations. *)
Section Scan.

Import CInt Linux Spec.

Context {row : Type} (mclk rate : row -> Z).
Variable scan : list row -> Z -> Z -> Z -> Z.
Hypothesis scan_nil : forall i m r, scan [] i m r = - EINVAL.
Hypothesis scan_cons : forall e rest i m r,
    scan (e :: rest) i m r =
    if (rate e =? to_u32 r) && (mclk e =? to_u32 m) then i
    else scan rest (i + 1) m r.

Lemma answers_test m r e :
  (rate e =? to_u32 r) && (mclk e =? to_u32 m) = true
  <-> answers mclk rate m r e.
Proof.
  unfold answers. rewrite andb_true_iff, !Z.eqb_eq. tauto.
Qed.

(** The scan is a first-match search: either no row answers and the
    result is [-EINVAL], or the result is the position of the first
    row that answers. *)
Lemma scan_first tbl : forall i m r,
  (scan tbl i m r = - EINVAL /\
   forall e, In e tbl -> ~ answers mclk rate m r e)
  \/
  (exists k e,
      scan tbl i m r = i + Z.of_nat k /\
      nth_error tbl k = Some e /\ answers mclk rate m r e /\
      forall j e', (j < k)%nat -> nth_error tbl j = Some e' ->
                   ~ answers mclk rate m r e').
Proof.
  induction tbl as [| x rest IH]; intros i m r.
  - left. split; [apply scan_nil | intros e []].
  - rewrite scan_cons.
    destruct ((rate x =? to_u32 r) && (mclk x =? to_u32 m)) eqn:Hx.
    + right. exists 0%nat, x. apply answers_test in Hx.
      split; [simpl; lia |]. split; [reflexivity |]. split; [exact Hx |].
      intros j e' Hj; lia.
    + assert (Hnx : ~ answers mclk rate m r x).
      { intros Ha. apply answers_test in Ha. congruence. }
      destruct (IH (i + 1) m r)
        as [[Hres Hno] | (k & e & Hres & Hk & He & Hfirst)].
      * left. split; [exact Hres |].
        intros e [<- | Hin]; [exact Hnx | exact (Hno e Hin)].
      * right. exists (S k), e.
        split; [rewrite Hres; lia |]. split; [exact Hk |].
        split; [exact He |].
        intros j e' Hj Hnth. destruct j as [| j]; simpl in Hnth.
        -- injection Hnth as <-. exact Hnx.
        -- apply (Hfirst j e'); [lia | exact Hnth].
Qed.

Variable table : list row.
Hypothesis table_small : forallb (row_small mclk rate) table = true.
Hypothesis table_keys : keys_distinct (map (key mclk rate) table) = true.

Lemma table_row_small e :
  In e table -> 0 <= mclk e < 2 ^ 31 /\ 0 <= rate e < 2 ^ 31.
Proof.
  intros Hin. pose proof table_small as Hall.
  rewrite forallb_forall in Hall. specialize (Hall e Hin).
  unfold row_small in Hall.
  rewrite !andb_true_iff, !Z.leb_le, !Z.ltb_lt in Hall. lia.
Qed.

(** On [int] requests a row answers exactly when it has the pair. *)
Lemma answers_iff m r e :
  in_int m -> in_int r -> In e table ->
  (answers mclk rate m r e <-> mclk e = m /\ rate e = r).
Proof.
  intros Hm Hr Hin. destruct (table_row_small e Hin) as [Hme Hre].
  unfold answers.
  pose proof (to_u32_eq_small m (mclk e) Hm Hme) as Em.
  pose proof (to_u32_eq_small r (rate e) Hr Hre) as Er.
  split.
  - intros [Ha Hb].
    split; symmetry; [apply Em | apply Er]; symmetry; assumption.
  - intros [Ha Hb].
    split; symmetry; [apply Er | apply Em]; symmetry; assumption.
Qed.

Lemma keys_distinct_NoDup l : keys_distinct l = true -> NoDup l.
Proof.
  induction l as [| k rest IH]; simpl; intros H.
  - constructor.
  - apply andb_true_iff in H as [Hk Hrest]. constructor; [| auto].
    intros Hin. rewrite forallb_forall in Hk. specialize (Hk k Hin).
    rewrite !Z.eqb_refl in Hk. discriminate.
Qed.

Lemma NoDup_map_inj {A B} (f : A -> B) (l : list A) :
  NoDup (map f l) -> forall a b, In a l -> In b l -> f a = f b -> a = b.
Proof.
  induction l as [| x rest IH]; simpl; intros Hnd a b Ha Hb Hf;
    [contradiction |].
  inversion Hnd as [| ? ? Hnotin Hnd']; subst.
  destruct Ha as [-> | Ha], Hb as [-> | Hb].
  - reflexivity.
  - exfalso. apply Hnotin. rewrite Hf. apply in_map. exact Hb.
  - exfalso. apply Hnotin. rewrite <- Hf. apply in_map. exact Ha.
  - apply IH; assumption.
Qed.

(** The table has no duplicate [(mclk, rate)] pair: a pair names its
    row. *)
Lemma table_row_unique a b :
  In a table -> In b table -> mclk a = mclk b -> rate a = rate b -> a = b.
Proof.
  intros Ha Hb Hm Hr.
  apply (NoDup_map_inj (key mclk rate) table
           (keys_distinct_NoDup _ table_keys) a b Ha Hb).
  unfold key. congruence.
Qed.

Variable dflt : row.

Lemma scan_resolves m r :
  in_int m -> in_int r ->
  resolves mclk rate table (scan table 0)
           (fun index => nth (Z.to_nat index) table dflt) m r.
Proof.
  intros Hm Hr. split.
  - intros e Hin Hem Her.
    destruct (scan_first table 0 m r)
      as [[_ Hno] | (k & e' & Hres & Hk & He' & Hfirst)].
    + exfalso. apply (Hno e Hin). apply answers_iff; auto.
    + assert (Hin' : In e' table) by (eapply nth_error_In; eauto).
      apply answers_iff in He'; auto. destruct He' as [Hm' Hr'].
      assert (e' = e) as ->.
      { apply table_row_unique; auto; congruence. }
      exists k. rewrite Hres. rewrite Z.add_0_l.
      split; [reflexivity |]. split; [exact Hk |]. split.
      * rewrite Nat2Z.id. apply nth_error_nth. exact Hk.
      * intros j e0 Hj Hnth Habs.
        apply (Hfirst j e0 Hj Hnth).
        apply answers_iff; auto. eapply nth_error_In; eauto.
  - intros Hno.
    destruct (scan_first table 0 m r)
      as [[Hres _] | (k & e' & _ & Hk & He' & _)]; [exact Hres |].
    exfalso.
    assert (Hin' : In e' table) by (eapply nth_error_In; eauto).
    apply (Hno e' Hin'). apply answers_iff; auto.
Qed.

(** With no clock stored (0) the scan finds nothing, whatever the
    rate: no row has a master clock of 0. *)
Hypothesis table_mclk_nonzero :
  forallb (fun e => negb (mclk e =? 0)) table = true.

Lemma scan_unset_clock r : scan table 0 0 r = - EINVAL.
Proof.
  destruct (scan_first table 0 0 r)
    as [[Hres _] | (k & e' & _ & Hk & [_ He'] & _)]; [exact Hres |].
  exfalso.
  assert (Hin' : In e' table) by (eapply nth_error_In; eauto).
  pose proof table_mclk_nonzero as Hall.
  rewrite forallb_forall in Hall. specialize (Hall e' Hin').
  change (to_u32 0) with 0 in He'.
  rewrite He' in Hall. discriminate.
Qed.

(** The loop of [set_sysclk], given by its two equations. *)
Variable mclk_scan : list row -> Z -> bool.
Hypothesis mclk_scan_nil : forall freq, mclk_scan [] freq = false.
Hypothesis mclk_scan_cons : forall e rest freq,
    mclk_scan (e :: rest) freq =
    if mclk e =? freq then true else mclk_scan rest freq.

Lemma mclk_scan_spec tbl freq :
  mclk_scan tbl freq = true <-> has_mclk mclk tbl freq.
Proof.
  unfold has_mclk. induction tbl as [| x rest IH].
  - rewrite mclk_scan_nil. split; [discriminate | intros (e & [] & _)].
  - rewrite mclk_scan_cons. destruct (Z.eqb_spec (mclk x) freq) as [E | N].
    + split; [| reflexivity]. intros _. exists x. split; [left |]; auto.
    + rewrite IH. split.
      * intros (e & Hin & He). exists e. split; [right |]; auto.
      * intros (e & [<- | Hin] & He); [contradiction |].
        exists e. auto.
Qed.

End Scan.

(** *** The two tables *)

Section ClockTables.

Import CInt Linux Spec.

Lemma cs4245_resolves m r :
  in_int m -> in_int r ->
  resolves CS4245.cs4245_clk_para.mclk CS4245.cs4245_clk_para.rate
           CS4245.clk_map_table CS4245.cs4245_get_clk_index
           CS4245.clk_map_table_at m r.
Proof.
  intros Hm Hr.
  assert (Hs : forallb (row_small CS4245.cs4245_clk_para.mclk
                                  CS4245.cs4245_clk_para.rate)
                       CS4245.clk_map_table = true)
    by (vm_compute; reflexivity).
  assert (Hk : keys_distinct
                 (map (key CS4245.cs4245_clk_para.mclk
                           CS4245.cs4245_clk_para.rate)
                      CS4245.clk_map_table) = true)
    by (vm_compute; reflexivity).
  exact (scan_resolves _ _ CS4245.get_clk_index_from
           (fun _ _ _ => eq_refl) (fun _ _ _ _ _ => eq_refl)
           CS4245.clk_map_table Hs Hk
           (CS4245.cs4245_clk_para.P 0 0 0 0) m r Hm Hr).
Qed.

Lemma cs4265_resolves m r :
  in_int m -> in_int r ->
  resolves CS4265.cs4265_clk_para.mclk CS4265.cs4265_clk_para.rate
           CS4265.clk_map_table CS4265.cs4265_get_clk_index
           CS4265.clk_map_table_at m r.
Proof.
  intros Hm Hr.
  assert (Hs : forallb (row_small CS4265.cs4265_clk_para.mclk
                                  CS4265.cs4265_clk_para.rate)
                       CS4265.clk_map_table = true)
    by (vm_compute; reflexivity).
  assert (Hk : keys_distinct
                 (map (key CS4265.cs4265_clk_para.mclk
                           CS4265.cs4265_clk_para.rate)
                      CS4265.clk_map_table) = true)
    by (vm_compute; reflexivity).
  exact (scan_resolves _ _ CS4265.get_clk_index_from
           (fun _ _ _ => eq_refl) (fun _ _ _ _ _ => eq_refl)
           CS4265.clk_map_table Hs Hk
           (CS4265.cs4265_clk_para.P 0 0 0 0) m r Hm Hr).
Qed.

Lemma cs4245_unset_clock r : CS4245.cs4245_get_clk_index 0 r = - EINVAL.
Proof.
  assert (Hz : forallb (fun e => negb (CS4245.cs4245_clk_para.mclk e =? 0))
                       CS4245.clk_map_table = true)
    by (vm_compute; reflexivity).
  exact (scan_unset_clock CS4245.cs4245_clk_para.mclk
           CS4245.cs4245_clk_para.rate CS4245.get_clk_index_from
           (fun _ _ _ => eq_refl) (fun _ _ _ _ _ => eq_refl)
           CS4245.clk_map_table Hz r).
Qed.

Lemma cs4265_unset_clock r : CS4265.cs4265_get_clk_index 0 r = - EINVAL.
Proof.
  assert (Hz : forallb (fun e => negb (CS4265.cs4265_clk_para.mclk e =? 0))
                       CS4265.clk_map_table = true)
    by (vm_compute; reflexivity).
  exact (scan_unset_clock CS4265.cs4265_clk_para.mclk
           CS4265.cs4265_clk_para.rate CS4265.get_clk_index_from
           (fun _ _ _ => eq_refl) (fun _ _ _ _ _ => eq_refl)
           CS4265.clk_map_table Hz r).
Qed.

Lemma cs4245_sysclk_scan freq :
  CS4245.sysclk_scan CS4245.clk_map_table freq = true
  <-> has_mclk CS4245.cs4245_clk_para.mclk CS4245.clk_map_table freq.
Proof.
  exact (mclk_scan_spec CS4245.cs4245_clk_para.mclk CS4245.sysclk_scan
           (fun _ => eq_refl) (fun _ _ _ => eq_refl)
           CS4245.clk_map_table freq).
Qed.

Lemma cs4265_sysclk_scan freq :
  CS4265.sysclk_scan CS4265.clk_map_table freq = true
  <-> has_mclk CS4265.cs4265_clk_para.mclk CS4265.clk_map_table freq.
Proof.
  exact (mclk_scan_spec CS4265.cs4265_clk_para.mclk CS4265.sysclk_scan
           (fun _ => eq_refl) (fun _ _ _ => eq_refl)
           CS4265.clk_map_table freq).
Qed.

End ClockTables.

(** *** The lookup as [cs4245_pcm_hw_params] uses it *)

Section HwParams.

Import CInt Linux Spec CS4245 CS4245.cs4245_clk_para.

(** A [u32] taken as an [int] is an [int]; it is a given small value
    only when the [u32] was. *)
Lemma to_int_in_int z : in_int (to_int z).
Proof.
  unfold in_int, int_min, int_max, to_int.
  pose proof (Z.mod_pos_bound (z + 2 ^ 31) (2 ^ 32)). lia.
Qed.

Lemma to_int_eq_small z v :
  in_u32 z -> 0 <= v < 2 ^ 31 -> (to_int z = v <-> z = v).
Proof.
  unfold in_u32, to_int. intros Hz Hv.
  destruct (Z_lt_le_dec z (2 ^ 31)) as [Hlo | Hhi].
  - rewrite Z.mod_small by lia. lia.
  - replace ((z + 2 ^ 31) mod 2 ^ 32) with (z - 2 ^ 31).
    + lia.
    + apply Z.mod_unique with (q := 1); lia.
Qed.

(** When the request is not refused for its format, the first two
    register updates carry the [fm_mode] and the [mclkdiv] of the row
    of the stored clock and the rate; without such a row the call
    fails with [-EINVAL] before any update. *)
Lemma cs4245_pcm_hw_params_clock c stream rate_arg width :
  in_u32 (sysclk c) -> in_u32 rate_arg ->
  (stream =? SNDRV_PCM_STREAM_CAPTURE)
  && (Z.land (format c) SND_SOC_DAIFMT_FORMAT_MASK
      =? SND_SOC_DAIFMT_RIGHT_J) = false ->
  let out := cs4245_pcm_hw_params stream rate_arg width c in
  (forall e, In e clk_map_table -> mclk e = sysclk c -> rate e = rate_arg ->
     firstn 2 (trace out) =
     [ Regmap.Update CS4245_ADC_CTL CS4245_ADC_FM (Z.shiftl (fm_mode e) 6);
       Regmap.Update CS4245_MCLK_FREQ CS4245_MCLK_FREQ_MASK
                     (Z.shiftl (mclkdiv e) 4) ])
  /\
  ((forall e, In e clk_map_table ->
              ~ (mclk e = sysclk c /\ rate e = rate_arg)) ->
   val out = - EINVAL /\ trace out = [] /\ post out = c).
Proof.
  intros Hc Hr Hfmt out.
  destruct (cs4245_resolves (to_int (sysclk c)) (to_int rate_arg)
              (to_int_in_int _) (to_int_in_int _)) as [Hpres Habs].
  assert (Hsmall : forall e, In e clk_map_table ->
              0 <= mclk e < 2 ^ 31 /\ 0 <= rate e < 2 ^ 31).
  { apply table_row_small. vm_compute. reflexivity. }
  subst out. unfold cs4245_pcm_hw_params, bind, gets. simpl.
  rewrite Hfmt. simpl. split.
  - intros e Hin Hem Her. destruct (Hsmall e Hin) as [Hme Hre].
    destruct (Hpres e Hin) as (k & Hidx & _ & Hat & _).
    + symmetry. apply to_int_eq_small; auto.
    + symmetry. apply to_int_eq_small; auto.
    + rewrite Hat, Hidx.
      replace (0 <=? Z.of_nat k) with true by (symmetry; apply Z.leb_le; lia).
      reflexivity.
  - intros Hno. rewrite Habs.
    + simpl. destruct c; auto.
    + intros e Hin [Hem Her]. destruct (Hsmall e Hin) as [Hme Hre].
      apply (Hno e Hin). split.
      * symmetry. apply to_int_eq_small; auto.
      * symmetry. apply to_int_eq_small; auto.
Qed.

End HwParams.

(** *** Statements on the clock resolver *)

(** C1.  A request [(m, r)] whose pair is in the static clock table is
    answered by the index of its row, found as the first match of the
    scan, so that the row read back at that index (its [fm_mode] and
    [mclkdiv]) is the tabulated one; a request whose pair is in no row is
    answered by [-EINVAL].  Both drivers. *)
Theorem C1_clock_lookup (m r : Z)
        (Hm : CInt.in_int m) (Hr : CInt.in_int r) :
  Spec.resolves CS4245.cs4245_clk_para.mclk CS4245.cs4245_clk_para.rate
                CS4245.clk_map_table CS4245.cs4245_get_clk_index
                CS4245.clk_map_table_at m r
  /\
  Spec.resolves CS4265.cs4265_clk_para.mclk CS4265.cs4265_clk_para.rate
                CS4265.clk_map_table CS4265.cs4265_get_clk_index
                CS4265.clk_map_table_at m r.
Proof.
  split; [apply cs4245_resolves | apply cs4265_resolves]; assumption.
Qed.

Lemma C1_clock_lookup_witness :
  CInt.in_int 12288000 /\ CInt.in_int 48000 /\
  (Spec.resolves CS4245.cs4245_clk_para.mclk CS4245.cs4245_clk_para.rate
                 CS4245.clk_map_table CS4245.cs4245_get_clk_index
                 CS4245.clk_map_table_at 12288000 48000
   /\
   Spec.resolves CS4265.cs4265_clk_para.mclk CS4265.cs4265_clk_para.rate
                 CS4265.clk_map_table CS4265.cs4265_get_clk_index
                 CS4265.clk_map_table_at 12288000 48000).
Proof.
  assert (Hm : CInt.in_int 12288000)
    by (unfold CInt.in_int, CInt.int_min, CInt.int_max; lia).
  assert (Hr : CInt.in_int 48000)
    by (unfold CInt.in_int, CInt.int_min, CInt.int_max; lia).
  exact (conj Hm (conj Hr (C1_clock_lookup 12288000 48000 Hm Hr))).
Defined.

(** The lookup on a few requests: 12.288 MHz at 48 kHz is row 10 with
    [fm_mode] 0 and [mclkdiv] 0; 49.152 MHz at 192 kHz is the last row;
    12.288 MHz at 44.1 kHz is in no row. *)
Example cs4245_get_clk_index_examples :
  CS4245.cs4245_get_clk_index 12288000 48000 = 10 /\
  CS4245.clk_map_table_at 10 = CS4245.cs4245_clk_para.P 12288000 48000 0 0 /\
  CS4245.cs4245_get_clk_index 49152000 192000 = 44 /\
  CS4245.clk_map_table_at 44 = CS4245.cs4245_clk_para.P 49152000 192000 2 4 /\
  CS4245.cs4245_get_clk_index 12288000 44100 = - Linux.EINVAL /\
  CS4265.cs4265_get_clk_index 12288000 44100 = - Linux.EINVAL.
Proof. repeat split; reflexivity. Qed.

(** C2 (as amended).  With a non-zero frequency, [set_sysclk] on clock id
    0 succeeds exactly when the frequency is the master clock of some row
    of the table, and then stores it; on clock id 0 a frequency of no row
    fails with [-EINVAL] and clears the stored clock to 0, after which the
    lookup against the stored clock fails for every rate; on any other
    clock id the call fails with [-EINVAL] and leaves the stored clock as
    it was; a zero frequency is accepted and changes nothing.  Both
    drivers. *)
Theorem C2_set_sysclk_amended (clk_id freq dir : Z)
        (c45 : CS4245.cs4245_private) (c65 : CS4265.cs4265_private) :
  Spec.sysclk_contract CS4245.cs4245_clk_para.mclk CS4245.clk_map_table
                       CS4245.sysclk CS4245.cs4245_set_sysclk
                       CS4245.cs4245_get_clk_index clk_id freq dir c45
  /\
  Spec.sysclk_contract CS4265.cs4265_clk_para.mclk CS4265.clk_map_table
                       CS4265.sysclk CS4265.cs4265_set_sysclk
                       CS4265.cs4265_get_clk_index clk_id freq dir c65.
Proof.
  split.
  - unfold Spec.sysclk_contract, CS4245.cs4245_set_sysclk.
    destruct (Z.eqb_spec freq 0) as [F0 | F0];
      [| destruct (Z.eqb_spec clk_id 0) as [K0 | K0]];
      cbn [negb].
    + repeat split; try contradiction; destruct c45; reflexivity.
    + destruct (CS4245.sysclk_scan CS4245.clk_map_table freq) eqn:Hscan.
      * apply cs4245_sysclk_scan in Hscan.
        repeat split; try contradiction; try reflexivity.
      * assert (Hno : ~ Spec.has_mclk CS4245.cs4245_clk_para.mclk
                        CS4245.clk_map_table freq).
        { intros H. apply cs4245_sysclk_scan in H. congruence. }
        repeat split; try contradiction; try reflexivity.
        intros r. apply cs4245_unset_clock.
    + repeat split; try contradiction; destruct c45; reflexivity.
  - unfold Spec.sysclk_contract, CS4265.cs4265_set_sysclk.
    destruct (Z.eqb_spec freq 0) as [F0 | F0];
      [| destruct (Z.eqb_spec clk_id 0) as [K0 | K0]];
      cbn [negb].
    + repeat split; try contradiction; destruct c65; reflexivity.
    + destruct (CS4265.sysclk_scan CS4265.clk_map_table freq) eqn:Hscan.
      * apply cs4265_sysclk_scan in Hscan.
        repeat split; try contradiction; try reflexivity.
      * assert (Hno : ~ Spec.has_mclk CS4265.cs4265_clk_para.mclk
                        CS4265.clk_map_table freq).
        { intros H. apply cs4265_sysclk_scan in H. congruence. }
        repeat split; try contradiction; try reflexivity.
        intros r. apply cs4265_unset_clock.
    + repeat split; try contradiction; destruct c65; reflexivity.
Qed.

Lemma C2_set_sysclk_amended_witness :
  let c := CS4245.Private 0 0 (fun _ => 0) in
  Eff.val (CS4245.cs4245_set_sysclk 0 12288000 0 c) = 0 /\
  CS4245.sysclk (Eff.post (CS4245.cs4245_set_sysclk 0 12288000 0 c))
  = 12288000.
Proof.
  intros c.
  destruct (C2_set_sysclk_amended 0 12288000 0 c (CS4265.Private 0 0))
    as [(_ & _ & Hstore & _) _].
  apply Hstore.
  - discriminate.
  - reflexivity.
  - apply cs4245_sysclk_scan. reflexivity.
Defined.

(** C2 as stated fails on a clock id other than 0.  With 24.576 MHz
    stored: 12.288 MHz is a master clock of the table, yet the call on
    clock id 1 fails; and 12345 Hz is in no row, yet the failing call on
    clock id 1 does not clear the stored clock, against which 48 kHz
    still resolves (row 12). *)
Lemma C2_set_sysclk_counterexample :
  let c := CS4245.Private 0 24576000 (fun _ => 0) in
  (Spec.has_mclk CS4245.cs4245_clk_para.mclk CS4245.clk_map_table 12288000 /\
   Eff.val (CS4245.cs4245_set_sysclk 1 12288000 0 c) <> 0)
  /\
  (~ Spec.has_mclk CS4245.cs4245_clk_para.mclk CS4245.clk_map_table 12345 /\
   Eff.val (CS4245.cs4245_set_sysclk 1 12345 0 c) = - Linux.EINVAL /\
   CS4245.sysclk (Eff.post (CS4245.cs4245_set_sysclk 1 12345 0 c)) <> 0 /\
   CS4245.cs4245_get_clk_index
     (CInt.to_int
        (CS4245.sysclk (Eff.post (CS4245.cs4245_set_sysclk 1 12345 0 c))))
     48000 = 12).
Proof.
  intros c. split.
  - split.
    + apply cs4245_sysclk_scan. reflexivity.
    + discriminate.
  - split.
    + intros H. apply cs4245_sysclk_scan in H. discriminate H.
    + split; [reflexivity |]. split; [discriminate | reflexivity].
Qed.

(** ** The board GPIOs *)

Section IterFacts.

Context {S E : Type}.

(** A body that issues the same transactions from every state. *)
Lemma iter_trace (body : M S E unit) (t : list E) :
  (forall s, trace (body s) = t) ->
  forall n s, trace (iter n body s) = concat (repeat t n).
Proof.
  intros Hbody. induction n as [| n IH]; intros s; simpl.
  - reflexivity.
  - rewrite Hbody, IH. reflexivity.
Qed.

(** What every run of the body keeps, the loop keeps. *)
Lemma iter_keeps (P : S -> Prop) (body : M S E unit) :
  (forall s, P s -> P (post (body s))) ->
  forall n s, P s -> P (post (iter n body s)).
Proof.
  intros Hbody. induction n as [| n IH]; intros s Hs; simpl.
  - exact Hs.
  - apply IH, Hbody, Hs.
Qed.

Lemma concat_repeat_pulse {L : Type} (clk : L) n :
  concat (repeat [(clk, 1); (clk, 0)] n) = Spec.pulses clk n.
Proof.
  induction n as [| n IH]; simpl; [| rewrite IH]; reflexivity.
Qed.

End IterFacts.


(** Sequencing rules for [hoare] and [preserves]. *)
Section HoareFacts.

Context {S E : Type}.

Lemma hoare_bind {A B} (P : S -> Prop) (R : A -> S -> Prop)
      (Q : B -> S -> Prop) (m : M S E A) (f : A -> M S E B) :
  hoare P m R -> (forall a, hoare (R a) (f a) Q) -> hoare P (bind m f) Q.
Proof.
  intros Hm Hf s Hs. unfold bind. simpl.
  apply Hf, Hm, Hs.
Qed.

Lemma hoare_conseq {A} (P P' : S -> Prop) (Q Q' : A -> S -> Prop)
      (m : M S E A) :
  hoare P' m Q' -> (forall s, P s -> P' s) ->
  (forall a s, Q' a s -> Q a s) -> hoare P m Q.
Proof. intros Hm HP HQ s Hs. apply HQ, Hm, HP, Hs. Qed.

Lemma hoare_modify (P : S -> Prop) (Q : unit -> S -> Prop) (f : S -> S) :
  (forall s, P s -> Q tt (f s)) -> hoare P (modify (E := E) f) Q.
Proof. intros H s Hs. simpl. apply H, Hs. Qed.

Lemma preserves_bind {A B} (I : S -> Prop) (m : M S E A)
      (f : A -> M S E B) :
  preserves I m -> (forall a, preserves I (f a)) -> preserves I (bind m f).
Proof. intros Hm Hf. apply (hoare_bind I (fun _ => I)); assumption. Qed.

(** An invariant kept by the first command is still there for the
    rest. *)
Lemma preserves_seq {A B} (I : S -> Prop) (Q : B -> S -> Prop)
      (m : M S E A) (f : A -> M S E B) :
  preserves I m -> (forall a, hoare I (f a) Q) -> hoare I (bind m f) Q.
Proof. intros Hm Hf. apply (hoare_bind I (fun _ => I)); assumption. Qed.

Lemma preserves_then {A} (I Q : S -> Prop) (m : M S E A) :
  preserves I m -> (forall s, I s -> Q s) -> hoare I m (fun _ => Q).
Proof.
  intros Hm HQ.
  apply (hoare_conseq I I _ (fun _ => I)); [exact Hm | auto | intros _; exact HQ].
Qed.

Lemma preserves_ret {A} (I : S -> Prop) (a : A) :
  preserves I (ret (E := E) a).
Proof. intros s Hs. exact Hs. Qed.

Lemma preserves_gets {A} (I : S -> Prop) (f : S -> A) :
  preserves I (gets (E := E) f).
Proof. intros s Hs. exact Hs. Qed.

Lemma preserves_emit (I : S -> Prop) (e : E) : preserves I (emit e).
Proof. intros s Hs. exact Hs. Qed.

Lemma preserves_modify (I : S -> Prop) (f : S -> S) :
  (forall s, I s -> I (f s)) -> preserves I (modify (E := E) f).
Proof. intros H. apply hoare_modify. exact H. Qed.

Lemma preserves_for_lt (I : S -> Prop) (bound : Z) (body : M S E unit) :
  preserves I body -> preserves I (for_lt bound body).
Proof.
  intros Hbody s Hs. unfold for_lt.
  apply (iter_keeps I body); [| exact Hs].
  intros s' Hs'. apply Hbody, Hs'.
Qed.

End HoareFacts.

(** *** The step amplifier: [set_headphone_volume] *)

Section HeadphoneVolume.

Import CInt Spec.

(** No pulse goes to another line than the clock. *)
Lemma writes_to_pulses {L : Type} (eqb : L -> L -> bool) (l clk : L) n :
  eqb clk l = false -> writes_to eqb l (pulses clk n) = [].
Proof.
  intros Hne. unfold writes_to.
  induction n as [| n IH]; simpl; [reflexivity |].
  rewrite Hne. exact IH.
Qed.

(** The number of loop runs for volumes of the control's range. *)
Lemma steps_in_range cur target :
  0 <= cur <= 15 -> 0 <= target <= 15 ->
  Z.to_nat (abs (to_int (target - cur))) = Z.abs_nat (target - cur).
Proof.
  intros Hc Ht.
  assert (H31 : 2 ^ 31 = 2147483648) by reflexivity.
  rewrite to_int_id by (unfold in_int, int_min, int_max; lia).
  rewrite abs_small by lia.
  lia.
Qed.

Lemma cs4245_set_headphone_volume_on st target :
  CS4245.initialized st = true ->
  let out := CS4245.set_headphone_volume target st in
  trace out =
    (CS4245.modduo_gpios.headphone_dir,
     if target >? CS4245.headphone_volume st then 1 else 0)
      :: pulses CS4245.modduo_gpios.headphone_clk
           (Z.to_nat (abs (to_int (target - CS4245.headphone_volume st))))
  /\ CS4245.headphone_volume (post out) = target
  /\ CS4245.level (post out) CS4245.modduo_gpios.headphone_dir
     = (target >? CS4245.headphone_volume st).
Proof.
  intros Hi out. subst out.
  unfold CS4245.set_headphone_volume, bind, gets. simpl.
  rewrite Hi. simpl. unfold for_lt.
  split; [| split].
  - rewrite (iter_trace _ [(CS4245.modduo_gpios.headphone_clk, 1);
                           (CS4245.modduo_gpios.headphone_clk, 0)])
      by reflexivity.
    rewrite concat_repeat_pulse, app_nil_r. reflexivity.
  - reflexivity.
  - apply (iter_keeps
             (fun s => CS4245.level s CS4245.modduo_gpios.headphone_dir
                       = (target >? CS4245.headphone_volume st))).
    + intros s Hs. simpl. exact Hs.
    + simpl. destruct (target >? CS4245.headphone_volume st); reflexivity.
Qed.

Lemma cs4245_set_headphone_volume_off st target :
  CS4245.initialized st = false ->
  let out := CS4245.set_headphone_volume target st in
  trace out = [] /\ CS4245.headphone_volume (post out) = target.
Proof.
  intros Hi out. subst out.
  unfold CS4245.set_headphone_volume, bind, gets. simpl.
  rewrite Hi. simpl. split; reflexivity.
Qed.

Lemma cs4265_set_headphone_volume_on st target :
  CS4265.initialized st = true ->
  let out := CS4265.set_headphone_volume target st in
  trace out =
    (CS4265.modduox_gpios.headphone_dir,
     if target >? CS4265.headphone_volume st then 1 else 0)
      :: pulses CS4265.modduox_gpios.headphone_clk
           (Z.to_nat (abs (to_int (target - CS4265.headphone_volume st))))
  /\ CS4265.headphone_volume (post out) = target
  /\ CS4265.level (post out) CS4265.modduox_gpios.headphone_dir
     = (target >? CS4265.headphone_volume st).
Proof.
  intros Hi out. subst out.
  unfold CS4265.set_headphone_volume, bind, gets. simpl.
  rewrite Hi. simpl. unfold for_lt.
  split; [| split].
  - rewrite (iter_trace _ [(CS4265.modduox_gpios.headphone_clk, 1);
                           (CS4265.modduox_gpios.headphone_clk, 0)])
      by reflexivity.
    rewrite concat_repeat_pulse, app_nil_r. reflexivity.
  - reflexivity.
  - apply (iter_keeps
             (fun s => CS4265.level s CS4265.modduox_gpios.headphone_dir
                       = (target >? CS4265.headphone_volume st))).
    + intros s Hs. simpl. exact Hs.
    + simpl. destruct (target >? CS4265.headphone_volume st); reflexivity.
Qed.

Lemma cs4265_set_headphone_volume_off st target :
  CS4265.initialized st = false ->
  let out := CS4265.set_headphone_volume target st in
  trace out = [] /\ CS4265.headphone_volume (post out) = target.
Proof.
  intros Hi out. subst out.
  unfold CS4265.set_headphone_volume, bind, gets. simpl.
  rewrite Hi. simpl. split; reflexivity.
Qed.

End HeadphoneVolume.

(** *** Statements on the step amplifier *)

(** C3.  With the pins initialized and the current and the target volume
    in [0,15], [set_headphone_volume] first writes the direction line,
    once, 1 when the target is above the current volume and 0 otherwise,
    then issues exactly [|target - current|] clock pulses (the clock line
    to 1, then to 0, one pulse after the other); the direction line is
    not written again and still holds its level at the end; and the
    volume variable then equals the target.  Both drivers. *)
Theorem C3_set_volume_pulses
        (st45 : CS4245.state) (st65 : CS4265.state) (target : Z)
        (Hi45 : CS4245.initialized st45 = true)
        (Hi65 : CS4265.initialized st65 = true)
        (Hc45 : 0 <= CS4245.headphone_volume st45 <= 15)
        (Hc65 : 0 <= CS4265.headphone_volume st65 <= 15)
        (Ht : 0 <= target <= 15) :
  (let out := CS4245.set_headphone_volume target st45 in
   let cur := CS4245.headphone_volume st45 in
   trace out = Spec.volume_run CS4245.modduo_gpios.headphone_dir
                               CS4245.modduo_gpios.headphone_clk cur target
   /\ Spec.writes_to CS4245.modduo_gpios.line_beq
                     CS4245.modduo_gpios.headphone_dir (trace out)
      = [(CS4245.modduo_gpios.headphone_dir,
          if target >? cur then 1 else 0)]
   /\ CS4245.level (post out) CS4245.modduo_gpios.headphone_dir
      = (target >? cur)
   /\ CS4245.headphone_volume (post out) = target)
  /\
  (let out := CS4265.set_headphone_volume target st65 in
   let cur := CS4265.headphone_volume st65 in
   trace out = Spec.volume_run CS4265.modduox_gpios.headphone_dir
                               CS4265.modduox_gpios.headphone_clk cur target
   /\ Spec.writes_to CS4265.modduox_gpios.line_beq
                     CS4265.modduox_gpios.headphone_dir (trace out)
      = [(CS4265.modduox_gpios.headphone_dir,
          if target >? cur then 1 else 0)]
   /\ CS4265.level (post out) CS4265.modduox_gpios.headphone_dir
      = (target >? cur)
   /\ CS4265.headphone_volume (post out) = target).
Proof.
  split.
  - destruct (cs4245_set_headphone_volume_on st45 target Hi45)
      as (Htr & Hvol & Hdir).
    cbv zeta. rewrite Htr, steps_in_range by assumption.
    split; [reflexivity |]. split; [| split; assumption].
    unfold Spec.writes_to. simpl.
    apply f_equal, writes_to_pulses. reflexivity.
  - destruct (cs4265_set_headphone_volume_on st65 target Hi65)
      as (Htr & Hvol & Hdir).
    cbv zeta. rewrite Htr, steps_in_range by assumption.
    split; [reflexivity |]. split; [| split; assumption].
    unfold Spec.writes_to. simpl.
    apply f_equal, writes_to_pulses. reflexivity.
Qed.

(** From volume 7 to 11 on both drivers: direction up, four pulses. *)
Lemma C3_set_volume_pulses_witness :
  let st45 := CS4245.State 7 0 0 true true true (fun _ => true) in
  let st65 := CS4265.State 7 0 0 true true false false false true 0 0
                           (fun _ => true) [] in
  trace (CS4245.set_headphone_volume 11 st45)
  = [ (CS4245.modduo_gpios.headphone_dir, 1);
      (CS4245.modduo_gpios.headphone_clk, 1);
      (CS4245.modduo_gpios.headphone_clk, 0);
      (CS4245.modduo_gpios.headphone_clk, 1);
      (CS4245.modduo_gpios.headphone_clk, 0);
      (CS4245.modduo_gpios.headphone_clk, 1);
      (CS4245.modduo_gpios.headphone_clk, 0);
      (CS4245.modduo_gpios.headphone_clk, 1);
      (CS4245.modduo_gpios.headphone_clk, 0) ]
  /\ CS4265.headphone_volume (post (CS4265.set_headphone_volume 11 st65))
     = 11.
Proof.
  intros st45 st65.
  assert (H7 : 0 <= 7 <= 15) by lia.
  assert (H11 : 0 <= 11 <= 15) by lia.
  destruct (C3_set_volume_pulses st45 st65 11 eq_refl eq_refl H7 H7 H11)
    as [(Htr & _) (_ & _ & _ & Hvol)].
  split; [exact Htr | exact Hvol].
Defined.

(** The moves of the spec's example: from 7 up to 11 takes four pulses
    with the direction line at 1, from 11 down to 0 eleven pulses with
    the direction line at 0. *)
Example set_headphone_volume_examples :
  let st7 := CS4245.State 7 0 0 true true true (fun _ => true) in
  let st11 := post (CS4245.set_headphone_volume 11 st7) in
  trace (CS4245.set_headphone_volume 11 st7)
  = (CS4245.modduo_gpios.headphone_dir, 1)
      :: Spec.pulses CS4245.modduo_gpios.headphone_clk 4
  /\ trace (CS4245.set_headphone_volume 0 st11)
     = (CS4245.modduo_gpios.headphone_dir, 0)
         :: Spec.pulses CS4245.modduo_gpios.headphone_clk 11
  /\ CS4245.headphone_volume (post (CS4245.set_headphone_volume 0 st11)) = 0.
Proof. repeat split; reflexivity. Qed.

(** C4 (as amended).  When the target equals the current volume,
    [set_headphone_volume] issues no clock pulse and keeps the volume; with
    the pins initialized its one pin write is the direction line driven to
    0, and without them it writes no pin.  The control handler
    [headphone_put] does not call it for an unchanged value: it returns 0
    and touches neither a pin nor the state.  Both drivers. *)
Theorem C4_same_volume_amended (st45 : CS4245.state) (st65 : CS4265.state) :
  (let out := CS4245.set_headphone_volume (CS4245.headphone_volume st45) st45 in
   trace out = (if CS4245.initialized st45
                then [(CS4245.modduo_gpios.headphone_dir, 0)] else [])
   /\ CS4245.headphone_volume (post out) = CS4245.headphone_volume st45)
  /\ CS4245.headphone_put (CS4245.headphone_volume st45) st45
     = Outcome 0 st45 []
  /\
  (let out := CS4265.set_headphone_volume (CS4265.headphone_volume st65) st65 in
   trace out = (if CS4265.initialized st65
                then [(CS4265.modduox_gpios.headphone_dir, 0)] else [])
   /\ CS4265.headphone_volume (post out) = CS4265.headphone_volume st65)
  /\ CS4265.headphone_put (CS4265.headphone_volume st65) st65
     = Outcome 0 st65 [].
Proof.
  split; [| split; [| split]].
  - cbv zeta. destruct (CS4245.initialized st45) eqn:Hi.
    + destruct (cs4245_set_headphone_volume_on
                  st45 (CS4245.headphone_volume st45) Hi) as (Htr & Hvol & _).
      rewrite Htr, Hvol, Z.sub_diag, Z.gtb_ltb, Z.ltb_irrefl.
      split; reflexivity.
    + destruct (cs4245_set_headphone_volume_off st45
                  (CS4245.headphone_volume st45) Hi) as (Htr & Hvol).
      split; assumption.
  - unfold CS4245.headphone_put, bind, gets. simpl.
    rewrite Z.eqb_refl. reflexivity.
  - cbv zeta. destruct (CS4265.initialized st65) eqn:Hi.
    + destruct (cs4265_set_headphone_volume_on
                  st65 (CS4265.headphone_volume st65) Hi) as (Htr & Hvol & _).
      rewrite Htr, Hvol, Z.sub_diag, Z.gtb_ltb, Z.ltb_irrefl.
      split; reflexivity.
    + destruct (cs4265_set_headphone_volume_off st65
                  (CS4265.headphone_volume st65) Hi) as (Htr & Hvol).
      split; assumption.
  - unfold CS4265.headphone_put, bind, gets. simpl.
    rewrite Z.eqb_refl. reflexivity.
Qed.

(** C4 as stated fails: at volume 7 with the pins initialized and the
    direction line high (as a move up leaves it), [set_headphone_volume 7]
    does write the direction line, and changes its level to low. *)
Lemma C4_same_volume_counterexample :
  let st7 := CS4245.State 7 0 0 true true true (fun _ => true) in
  let out := CS4245.set_headphone_volume 7 st7 in
  Spec.writes_to CS4245.modduo_gpios.line_beq
                 CS4245.modduo_gpios.headphone_dir (trace out) <> []
  /\ CS4245.level st7 CS4245.modduo_gpios.headphone_dir = true
  /\ CS4245.level (post out) CS4245.modduo_gpios.headphone_dir = false.
Proof.
  intros st7 out. split; [discriminate |]. split; reflexivity.
Qed.

(** *** The gain-stage and bypass encoders *)

Section Encoders.

Import CInt Spec.

Lemma level_cases lvl :
  0 <= lvl <= 3 -> lvl = 0 \/ lvl = 1 \/ lvl = 2 \/ lvl = 3.
Proof. lia. Qed.

(** Outside [0,3] none of the four cases of the encoding switch is
    taken. *)
Lemma level_no_case lvl :
  lvl < 0 \/ 3 < lvl ->
  (lvl =? 0) = false /\ (lvl =? 1) = false
  /\ (lvl =? 2) = false /\ (lvl =? 3) = false.
Proof. intros H. rewrite !Z.eqb_neq. lia. Qed.

Lemma cs4245_gain_left st lvl :
  CS4245.initialized st = true -> 0 <= lvl <= 3 ->
  drives_pattern CS4245.level
    (CS4245.set_gain_stage CS4245.CHANNEL_LEFT lvl)
    CS4245.modduo_gpios.gain_stage_left1
    CS4245.modduo_gpios.gain_stage_left2 lvl st.
Proof.
  intros Hi Hl. unfold drives_pattern.
  destruct (level_cases lvl Hl) as [-> | [-> | [-> | ->]]];
    unfold CS4245.set_gain_stage, CS4245.gain_stage_select, bind, gets;
    repeat (progress (simpl; rewrite ?Hi)); repeat split; reflexivity.
Qed.

Lemma cs4245_gain_right st lvl :
  CS4245.initialized st = true -> 0 <= lvl <= 3 ->
  drives_pattern CS4245.level
    (CS4245.set_gain_stage CS4245.CHANNEL_RIGHT lvl)
    CS4245.modduo_gpios.gain_stage_right1
    CS4245.modduo_gpios.gain_stage_right2 lvl st.
Proof.
  intros Hi Hl. unfold drives_pattern.
  destruct (level_cases lvl Hl) as [-> | [-> | [-> | ->]]];
    unfold CS4245.set_gain_stage, CS4245.gain_stage_select, bind, gets;
    repeat (progress (simpl; rewrite ?Hi)); repeat split; reflexivity.
Qed.

Lemma cs4265_gain_left st lvl :
  CS4265.initialized st = true -> 0 <= lvl <= 3 ->
  drives_pattern CS4265.level
    (CS4265.set_gain_stage CS4265.CHANNEL_LEFT lvl)
    CS4265.modduox_gpios.gain_stage_left1
    CS4265.modduox_gpios.gain_stage_left2 lvl st.
Proof.
  intros Hi Hl. unfold drives_pattern.
  destruct (level_cases lvl Hl) as [-> | [-> | [-> | ->]]];
    unfold CS4265.set_gain_stage, CS4265.gain_stage_select, bind, gets;
    repeat (progress (simpl; rewrite ?Hi)); repeat split; reflexivity.
Qed.

Lemma cs4265_gain_right st lvl :
  CS4265.initialized st = true -> 0 <= lvl <= 3 ->
  drives_pattern CS4265.level
    (CS4265.set_gain_stage CS4265.CHANNEL_RIGHT lvl)
    CS4265.modduox_gpios.gain_stage_right1
    CS4265.modduox_gpios.gain_stage_right2 lvl st.
Proof.
  intros Hi Hl. unfold drives_pattern.
  destruct (level_cases lvl Hl) as [-> | [-> | [-> | ->]]];
    unfold CS4265.set_gain_stage, CS4265.gain_stage_select, bind, gets;
    repeat (progress (simpl; rewrite ?Hi)); repeat split; reflexivity.
Qed.

End Encoders.

(** C7.  With the pins initialized, for either channel and every level
    in [0,3], [set_gain_stage] writes the two gain lines of the channel
    with the pattern of the level (0 is (1,1), 1 is (1,0), 2 is (0,1), 3
    is (0,0)) whatever the state before; called a second time it issues
    the same two writes.  Both drivers. *)
Theorem C7_gain_stage_pattern
        (st45 : CS4245.state) (st65 : CS4265.state) (lvl : Z)
        (Hi45 : CS4245.initialized st45 = true)
        (Hi65 : CS4265.initialized st65 = true)
        (Hlvl : 0 <= lvl <= 3) :
  Spec.gain_pattern 0 = (1, 1) /\ Spec.gain_pattern 1 = (1, 0)
  /\ Spec.gain_pattern 2 = (0, 1) /\ Spec.gain_pattern 3 = (0, 0)
  /\ Spec.drives_pattern CS4245.level
       (CS4245.set_gain_stage CS4245.CHANNEL_LEFT lvl)
       CS4245.modduo_gpios.gain_stage_left1
       CS4245.modduo_gpios.gain_stage_left2 lvl st45
  /\ Spec.drives_pattern CS4245.level
       (CS4245.set_gain_stage CS4245.CHANNEL_RIGHT lvl)
       CS4245.modduo_gpios.gain_stage_right1
       CS4245.modduo_gpios.gain_stage_right2 lvl st45
  /\ Spec.drives_pattern CS4265.level
       (CS4265.set_gain_stage CS4265.CHANNEL_LEFT lvl)
       CS4265.modduox_gpios.gain_stage_left1
       CS4265.modduox_gpios.gain_stage_left2 lvl st65
  /\ Spec.drives_pattern CS4265.level
       (CS4265.set_gain_stage CS4265.CHANNEL_RIGHT lvl)
       CS4265.modduox_gpios.gain_stage_right1
       CS4265.modduox_gpios.gain_stage_right2 lvl st65.
Proof.
  do 4 (split; [reflexivity |]).
  split; [apply cs4245_gain_left; assumption |].
  split; [apply cs4245_gain_right; assumption |].
  split; [apply cs4265_gain_left; assumption |].
  apply cs4265_gain_right; assumption.
Qed.

(** Level 2 on the left channel: the two lines get (0,1), also from a
    state where they held (1,0). *)
Lemma C7_gain_stage_pattern_witness :
  let st45 := CS4245.State 0 1 0 true true true
                (fun l => match l with
                          | CS4245.modduo_gpios.gain_stage_left2 => false
                          | _ => true
                          end) in
  let st65 := CS4265.State 0 0 0 true true false false false true 0 0
                           (fun _ => true) [] in
  trace (CS4245.set_gain_stage CS4245.CHANNEL_LEFT 2 st45)
  = [ (CS4245.modduo_gpios.gain_stage_left1, 0);
      (CS4245.modduo_gpios.gain_stage_left2, 1) ]
  /\ trace (CS4245.set_gain_stage CS4245.CHANNEL_LEFT 2
              (post (CS4245.set_gain_stage CS4245.CHANNEL_LEFT 2 st45)))
     = [ (CS4245.modduo_gpios.gain_stage_left1, 0);
         (CS4245.modduo_gpios.gain_stage_left2, 1) ].
Proof.
  intros st45 st65.
  assert (H2 : 0 <= 2 <= 3) by lia.
  destruct (C7_gain_stage_pattern st45 st65 2 eq_refl eq_refl H2)
    as (_ & _ & _ & _ & (Htr & Hagain & _) & _).
  split; [exact Htr | exact Hagain].
Defined.

(** C8.  For either channel, [set_true_bypass] records the boolean it is
    given in the channel's mirror, not inverted, and drives the channel's
    bypass line with the inverted mapping: to 0 ([GPIO_BYPASS]) when called
    with [true], to 1 ([GPIO_PROCESS]) when called with [false] (the one
    write of the call; a pin set that is not initialized gets no write).
    Both drivers. *)
Theorem C8_bypass_inverted
        (st45 : CS4245.state) (st65 : CS4265.state) (engaged : bool) :
  CS4245.GPIO_BYPASS = 0 /\ CS4245.GPIO_PROCESS = 1
  /\ CS4265.GPIO_BYPASS = 0 /\ CS4265.GPIO_PROCESS = 1
  /\ Spec.bypass_inverted CS4245.level CS4245.initialized
       CS4245.left_true_bypass
       (CS4245.set_true_bypass CS4245.CHANNEL_LEFT engaged)
       CS4245.modduo_gpios.true_bypass_left engaged st45
  /\ Spec.bypass_inverted CS4245.level CS4245.initialized
       CS4245.right_true_bypass
       (CS4245.set_true_bypass CS4245.CHANNEL_RIGHT engaged)
       CS4245.modduo_gpios.true_bypass_right engaged st45
  /\ Spec.bypass_inverted CS4265.level CS4265.initialized
       CS4265.left_true_bypass
       (CS4265.set_true_bypass CS4265.CHANNEL_LEFT engaged)
       CS4265.modduox_gpios.true_bypass_left engaged st65
  /\ Spec.bypass_inverted CS4265.level CS4265.initialized
       CS4265.right_true_bypass
       (CS4265.set_true_bypass CS4265.CHANNEL_RIGHT engaged)
       CS4265.modduox_gpios.true_bypass_right engaged st65.
Proof.
  do 4 (split; [reflexivity |]).
  unfold Spec.bypass_inverted.
  split; [| split; [| split]].
  - unfold CS4245.set_true_bypass, bind, gets. simpl.
    destruct (CS4245.initialized st45), engaged; simpl;
      repeat split; try reflexivity; discriminate.
  - unfold CS4245.set_true_bypass, bind, gets. simpl.
    destruct (CS4245.initialized st45), engaged; simpl;
      repeat split; try reflexivity; discriminate.
  - unfold CS4265.set_true_bypass, bind, gets. simpl.
    destruct (CS4265.initialized st65), engaged; simpl;
      repeat split; try reflexivity; discriminate.
  - unfold CS4265.set_true_bypass, bind, gets. simpl.
    destruct (CS4265.initialized st65), engaged; simpl;
      repeat split; try reflexivity; discriminate.
Qed.

(** Engaging the left bypass on initialized pins: the line goes to 0 and
    the mirror to [true]. *)
Lemma C8_bypass_inverted_witness :
  let st45 := CS4245.State 0 0 0 false false true (fun _ => true) in
  let out := CS4245.set_true_bypass CS4245.CHANNEL_LEFT true st45 in
  CS4245.left_true_bypass (post out) = true
  /\ trace out = [(CS4245.modduo_gpios.true_bypass_left, 0)]
  /\ CS4245.level (post out) CS4245.modduo_gpios.true_bypass_left = false.
Proof.
  intros st45 out.
  destruct (C8_bypass_inverted
              st45 (CS4265.State 0 0 0 true true false false false true 0 0
                                 (fun _ => true) []) true)
    as (_ & _ & _ & _ & (Hmirror & Htr & Hlevel) & _).
  split; [exact Hmirror |]. split; [exact Htr |].
  apply Hlevel. reflexivity.
Defined.

(** C6.  With [initialized] false, every setter writes no pin and still
    updates its mirror, so that the getter of the control returns the value
    just set: the headphone volume, the gain stage and the bypass of either
    channel on both drivers, and on the Duo X the three mode setters (on
    their two mode values 0 and 1). *)
Theorem C6_uninitialized_setters
        (st45 : CS4245.state) (st65 : CS4265.state)
        (Hi45 : CS4245.initialized st45 = false)
        (Hi65 : CS4265.initialized st65 = false) :
  (forall v,
      Spec.silent_update (CS4245.set_headphone_volume v)
                         CS4245.headphone_get v st45
      /\ Spec.silent_update (CS4245.set_gain_stage CS4245.CHANNEL_LEFT v)
                            CS4245.input_left_gain_stage_get v st45
      /\ Spec.silent_update (CS4245.set_gain_stage CS4245.CHANNEL_RIGHT v)
                            CS4245.input_right_gain_stage_get v st45
      /\ Spec.silent_update (CS4265.set_headphone_volume v)
                            CS4265.headphone_get v st65
      /\ Spec.silent_update (CS4265.set_gain_stage CS4265.CHANNEL_LEFT v)
                            CS4265.input_left_gain_stage_get v st65
      /\ Spec.silent_update (CS4265.set_gain_stage CS4265.CHANNEL_RIGHT v)
                            CS4265.input_right_gain_stage_get v st65)
  /\
  (forall b,
      Spec.silent_update (CS4245.set_true_bypass CS4245.CHANNEL_LEFT b)
                         CS4245.left_true_bypass_get (CInt.of_bool b) st45
      /\ Spec.silent_update (CS4245.set_true_bypass CS4245.CHANNEL_RIGHT b)
                            CS4245.right_true_bypass_get (CInt.of_bool b) st45
      /\ Spec.silent_update (CS4265.set_true_bypass CS4265.CHANNEL_LEFT b)
                            CS4265.left_true_bypass_get (CInt.of_bool b) st65
      /\ Spec.silent_update (CS4265.set_true_bypass CS4265.CHANNEL_RIGHT b)
                            CS4265.right_true_bypass_get (CInt.of_bool b) st65
      /\ Spec.silent_update (CS4265.set_headphone_cv_mode (CInt.of_bool b))
                            CS4265.headphone_cv_mode_get (CInt.of_bool b) st65
      /\ Spec.silent_update (CS4265.set_cv_exp_pedal_mode (CInt.of_bool b))
                            CS4265.cv_exp_pedal_mode_get (CInt.of_bool b) st65
      /\ Spec.silent_update (CS4265.set_exp_pedal_mode (CInt.of_bool b))
                            CS4265.exp_pedal_mode_get (CInt.of_bool b) st65).
Proof.
  unfold Spec.silent_update. split.
  - intros v.
    split; [apply cs4245_set_headphone_volume_off; exact Hi45 |].
    split; [unfold CS4245.set_gain_stage, CS4245.gain_stage_select, bind, gets;
            simpl; rewrite Hi45; split; reflexivity |].
    split; [unfold CS4245.set_gain_stage, CS4245.gain_stage_select, bind, gets;
            simpl; rewrite Hi45; split; reflexivity |].
    split; [apply cs4265_set_headphone_volume_off; exact Hi65 |].
    split; [unfold CS4265.set_gain_stage, CS4265.gain_stage_select, bind, gets;
            simpl; rewrite Hi65; split; reflexivity |].
    unfold CS4265.set_gain_stage, CS4265.gain_stage_select, bind, gets;
      simpl; rewrite Hi65; split; reflexivity.
  - intros b.
    split; [unfold CS4245.set_true_bypass, bind, gets; simpl;
            rewrite Hi45; split; reflexivity |].
    split; [unfold CS4245.set_true_bypass, bind, gets; simpl;
            rewrite Hi45; split; reflexivity |].
    split; [unfold CS4265.set_true_bypass, bind, gets; simpl;
            rewrite Hi65; split; reflexivity |].
    split; [unfold CS4265.set_true_bypass, bind, gets; simpl;
            rewrite Hi65; split; reflexivity |].
    split; [destruct b; unfold CS4265.set_headphone_cv_mode, bind, gets; simpl;
            rewrite Hi65; split; reflexivity |].
    split; [destruct b, (CS4265.exp_pedal_mode st65) eqn:Hside;
            unfold CS4265.set_cv_exp_pedal_mode, CS4265.set_exp_pedal_mode,
              bind, gets; simpl; rewrite ?Hside; simpl;
            rewrite ?Hi65, ?andb_false_r; split; reflexivity |].
    destruct b; unfold CS4265.set_exp_pedal_mode, bind, gets; simpl;
      rewrite Hi65, andb_false_r; split; reflexivity.
Qed.

(** On pins that were not acquired, volume 9 is recorded and reported
    without a single pin write. *)
Lemma C6_uninitialized_setters_witness :
  let st45 := CS4245.State 0 0 0 true true false (fun _ => false) in
  trace (CS4245.set_headphone_volume 9 st45) = []
  /\ val (CS4245.headphone_get (post (CS4245.set_headphone_volume 9 st45))) = 9.
Proof.
  intros st45.
  destruct (C6_uninitialized_setters st45 CS4265.boot eq_refl eq_refl)
    as [Hint _].
  destruct (Hint 9) as [Hvol _]. exact Hvol.
Defined.

(** C10.  A level outside [0,3] given to [set_gain_stage] on a valid
    channel is stored in the channel's mirror while no pin is written
    (initialized or not: the encoding switch has no case for it), so the
    getter then returns a value outside the declared range.  Both
    drivers. *)
Theorem C10_gain_stage_out_of_range
        (st45 : CS4245.state) (st65 : CS4265.state) (lvl : Z)
        (Hlvl : lvl < 0 \/ 3 < lvl) :
  Spec.silent_update (CS4245.set_gain_stage CS4245.CHANNEL_LEFT lvl)
                     CS4245.input_left_gain_stage_get lvl st45
  /\ Spec.silent_update (CS4245.set_gain_stage CS4245.CHANNEL_RIGHT lvl)
                        CS4245.input_right_gain_stage_get lvl st45
  /\ Spec.silent_update (CS4265.set_gain_stage CS4265.CHANNEL_LEFT lvl)
                        CS4265.input_left_gain_stage_get lvl st65
  /\ Spec.silent_update (CS4265.set_gain_stage CS4265.CHANNEL_RIGHT lvl)
                        CS4265.input_right_gain_stage_get lvl st65.
Proof.
  destruct (level_no_case lvl Hlvl) as (H0 & H1 & H2 & H3).
  unfold Spec.silent_update.
  split; [| split; [| split]].
  - unfold CS4245.set_gain_stage, CS4245.gain_stage_select, bind, gets. simpl.
    rewrite H0, H1, H2, H3.
    destruct (CS4245.initialized st45); split; reflexivity.
  - unfold CS4245.set_gain_stage, CS4245.gain_stage_select, bind, gets. simpl.
    rewrite H0, H1, H2, H3.
    destruct (CS4245.initialized st45); split; reflexivity.
  - unfold CS4265.set_gain_stage, CS4265.gain_stage_select, bind, gets. simpl.
    rewrite H0, H1, H2, H3.
    destruct (CS4265.initialized st65); split; reflexivity.
  - unfold CS4265.set_gain_stage, CS4265.gain_stage_select, bind, gets. simpl.
    rewrite H0, H1, H2, H3.
    destruct (CS4265.initialized st65); split; reflexivity.
Qed.

(** Level 7 on the left channel with the pins initialized: no write, and
    the getter reports 7. *)
Lemma C10_gain_stage_out_of_range_witness :
  let st45 := CS4245.State 0 0 0 true true true (fun _ => true) in
  trace (CS4245.set_gain_stage CS4245.CHANNEL_LEFT 7 st45) = []
  /\ val (CS4245.input_left_gain_stage_get
            (post (CS4245.set_gain_stage CS4245.CHANNEL_LEFT 7 st45))) = 7.
Proof.
  intros st45.
  assert (H7 : 7 < 0 \/ 3 < 7) by (right; lia).
  destruct (C10_gain_stage_out_of_range st45 CS4265.boot 7 H7) as [Hleft _].
  exact Hleft.
Defined.

(** The same through the control: writing 7 to the left gain-stage
    control reports a change, and the control then reads 7. *)
Example input_left_gain_stage_put_7 :
  let st45 := CS4245.State 0 0 0 true true true (fun _ => true) in
  let out := CS4245.input_left_gain_stage_put 7 st45 in
  val out = 1 /\ trace out = []
  /\ val (CS4245.input_left_gain_stage_get (post out)) = 7.
Proof. repeat split; reflexivity. Qed.

(** ** The mode arbiter of the Duo X *)

Section ModeArbiter.

Import CInt Spec CS4265.

(** One step of a proof that a command keeps an invariant which
    speaks of [initialized] and [irq_handlers] only. *)
Ltac keeps_step :=
  match goal with
  | |- preserves _ (bind _ _) => apply preserves_bind; [| intros ?]
  | |- preserves _ (ret _) => apply preserves_ret
  | |- preserves _ (gets _) => apply preserves_gets
  | |- preserves _ (emit _) => apply preserves_emit
  | |- preserves _ (for_lt _ _) => apply preserves_for_lt
  | |- preserves _ (modify _) =>
      apply preserves_modify; intros ? ?; assumption
  | |- preserves _ (if ?b then _ else _) => destruct b
  | |- preserves _ (match ?x with Some _ => _ | None => _ end) =>
      destruct x as [[? ?] |]
  end.

Ltac keeps := repeat keeps_step.

Section Setters.

(** An invariant that only reads [initialized] and
    [irq_handlers]. *)
Variable I : state -> Prop.
Hypothesis I_reads :
  forall s s', initialized s' = initialized s ->
               irq_handlers s' = irq_handlers s -> I s -> I s'.

Ltac mirror_write :=
  apply preserves_modify; intros s Hs;
  apply (I_reads s); [reflexivity | reflexivity | exact Hs].

Lemma gpiod_set_value_keeps desc value :
  preserves I (gpiod_set_value desc value).
Proof. unfold gpiod_set_value. keeps. mirror_write. Qed.

Lemma set_headphone_volume_keeps target :
  preserves I (set_headphone_volume target).
Proof.
  unfold set_headphone_volume. keeps;
    try apply gpiod_set_value_keeps. mirror_write.
Qed.

Lemma set_gain_stage_keeps channel lvl :
  preserves I (set_gain_stage channel lvl).
Proof.
  unfold set_gain_stage, gain_stage_select. keeps;
    try apply gpiod_set_value_keeps; mirror_write.
Qed.

Lemma set_true_bypass_keeps channel b :
  preserves I (set_true_bypass channel b).
Proof.
  unfold set_true_bypass. keeps;
    try apply gpiod_set_value_keeps; mirror_write.
Qed.

Lemma set_headphone_cv_mode_keeps mode :
  preserves I (set_headphone_cv_mode mode).
Proof.
  unfold set_headphone_cv_mode. keeps;
    try apply gpiod_set_value_keeps; mirror_write.
Qed.

Lemma set_exp_pedal_mode_keeps mode :
  preserves I (set_exp_pedal_mode mode).
Proof.
  unfold set_exp_pedal_mode. keeps;
    try apply gpiod_set_value_keeps; mirror_write.
Qed.

Lemma set_cv_exp_pedal_mode_keeps mode :
  preserves I (set_cv_exp_pedal_mode mode).
Proof.
  unfold set_cv_exp_pedal_mode. keeps;
    try apply gpiod_set_value_keeps;
    try apply set_exp_pedal_mode_keeps; mirror_write.
Qed.

(** No control write and no interrupt changes the [initialized] flag
    or the installed handlers. *)
Lemma handle_keeps ev : preserves I (handle ev).
Proof.
  destruct ev; unfold handle, headphone_put, input_left_gain_stage_put,
    input_right_gain_stage_put, left_true_bypass_put,
    right_true_bypass_put, headphone_cv_mode_put, cv_exp_pedal_mode_put,
    exp_pedal_mode_put, exp_flag_irq_handler;
    keeps;
    first [ apply set_headphone_volume_keeps
          | apply set_gain_stage_keeps
          | apply set_true_bypass_keeps
          | apply set_headphone_cv_mode_keeps
          | apply set_cv_exp_pedal_mode_keeps
          | apply set_exp_pedal_mode_keeps ].
Qed.

End Setters.

Lemma handle_same_probe_facts ev s :
  same_probe_facts s (post (handle ev s)).
Proof.
  apply (handle_keeps (same_probe_facts s)).
  - unfold same_probe_facts. intros s1 s2 Hi Hh [Hi1 Hh1].
    split; congruence.
  - split; reflexivity.
Qed.

(** The probe installs the handler only after it has set
    [initialized]: first no handler is installed, then the flag is
    set and stays. *)
Lemma moddevices_init_irq_safe env :
  hoare (fun s => irq_handlers s = []) (moddevices_init env)
        (fun _ s => irq_safe s).
Proof.
  assert (Hnone : forall s s', initialized s' = initialized s ->
                               irq_handlers s' = irq_handlers s ->
                               irq_handlers s = [] -> irq_handlers s' = []).
  { intros s s' _ Hh Hs. congruence. }
  assert (Hinit : forall s : state, initialized s = true -> irq_safe s).
  { intros s Hs _. exact Hs. }
  assert (Hsafe : forall s : state, irq_handlers s = [] -> irq_safe s).
  { intros s Hs Hne. contradiction. }
  unfold moddevices_init.
  destruct (devm_kzalloc_ok env); simpl negb; cbv iota.
  2: { intros s Hs. apply Hsafe, Hs. }
  do 4 (apply preserves_seq; [keeps | intros _]).
  destruct (gain_stage_left1_is_err env || gain_stage_left2_is_null env).
  - apply preserves_then; [keeps | exact Hsafe].
  - do 2 (apply preserves_seq;
          [keeps; apply (gpiod_set_value_keeps _ Hnone) | intros _]).
    apply preserves_seq; [keeps | intros hcv].
    do 7 (apply preserves_seq;
          [apply (gpiod_set_value_keeps _ Hnone) | intros _]).
    apply (hoare_bind _ (fun _ s => initialized s = true));
      [apply hoare_modify; reflexivity | intros _].
    apply preserves_then; [| exact Hinit].
    unfold request_irq. keeps.
Qed.

Lemma reachable_irq_safe env s : reachable env s -> irq_safe s.
Proof.
  induction 1 as [Hok | s ev Hreach IH Hen].
  - apply moddevices_init_irq_safe. reflexivity.
  - destruct (handle_same_probe_facts ev s) as [Hi Hh].
    unfold irq_safe in *. rewrite Hi, Hh. exact IH.
Qed.

(** The handler on initialized pins, from any state whatever: also
    from one in which a setter was interrupted between two writes. *)
Lemma exp_flag_irq_handler_on irq s :
  initialized s = true ->
  let out := exp_flag_irq_handler irq s in
  cv_exp_pedal_mode (post out) = false
  /\ trace out = [(modduox_gpios.exp_enable1, 0);
                  (modduox_gpios.exp_enable2, 0)]
  /\ level (post out) modduox_gpios.exp_enable1 = false
  /\ level (post out) modduox_gpios.exp_enable2 = false.
Proof.
  intros Hi out. subst out.
  unfold exp_flag_irq_handler, set_cv_exp_pedal_mode, bind, gets. simpl.
  rewrite Hi. simpl. repeat split; reflexivity.
Qed.

End ModeArbiter.

(** C5.  Whenever the sense-line interrupt is delivered to the driver
    (in any state reached after the probe, on a line the handler was
    installed on), whatever the mode and the signal side before,
    [cv_exp_pedal_mode] becomes false and both [exp_enable] lines are
    driven to 0, by one write each. *)
Theorem C5_irq_forces_cv_mode
        (env : CS4265.probe_env) (st : CS4265.state) (irq : Z)
        (Hreach : CS4265.reachable env st)
        (Hirq : CS4265.enabled st (CS4265.exp_flag_irq irq)) :
  let out := CS4265.handle (CS4265.exp_flag_irq irq) st in
  CS4265.cv_exp_pedal_mode (post out) = false
  /\ trace out = [(CS4265.modduox_gpios.exp_enable1, 0);
                  (CS4265.modduox_gpios.exp_enable2, 0)]
  /\ CS4265.level (post out) CS4265.modduox_gpios.exp_enable1 = false
  /\ CS4265.level (post out) CS4265.modduox_gpios.exp_enable2 = false.
Proof.
  apply exp_flag_irq_handler_on.
  apply (reachable_irq_safe env st Hreach).
  simpl in Hirq. intros Hnil. rewrite Hnil in Hirq. exact Hirq.
Qed.

(** The probe succeeds with interrupts 5 and 6, the control switches to
    expression-pedal mode (signal on tip, so [exp_enable2] is high), and
    interrupt 5 fires. *)
Lemma C5_irq_forces_cv_mode_witness :
  let env := CS4265.ProbeEnv true false false 5 6 0 0 in
  let st := post (CS4265.handle (CS4265.ctl_cv_exp_pedal_mode 1)
                    (post (CS4265.moddevices_init env CS4265.boot))) in
  let out := CS4265.handle (CS4265.exp_flag_irq 5) st in
  (CS4265.cv_exp_pedal_mode st = true
   /\ CS4265.level st CS4265.modduox_gpios.exp_enable2 = true)
  /\ CS4265.cv_exp_pedal_mode (post out) = false
  /\ trace out = [(CS4265.modduox_gpios.exp_enable1, 0);
                  (CS4265.modduox_gpios.exp_enable2, 0)]
  /\ CS4265.level (post out) CS4265.modduox_gpios.exp_enable1 = false
  /\ CS4265.level (post out) CS4265.modduox_gpios.exp_enable2 = false.
Proof.
  intros env st out.
  split; [split; reflexivity |].
  apply (C5_irq_forces_cv_mode env st 5).
  - apply CS4265.reach_event.
    + apply CS4265.reach_probe. reflexivity.
    + exact I.
  - simpl. right. left. reflexivity.
Defined.

(** C9 (as amended).  [set_exp_pedal_mode] with a signal side (tip is 0,
    ring is 1) always leaves the remembered side equal to the requested
    one.  It writes pins only in expression-pedal mode, on initialized
    pins and with both sense-line interrupts registered ([irqFlag1] and
    [irqFlag2] positive): then exactly one [exp_enable] line is asserted,
    [exp_enable2] for tip and [exp_enable1] for ring, the other one being
    deasserted first.  In CV mode, and also in expression-pedal mode when
    the pins are not initialized or an interrupt was not registered, it
    writes no pin and leaves every line at its level. *)
Theorem C9_signal_side_amended (st : CS4265.state) (side : bool) :
  let out := CS4265.set_exp_pedal_mode (CInt.of_bool side) st in
  CS4265.exp_pedal_mode (post out) = side
  /\
  (CS4265.cv_exp_pedal_mode st = true -> CS4265.initialized st = true ->
   0 < CS4265.irqFlag1 st -> 0 < CS4265.irqFlag2 st ->
   trace out = (if side
                then [(CS4265.modduox_gpios.exp_enable2, 0);
                      (CS4265.modduox_gpios.exp_enable1, 1)]
                else [(CS4265.modduox_gpios.exp_enable1, 0);
                      (CS4265.modduox_gpios.exp_enable2, 1)])
   /\ CS4265.level (post out) CS4265.modduox_gpios.exp_enable1 = side
   /\ CS4265.level (post out) CS4265.modduox_gpios.exp_enable2 = negb side)
  /\
  (CS4265.cv_exp_pedal_mode st = false \/ CS4265.initialized st = false
   \/ CS4265.irqFlag1 st <= 0 \/ CS4265.irqFlag2 st <= 0 ->
   trace out = []
   /\ forall l, CS4265.level (post out) l = CS4265.level st l).
Proof.
  cbv zeta. split; [| split].
  - unfold CS4265.set_exp_pedal_mode, bind, gets.
    destruct side; simpl; reflexivity.
  - intros Hcv Hi H1 H2.
    unfold CS4265.set_exp_pedal_mode, bind, gets.
    destruct side; simpl; rewrite Hcv, Hi; simpl;
      replace (CS4265.irqFlag1 st <=? 0) with false
        by (symmetry; apply Z.leb_gt; exact H1);
      replace (CS4265.irqFlag2 st <=? 0) with false
        by (symmetry; apply Z.leb_gt; exact H2);
      simpl; repeat split; reflexivity.
  - intros Hcase.
    unfold CS4265.set_exp_pedal_mode, bind, gets.
    destruct side; simpl;
      destruct (CS4265.cv_exp_pedal_mode st) eqn:Hcv;
      destruct (CS4265.initialized st) eqn:Hi; simpl;
      try (split; [reflexivity | intros l; reflexivity]);
      destruct (Z.leb_spec (CS4265.irqFlag1 st) 0) as [Hf1 | Hf1];
      destruct (Z.leb_spec (CS4265.irqFlag2 st) 0) as [Hf2 | Hf2]; simpl;
      try (split; [reflexivity | intros l; reflexivity]);
      exfalso; destruct Hcase as [Hc | [Hc | [Hc | Hc]]];
      try discriminate Hc; lia.
Qed.

(** In expression-pedal mode with the signal on tip, selecting ring
    deasserts [exp_enable2] and asserts [exp_enable1]. *)
Lemma C9_signal_side_amended_witness :
  let env := CS4265.ProbeEnv true false false 5 6 0 0 in
  let st := post (CS4265.handle (CS4265.ctl_cv_exp_pedal_mode 1)
                    (post (CS4265.moddevices_init env CS4265.boot))) in
  let out := CS4265.set_exp_pedal_mode 1 st in
  trace out = [(CS4265.modduox_gpios.exp_enable2, 0);
               (CS4265.modduox_gpios.exp_enable1, 1)]
  /\ CS4265.level (post out) CS4265.modduox_gpios.exp_enable1 = true
  /\ CS4265.level (post out) CS4265.modduox_gpios.exp_enable2 = false.
Proof.
  intros env st out.
  destruct (C9_signal_side_amended st true) as (_ & Hpins & _).
  apply Hpins.
  - reflexivity.
  - reflexivity.
  - reflexivity.
  - reflexivity.
Defined.

(** C9 as stated fails in expression-pedal mode when the interrupts were
    not registered.  The probe succeeds but [gpiod_to_irq] fails for both
    sense lines; the control switches to expression-pedal mode; selecting
    the ring side then writes no pin, and neither [exp_enable] line is
    asserted. *)
Lemma C9_signal_side_counterexample :
  let env := CS4265.ProbeEnv true false false (-22) (-22) 0 0 in
  let st := post (CS4265.handle (CS4265.ctl_cv_exp_pedal_mode 1)
                    (post (CS4265.moddevices_init env CS4265.boot))) in
  let out := CS4265.set_exp_pedal_mode 1 st in
  CS4265.reachable env st
  /\ CS4265.cv_exp_pedal_mode st = true
  /\ CS4265.initialized st = true
  /\ trace out = []
  /\ CS4265.level (post out) CS4265.modduox_gpios.exp_enable1 = false
  /\ CS4265.level (post out) CS4265.modduox_gpios.exp_enable2 = false.
Proof.
  intros env st out. split.
  - apply CS4265.reach_event.
    + apply CS4265.reach_probe. reflexivity.
    + exact I.
  - repeat split; reflexivity.
Qed.

(** ** Further properties of the CS4245 codec operations *)

Section RegmapFacts.

(** Bit by bit, an update takes the bits of the mask from the value
    and keeps the others; other registers are not touched. *)
Lemma update_bits_testbit r m v cache i :
  0 <= i ->
  Z.testbit (Regmap.update_bits r m v cache r) i
  = if Z.testbit m i then Z.testbit v i else Z.testbit (cache r) i.
Proof.
  intros Hi. unfold Regmap.update_bits. rewrite Z.eqb_refl.
  rewrite Z.lor_spec, !Z.land_spec, Z.lnot_spec by exact Hi.
  destruct (Z.testbit m i), (Z.testbit v i), (Z.testbit (cache r) i);
    reflexivity.
Qed.

Lemma update_bits_other r m v cache a :
  a <> r -> Regmap.update_bits r m v cache a = cache a.
Proof.
  intros Hne. unfold Regmap.update_bits.
  destruct (Z.eqb_spec a r); [contradiction | reflexivity].
Qed.

(** A list of register addresses without repetition, checked by
    comparing each with the later ones. *)
Lemma distinct_NoDup (l : list Z) :
  (fix distinct (l : list Z) : bool :=
     match l with
     | [] => true
     | x :: rest => forallb (fun y => negb (x =? y)) rest && distinct rest
     end) l = true -> NoDup l.
Proof.
  induction l as [| x rest IH]; intros H.
  - constructor.
  - apply andb_true_iff in H as [Hx Hrest]. constructor; [| auto].
    intros Hin. rewrite forallb_forall in Hx. specialize (Hx x Hin).
    rewrite Z.eqb_refl in Hx. discriminate.
Qed.

Lemma keys_distinct_NoDup_fst :
  NoDup (map fst CS4245.cs4245_reg_defaults).
Proof. apply distinct_NoDup. vm_compute. reflexivity. Qed.

End RegmapFacts.

(** *** The register map configuration *)

(** The integers from [lo] on, [n] of them. *)
Lemma in_range_seq lo n x :
  lo <= x < lo + Z.of_nat n ->
  In x (map (fun i => lo + Z.of_nat i) (seq 0 n)).
Proof.
  intros H. apply in_map_iff. exists (Z.to_nat (x - lo)).
  split; [lia | apply in_seq; lia].
Qed.

(** X1.  The register map configuration is consistent: the volatile
    register is readable; every register with a power-on default is
    readable and its default fits in 8 bits; no register has two
    defaults; and every readable register except the chip ID has a
    default. *)
Theorem cs4245_regmap_config_consistent :
  (forall reg, CS4245.cs4245_volatile_register reg = true ->
               CS4245.cs4245_readable_register reg = true)
  /\ (forall reg v, In (reg, v) CS4245.cs4245_reg_defaults ->
                    CS4245.cs4245_readable_register reg = true
                    /\ 0 <= v <= 255)
  /\ NoDup (map fst CS4245.cs4245_reg_defaults)
  /\ (forall reg, CS4245.cs4245_readable_register reg = true ->
                  reg <> CS4245.CS4245_CHIP_ID ->
                  exists v, In (reg, v) CS4245.cs4245_reg_defaults)
  /\ (forall v, ~ In (CS4245.CS4245_CHIP_ID, v) CS4245.cs4245_reg_defaults).
Proof.
  split; [| split; [| split; [| split]]].
  - intros reg H. unfold CS4245.cs4245_volatile_register in H.
    apply Z.eqb_eq in H. subst reg. reflexivity.
  - intros reg v Hin. simpl in Hin.
    repeat (destruct Hin as [Hin | Hin];
            [injection Hin as <- <-; split; [reflexivity | lia] |]).
    contradiction.
  - apply keys_distinct_NoDup_fst.
  - intros reg Hr Hne.
    unfold CS4245.cs4245_readable_register in Hr.
    apply andb_true_iff in Hr as [Hlo Hhi].
    apply Z.leb_le in Hlo, Hhi.
    unfold CS4245.CS4245_CHIP_ID in *. unfold CS4245.CS4245_MAX_REGISTER in Hhi.
    assert (Hin : In reg (map fst CS4245.cs4245_reg_defaults)).
    { change (map fst CS4245.cs4245_reg_defaults)
        with (map (fun i => 2 + Z.of_nat i) (seq 0 15)).
      apply in_range_seq. lia. }
    apply in_map_iff in Hin. destruct Hin as [[r v] [Hkey Hin]].
    simpl in Hkey. subst r. exists v. exact Hin.
  - intros v Hin. simpl in Hin.
    repeat (destruct Hin as [Hin | Hin]; [discriminate Hin |]).
    contradiction.
Qed.

(** *** [cs4245_set_fmt] *)

Section SetFmt.

Import CInt Linux Props CS4245.

Lemma set_fmt_iface_some fmt :
  known_format (Z.land fmt SND_SOC_DAIFMT_FORMAT_MASK) ->
  set_fmt_iface fmt = Some (Z.land fmt SND_SOC_DAIFMT_FORMAT_MASK).
Proof.
  unfold set_fmt_iface, known_format. cbv zeta.
  intros [H | [H | H]]; rewrite H; reflexivity.
Qed.

Lemma set_fmt_iface_none fmt :
  ~ known_format (Z.land fmt SND_SOC_DAIFMT_FORMAT_MASK) ->
  set_fmt_iface fmt = None.
Proof.
  unfold set_fmt_iface, known_format. cbv zeta. intros Hno.
  destruct (Z.eqb_spec (Z.land fmt SND_SOC_DAIFMT_FORMAT_MASK)
                       SND_SOC_DAIFMT_I2S); [tauto |].
  destruct (Z.eqb_spec (Z.land fmt SND_SOC_DAIFMT_FORMAT_MASK)
                       SND_SOC_DAIFMT_RIGHT_J); [tauto |].
  destruct (Z.eqb_spec (Z.land fmt SND_SOC_DAIFMT_FORMAT_MASK)
                       SND_SOC_DAIFMT_LEFT_J); [tauto |].
  reflexivity.
Qed.

Lemma known_format_dec f : known_format f \/ ~ known_format f.
Proof.
  unfold known_format.
  destruct (Z.eq_dec f SND_SOC_DAIFMT_I2S); [tauto |].
  destruct (Z.eq_dec f SND_SOC_DAIFMT_RIGHT_J); [tauto |].
  destruct (Z.eq_dec f SND_SOC_DAIFMT_LEFT_J); tauto.
Qed.

(** The call on an accepted clock-provider setting: one update of the
    master bit, then the format is stored or the call fails. *)
Lemma set_fmt_known_master fmt c :
  known_master (Z.land fmt SND_SOC_DAIFMT_MASTER_MASK) ->
  let out := cs4245_set_fmt fmt c in
  let upd := Regmap.Update CS4245_ADC_CTL CS4245_ADC_MASTER
               (if Z.land fmt SND_SOC_DAIFMT_MASTER_MASK
                   =? SND_SOC_DAIFMT_CBM_CFM
                then CS4245_ADC_MASTER else 0) in
  trace out = [upd]
  /\ sysclk (post out) = sysclk c
  /\ regcache (post out)
     = Regmap.update_bits (Regmap.reg upd) (Regmap.mask upd)
                          (Regmap.bits upd) (regcache c)
  /\ match set_fmt_iface fmt with
     | None => val out = - EINVAL /\ format (post out) = format c
     | Some iface => val out = 0 /\ format (post out) = iface
     end.
Proof.
  unfold cs4245_set_fmt, known_master. cbv zeta.
  intros [H | H]; rewrite H; simpl Z.eqb; cbv iota;
    destruct (set_fmt_iface fmt); unfold bind; simpl;
    repeat split; reflexivity.
Qed.

Lemma set_fmt_unknown_master fmt c :
  ~ known_master (Z.land fmt SND_SOC_DAIFMT_MASTER_MASK) ->
  cs4245_set_fmt fmt c = Outcome (- EINVAL) c [].
Proof.
  unfold cs4245_set_fmt, known_master. cbv zeta. intros Hno.
  destruct (Z.eqb_spec (Z.land fmt SND_SOC_DAIFMT_MASTER_MASK)
                       SND_SOC_DAIFMT_CBM_CFM); [tauto |].
  destruct (Z.eqb_spec (Z.land fmt SND_SOC_DAIFMT_MASTER_MASK)
                       SND_SOC_DAIFMT_CBS_CFS); [tauto |].
  reflexivity.
Qed.

End SetFmt.

(** X2.  [cs4245_set_fmt] succeeds exactly when the clock-provider part
    of the format is one of the two accepted settings and the interface
    part is I2S, right-justified or left-justified; it then stores the
    interface part as the format and issues one register update, of the
    ADC master bit (set when the codec provides the clocks, cleared when
    it consumes them); otherwise it returns [-EINVAL] and keeps the stored
    format.  The stored clock is never touched. *)
Theorem cs4245_set_fmt_accepts (fmt : Z) (c : CS4245.cs4245_private) :
  let out := CS4245.cs4245_set_fmt fmt c in
  let master := Z.land fmt Linux.SND_SOC_DAIFMT_MASTER_MASK in
  let sel := Z.land fmt Linux.SND_SOC_DAIFMT_FORMAT_MASK in
  (Props.known_master master /\ Props.known_format sel ->
   val out = 0
   /\ CS4245.format (post out) = sel
   /\ trace out
      = [Regmap.Update CS4245.CS4245_ADC_CTL CS4245.CS4245_ADC_MASTER
           (if master =? Linux.SND_SOC_DAIFMT_CBM_CFM
            then CS4245.CS4245_ADC_MASTER else 0)])
  /\ (~ (Props.known_master master /\ Props.known_format sel) ->
      val out = - Linux.EINVAL
      /\ CS4245.format (post out) = CS4245.format c)
  /\ CS4245.sysclk (post out) = CS4245.sysclk c.
Proof.
  cbv zeta.
  assert (Hmdec : Props.known_master
                    (Z.land fmt Linux.SND_SOC_DAIFMT_MASTER_MASK)
                  \/ ~ Props.known_master
                       (Z.land fmt Linux.SND_SOC_DAIFMT_MASTER_MASK)).
  { unfold Props.known_master.
    destruct (Z.eq_dec (Z.land fmt Linux.SND_SOC_DAIFMT_MASTER_MASK)
                       Linux.SND_SOC_DAIFMT_CBM_CFM); [tauto |].
    destruct (Z.eq_dec (Z.land fmt Linux.SND_SOC_DAIFMT_MASTER_MASK)
                       Linux.SND_SOC_DAIFMT_CBS_CFS); tauto. }
  destruct Hmdec as [Hm | Hm].
  - destruct (set_fmt_known_master fmt c Hm) as (Htr & Hclk & _ & Hfmt).
    destruct (known_format_dec (Z.land fmt Linux.SND_SOC_DAIFMT_FORMAT_MASK))
      as [Hf | Hf].
    + rewrite (set_fmt_iface_some fmt Hf) in Hfmt. destruct Hfmt as [Hv Hst].
      split; [intros _; auto |]. split; [tauto | exact Hclk].
    + rewrite (set_fmt_iface_none fmt Hf) in Hfmt.
      split; [tauto |]. split; [intros _; exact Hfmt | exact Hclk].
  - rewrite (set_fmt_unknown_master fmt c Hm). simpl.
    split; [tauto |]. split; [intros _; split; reflexivity | reflexivity].
Qed.

Lemma cs4245_set_fmt_accepts_witness :
  let c := CS4245.Private 0 0 (fun _ => 0) in
  let fmt := Z.lor Linux.SND_SOC_DAIFMT_CBS_CFS Linux.SND_SOC_DAIFMT_I2S in
  val (CS4245.cs4245_set_fmt fmt c) = 0
  /\ CS4245.format (post (CS4245.cs4245_set_fmt fmt c))
     = Linux.SND_SOC_DAIFMT_I2S
  /\ trace (CS4245.cs4245_set_fmt fmt c)
     = [Regmap.Update CS4245.CS4245_ADC_CTL CS4245.CS4245_ADC_MASTER 0].
Proof.
  intros c fmt.
  destruct (cs4245_set_fmt_accepts fmt c) as (Hok & _ & _).
  apply Hok. split.
  - right. reflexivity.
  - left. reflexivity.
Defined.



(** *** [cs4245_digital_mute] *)

Section DigitalMute.

Import CInt Linux Props CS4245.

Lemma mute_mask_bit i :
  0 <= i -> Z.testbit (Z.shiftl 1 2) i = (i =? 2).
Proof.
  intros Hi. change (Z.shiftl 1 2) with (2 ^ 2).
  destruct (Z.eqb_spec i 2) as [-> | Hne].
  - reflexivity.
  - apply Z.pow2_bits_false. lia.
Qed.

(** The register cache after the call, bit by bit. *)
Lemma digital_mute_testbit mute direction c a i :
  0 <= i ->
  Z.testbit (regcache (post (cs4245_digital_mute mute direction c)) a) i
  = if ((a =? CS4245_DAC_CTL) || (a =? CS4245_ADC_CTL)) && (i =? 2)
    then negb (mute =? 0)
    else Z.testbit (regcache c a) i.
Proof.
  intros Hi. unfold cs4245_digital_mute, snd_soc_component_update_bits, bind.
  destruct (mute =? 0); cbn -[Regmap.update_bits Z.shiftl Z.testbit];
    (destruct (Z.eqb_spec a CS4245_ADC_CTL) as [-> | Hadc];
     [ rewrite update_bits_testbit by exact Hi;
       rewrite update_bits_other by discriminate;
       unfold CS4245_ADC_CTL_MUTE; rewrite mute_mask_bit by exact Hi;
       rewrite ?Z.testbit_0_l;
       change (CS4245_ADC_CTL =? CS4245_DAC_CTL) with false;
       destruct (i =? 2); reflexivity
     | rewrite update_bits_other by exact Hadc;
       destruct (Z.eqb_spec a CS4245_DAC_CTL) as [-> | Hdac];
       [ rewrite update_bits_testbit by exact Hi;
         unfold CS4245_DAC_CTL_MUTE; rewrite mute_mask_bit by exact Hi;
         rewrite ?Z.testbit_0_l;
         destruct (i =? 2); reflexivity
       | rewrite update_bits_other by exact Hdac; reflexivity ] ]).
Qed.

End DigitalMute.

(** X4.  [cs4245_digital_mute] always returns 0, for either stream
    direction; it leaves bit 2 (the mute bit) of the DAC and of the ADC
    control register set when [mute] is non-zero and cleared when it is
    zero, and changes no other bit of any register, nor the stored format
    or clock. *)
Theorem cs4245_digital_mute_effect
        (mute direction : Z) (c : CS4245.cs4245_private) :
  let out := CS4245.cs4245_digital_mute mute direction c in
  val out = 0
  /\ CS4245.format (post out) = CS4245.format c
  /\ CS4245.sysclk (post out) = CS4245.sysclk c
  /\ forall a i, 0 <= i ->
       Z.testbit (CS4245.regcache (post out) a) i
       = if ((a =? CS4245.CS4245_DAC_CTL) || (a =? CS4245.CS4245_ADC_CTL))
            && (i =? 2)
         then negb (mute =? 0)
         else Z.testbit (CS4245.regcache c a) i.
Proof.
  cbv zeta. split; [| split; [| split]].
  - unfold CS4245.cs4245_digital_mute, bind. destruct (mute =? 0); reflexivity.
  - unfold CS4245.cs4245_digital_mute, bind. destruct (mute =? 0); reflexivity.
  - unfold CS4245.cs4245_digital_mute, bind. destruct (mute =? 0); reflexivity.
  - intros a i Hi. apply digital_mute_testbit. exact Hi.
Qed.

Lemma cs4245_digital_mute_effect_witness :
  let c := CS4245.Private 0 0 (fun _ => 8) in
  Z.testbit (CS4245.regcache (post (CS4245.cs4245_digital_mute 1 0 c))
                             CS4245.CS4245_DAC_CTL) 2 = true
  /\ Z.testbit (CS4245.regcache (post (CS4245.cs4245_digital_mute 1 0 c))
                                CS4245.CS4245_DAC_CTL) 3 = true.
Proof.
  intros c.
  destruct (cs4245_digital_mute_effect 1 0 c) as (_ & _ & _ & Hbits).
  assert (H2 : 0 <= 2) by lia. assert (H3 : 0 <= 3) by lia.
  split.
  - exact (Hbits CS4245.CS4245_DAC_CTL 2 H2).
  - exact (Hbits CS4245.CS4245_DAC_CTL 3 H3).
Defined.

(** X5.  Muting and then unmuting restores every register of a codec
    that was not muted; and muting twice in a row leaves the registers as
    muting once. *)
Theorem cs4245_mute_unmute_restores
        (mute d1 d2 : Z) (c : CS4245.cs4245_private) :
  let muted := post (CS4245.cs4245_digital_mute mute d1 c) in
  (Z.testbit (CS4245.regcache c CS4245.CS4245_DAC_CTL) 2 = false ->
   Z.testbit (CS4245.regcache c CS4245.CS4245_ADC_CTL) 2 = false ->
   forall a,
     CS4245.regcache (post (CS4245.cs4245_digital_mute 0 d2 muted)) a
     = CS4245.regcache c a)
  /\ (forall a,
        CS4245.regcache (post (CS4245.cs4245_digital_mute mute d2 muted)) a
        = CS4245.regcache muted a).
Proof.
  cbv zeta. split.
  - intros Hdac Hadc a. apply Z.bits_inj'. intros i Hi.
    rewrite !digital_mute_testbit by exact Hi.
    destruct (((a =? CS4245.CS4245_DAC_CTL) || (a =? CS4245.CS4245_ADC_CTL))
              && (i =? 2)) eqn:E; [| reflexivity].
    apply andb_true_iff in E as [Ea Ei]. apply Z.eqb_eq in Ei. subst i.
    apply orb_true_iff in Ea as [Ea | Ea]; apply Z.eqb_eq in Ea; subst a;
      symmetry; assumption.
  - intros a. apply Z.bits_inj'. intros i Hi.
    rewrite !digital_mute_testbit by exact Hi.
    destruct (((a =? CS4245.CS4245_DAC_CTL) || (a =? CS4245.CS4245_ADC_CTL))
              && (i =? 2)); reflexivity.
Qed.

Lemma cs4245_mute_unmute_restores_witness :
  let c := CS4245.Private 0 0 (fun _ => 8) in
  CS4245.regcache
    (post (CS4245.cs4245_digital_mute 0 0
             (post (CS4245.cs4245_digital_mute 1 0 c)))) CS4245.CS4245_DAC_CTL
  = CS4245.regcache c CS4245.CS4245_DAC_CTL.
Proof.
  intros c.
  destruct (cs4245_mute_unmute_restores 1 0 0 c) as [Hback _].
  apply Hback; reflexivity.
Defined.

(** *** [cs4245_pcm_hw_params] *)

Section BitFields.

Import Props.

Lemma update_bits_keeps_bit r m v cache a i :
  0 <= i -> Z.testbit m i = false \/ a <> r ->
  Z.testbit (Regmap.update_bits r m v cache a) i = Z.testbit (cache a) i.
Proof.
  intros Hi [Hm | Hne].
  - destruct (Z.eq_dec a r) as [-> | Hne].
    + rewrite update_bits_testbit by exact Hi. rewrite Hm. reflexivity.
    + rewrite update_bits_other by exact Hne. reflexivity.
  - rewrite update_bits_other by exact Hne. reflexivity.
Qed.

Lemma small_bits_high x w i :
  0 <= w -> 0 <= x < 2 ^ w -> w <= i -> Z.testbit x i = false.
Proof.
  intros Hw Hx Hi. rewrite <- (Z.mod_small x (2 ^ w)) by exact Hx.
  apply Z.mod_pow2_bits_high. lia.
Qed.

Lemma field_testbit x lo w i :
  0 <= lo -> 0 <= w -> 0 <= i ->
  Z.testbit (field x lo w) i = (i <? w) && Z.testbit x (i + lo).
Proof.
  intros Hlo Hw Hi. unfold field.
  rewrite Z.land_spec, Z.shiftr_spec by exact Hi.
  destruct (Z.ltb_spec i w).
  - rewrite Z.ones_spec_low by lia. rewrite andb_true_r. reflexivity.
  - rewrite Z.ones_spec_high by lia. rewrite andb_false_r. reflexivity.
Qed.

(** An update of a whole field with a value that fits leaves the value
    in the field. *)
Lemma field_update_hit r m v lo w x cache :
  0 <= lo -> 0 <= w -> 0 <= x < 2 ^ w ->
  m = Z.shiftl (Z.ones w) lo -> v = Z.shiftl x lo ->
  field (Regmap.update_bits r m v cache r) lo w = x.
Proof.
  intros Hlo Hw Hx -> ->. apply Z.bits_inj'. intros i Hi.
  rewrite field_testbit by assumption.
  destruct (Z.ltb_spec i w) as [Hlt | Hge]; simpl.
  - rewrite update_bits_testbit by lia.
    rewrite !Z.shiftl_spec by lia.
    replace (i + lo - lo) with i by lia.
    rewrite Z.ones_spec_low by lia. reflexivity.
  - symmetry. apply (small_bits_high x w i); assumption.
Qed.

(** An update whose mask has no bit in a field leaves the field. *)
Lemma field_update_miss r m v lo w cache :
  0 <= lo -> 0 <= w ->
  (forall j, 0 <= j < w -> Z.testbit m (j + lo) = false) ->
  field (Regmap.update_bits r m v cache r) lo w = field (cache r) lo w.
Proof.
  intros Hlo Hw Hm. apply Z.bits_inj'. intros i Hi.
  rewrite !field_testbit by assumption.
  destruct (Z.ltb_spec i w) as [Hlt | Hge]; simpl; [| reflexivity].
  rewrite update_bits_testbit by lia.
  rewrite Hm by lia. reflexivity.
Qed.

(** An update of a whole field leaves in it the field of the value. *)
Lemma field_update_mask r m v lo w cache :
  0 <= lo -> 0 <= w -> m = Z.shiftl (Z.ones w) lo ->
  field (Regmap.update_bits r m v cache r) lo w = field v lo w.
Proof.
  intros Hlo Hw ->. apply Z.bits_inj'. intros i Hi.
  rewrite !field_testbit by assumption.
  destruct (Z.ltb_spec i w) as [Hlt | Hge]; simpl; [| reflexivity].
  rewrite update_bits_testbit by lia.
  rewrite Z.shiftl_spec by lia.
  replace (i + lo - lo) with i by lia.
  rewrite Z.ones_spec_low by lia. reflexivity.
Qed.

Lemma field_shiftl x lo w :
  0 <= lo -> 0 <= w -> 0 <= x < 2 ^ w -> field (Z.shiftl x lo) lo w = x.
Proof.
  intros Hlo Hw Hx. unfold field.
  rewrite Z.shiftr_shiftl_l, Z.sub_diag by exact Hlo.
  rewrite Z.shiftl_0_r, Z.land_ones by exact Hw.
  apply Z.mod_small. exact Hx.
Qed.

Lemma field_other r m v lo w cache a :
  a <> r ->
  field (Regmap.update_bits r m v cache a) lo w = field (cache a) lo w.
Proof. intros Hne. rewrite update_bits_other by exact Hne. reflexivity. Qed.

(** A mask within bits 4 to 7 has no bit below 4 or from 8 on. *)
Lemma high_nibble_bit q i :
  0 <= q < 16 -> 0 <= i -> i < 4 \/ 8 <= i ->
  Z.testbit (Z.shiftl q 4) i = false.
Proof.
  intros Hq Hi [Hlo | Hhi].
  - apply Z.shiftl_spec_low. exact Hlo.
  - rewrite Z.shiftl_spec by exact Hi.
    apply (small_bits_high q 4 (i - 4)); lia.
Qed.

End BitFields.

Section HwParamsFacts.

Import CInt Linux Spec Props CS4245 CS4245.cs4245_clk_para.

(** A [u32] handed over as an [int] and compared as a [u32] again is
    itself. *)
Lemma to_u32_of_to_int z : in_u32 z -> to_u32 (to_int z) = z.
Proof.
  unfold in_u32, to_u32, to_int. intros Hz.
  rewrite Zminus_mod, Z.mod_mod by lia.
  rewrite <- Zminus_mod.
  replace (z + 2 ^ 31 - 2 ^ 31) with z by lia.
  apply Z.mod_small. exact Hz.
Qed.

(** The lookup of [cs4245_pcm_hw_params]: [-EINVAL] when no row has the
    stored clock and the rate, the index of such a row otherwise. *)
Lemma clk_index_cases m r :
  in_u32 m -> in_u32 r ->
  (cs4245_get_clk_index (to_int m) (to_int r) = - EINVAL /\ ~ has_row m r)
  \/
  (exists e,
      0 <= cs4245_get_clk_index (to_int m) (to_int r)
      /\ In e clk_map_table /\ mclk e = m /\ rate e = r
      /\ clk_map_table_at (cs4245_get_clk_index (to_int m) (to_int r)) = e).
Proof.
  intros Hm Hr. unfold cs4245_get_clk_index.
  destruct (scan_first mclk rate get_clk_index_from
              (fun _ _ _ => eq_refl) (fun _ _ _ _ _ => eq_refl)
              clk_map_table 0 (to_int m) (to_int r))
    as [[Hres Hno] | (k & e & Hres & Hk & [Hre Hme] & _)].
  - left. split; [exact Hres |].
    intros (e & Hin & Hem & Her). apply (Hno e Hin).
    unfold answers. rewrite !to_u32_of_to_int by assumption. auto.
  - right. exists e.
    rewrite to_u32_of_to_int in Hre, Hme by assumption.
    rewrite Hres, Z.add_0_l.
    split; [lia |]. split; [eapply nth_error_In; eauto |].
    split; [exact Hme |]. split; [exact Hre |].
    unfold clk_map_table_at. rewrite Nat2Z.id.
    apply nth_error_nth. exact Hk.
Qed.

Lemma has_row_unique m r e e' :
  In e clk_map_table -> mclk e = m -> rate e = r ->
  In e' clk_map_table -> mclk e' = m -> rate e' = r -> e = e'.
Proof.
  intros Hin Hm Hr Hin' Hm' Hr'.
  assert (Hs : forallb (row_small mclk rate) clk_map_table = true)
    by (vm_compute; reflexivity).
  assert (Hk : keys_distinct (map (key mclk rate) clk_map_table) = true)
    by (vm_compute; reflexivity).
  apply (table_row_unique mclk rate clk_map_table Hk); congruence.
Qed.

(** The fields of a row fit the register fields they are written to. *)
Lemma row_fields_fit e :
  In e clk_map_table -> 0 <= fm_mode e < 2 ^ 2 /\ 0 <= mclkdiv e < 2 ^ 3.
Proof.
  intros Hin.
  assert (Hall : forallb (fun e => (0 <=? fm_mode e) && (fm_mode e <? 4)
                                   && (0 <=? mclkdiv e) && (mclkdiv e <? 8))
                         clk_map_table = true)
    by (vm_compute; reflexivity).
  rewrite forallb_forall in Hall. specialize (Hall e Hin).
  rewrite !andb_true_iff, !Z.leb_le, !Z.ltb_lt in Hall.
  change (2 ^ 2) with 4. change (2 ^ 3) with 8. lia.
Qed.

Lemma capture_right_justified_test stream fmt :
  (stream =? SNDRV_PCM_STREAM_CAPTURE)
  && (Z.land fmt SND_SOC_DAIFMT_FORMAT_MASK =? SND_SOC_DAIFMT_RIGHT_J)
  = true <-> capture_right_justified stream fmt.
Proof.
  unfold capture_right_justified.
  rewrite andb_true_iff, !Z.eqb_eq. tauto.
Qed.

(** The call refused at once. *)
Lemma hw_params_refused c stream rate_arg width :
  capture_right_justified stream (format c) ->
  cs4245_pcm_hw_params stream rate_arg width c = Outcome (- EINVAL) c [].
Proof.
  intros H. apply capture_right_justified_test in H.
  unfold cs4245_pcm_hw_params, bind, gets. simpl.
  rewrite H. destruct c; reflexivity.
Qed.

(** The call that finds no row. *)
Lemma hw_params_no_row c stream rate_arg width :
  in_u32 (sysclk c) -> in_u32 rate_arg ->
  ~ capture_right_justified stream (format c) ->
  ~ has_row (sysclk c) rate_arg ->
  cs4245_pcm_hw_params stream rate_arg width c = Outcome (- EINVAL) c [].
Proof.
  intros Hc Hr Hcap Hrow.
  destruct (clk_index_cases (sysclk c) rate_arg Hc Hr)
    as [[Hidx _] | (e & _ & Hin & Hm & Hra & _)].
  - unfold cs4245_pcm_hw_params, bind, gets. simpl.
    destruct ((stream =? SNDRV_PCM_STREAM_CAPTURE)
              && (Z.land (format c) SND_SOC_DAIFMT_FORMAT_MASK
                  =? SND_SOC_DAIFMT_RIGHT_J)) eqn:Hrej.
    + apply capture_right_justified_test in Hrej. contradiction.
    + simpl. rewrite Hidx. destruct c; reflexivity.
  - exfalso. apply Hrow. exists e. auto.
Qed.

(** The call that finds the row [e], in one equation. *)
Lemma hw_params_found c stream rate_arg width e :
  in_u32 (sysclk c) -> in_u32 rate_arg ->
  ~ capture_right_justified stream (format c) ->
  In e clk_map_table -> mclk e = sysclk c -> rate e = rate_arg ->
  cs4245_pcm_hw_params stream rate_arg width c
  = let sel := Z.land (format c) SND_SOC_DAIFMT_FORMAT_MASK in
    let cache := clocked e (regcache c) in
    if sel =? SND_SOC_DAIFMT_I2S then
      Outcome 0
        (with_regcache
           (Regmap.update_bits CS4245_ADC_CTL CS4245_ADC_DIF (Z.shiftl 1 4)
              (Regmap.update_bits CS4245_DAC_CTL CS4245_DAC_CTL_DIF
                 (Z.shiftl 1 4) cache)) c)
        (clock_updates e
         ++ [ Regmap.Update CS4245_DAC_CTL CS4245_DAC_CTL_DIF (Z.shiftl 1 4);
              Regmap.Update CS4245_ADC_CTL CS4245_ADC_DIF (Z.shiftl 1 4) ])
    else if sel =? SND_SOC_DAIFMT_RIGHT_J then
      Outcome 0
        (with_regcache
           (Regmap.update_bits CS4245_DAC_CTL CS4245_DAC_CTL_DIF
              (if width =? 16 then Z.shiftl 2 4 else Z.shiftl 3 4) cache) c)
        (clock_updates e
         ++ [ Regmap.Update CS4245_DAC_CTL CS4245_DAC_CTL_DIF
                (if width =? 16 then Z.shiftl 2 4 else Z.shiftl 3 4) ])
    else if sel =? SND_SOC_DAIFMT_LEFT_J then
      Outcome 0
        (with_regcache
           (Regmap.update_bits CS4245_ADC_CTL CS4245_ADC_DIF 0
              (Regmap.update_bits CS4245_DAC_CTL CS4245_DAC_CTL_DIF 0
                 cache)) c)
        (clock_updates e
         ++ [ Regmap.Update CS4245_DAC_CTL CS4245_DAC_CTL_DIF 0;
              Regmap.Update CS4245_ADC_CTL CS4245_ADC_DIF 0 ])
    else Outcome (- EINVAL) (with_regcache cache c) (clock_updates e).
Proof.
  intros Hc Hr Hcap Hin Hm Hra.
  destruct (clk_index_cases (sysclk c) rate_arg Hc Hr)
    as [[_ Hno] | (e' & Hidx & Hin' & Hm' & Hra' & Hat)].
  { exfalso. apply Hno. exists e. auto. }
  assert (e' = e) as -> by (eapply has_row_unique; eauto).
  apply Z.leb_le in Hidx.
  assert (Hrej : (stream =? SNDRV_PCM_STREAM_CAPTURE)
                 && (Z.land (format c) SND_SOC_DAIFMT_FORMAT_MASK
                     =? SND_SOC_DAIFMT_RIGHT_J) = false).
  { destruct ((stream =? SNDRV_PCM_STREAM_CAPTURE)
              && (Z.land (format c) SND_SOC_DAIFMT_FORMAT_MASK
                  =? SND_SOC_DAIFMT_RIGHT_J)) eqn:E; [| reflexivity].
    apply capture_right_justified_test in E. contradiction. }
  cbv zeta.
  unfold cs4245_pcm_hw_params, snd_soc_component_update_bits, bind, gets,
    clock_updates, clocked.
  cbn -[Regmap.update_bits Z.shiftl Z.land cs4245_get_clk_index
        clk_map_table_at Z.leb Z.eqb].
  rewrite Hrej.
  cbn -[Regmap.update_bits Z.shiftl Z.land cs4245_get_clk_index
        clk_map_table_at Z.leb Z.eqb].
  rewrite Hidx, Hat.
  destruct (Z.land (format c) SND_SOC_DAIFMT_FORMAT_MASK
            =? SND_SOC_DAIFMT_I2S);
    [| destruct (Z.land (format c) SND_SOC_DAIFMT_FORMAT_MASK
                 =? SND_SOC_DAIFMT_RIGHT_J);
       [| destruct (Z.land (format c) SND_SOC_DAIFMT_FORMAT_MASK
                    =? SND_SOC_DAIFMT_LEFT_J)]];
    try destruct (width =? 16); reflexivity.
Qed.

(** The call that finds the row [e]: the two clock updates, then the
    updates of the stored format, or [-EINVAL] for a format that is not
    one of the three. *)
Lemma hw_params_row c stream rate_arg width e :
  in_u32 (sysclk c) -> in_u32 rate_arg ->
  ~ capture_right_justified stream (format c) ->
  In e clk_map_table -> mclk e = sysclk c -> rate e = rate_arg ->
  let out := cs4245_pcm_hw_params stream rate_arg width c in
  let sel := Z.land (format c) SND_SOC_DAIFMT_FORMAT_MASK in
  format (post out) = format c /\ sysclk (post out) = sysclk c
  /\ (sel = SND_SOC_DAIFMT_I2S ->
      val out = 0
      /\ trace out
         = clock_updates e
           ++ [ Regmap.Update CS4245_DAC_CTL CS4245_DAC_CTL_DIF (Z.shiftl 1 4);
                Regmap.Update CS4245_ADC_CTL CS4245_ADC_DIF (Z.shiftl 1 4) ]
      /\ regcache (post out)
         = Regmap.update_bits CS4245_ADC_CTL CS4245_ADC_DIF (Z.shiftl 1 4)
             (Regmap.update_bits CS4245_DAC_CTL CS4245_DAC_CTL_DIF
                (Z.shiftl 1 4) (clocked e (regcache c))))
  /\ (sel = SND_SOC_DAIFMT_RIGHT_J ->
      val out = 0
      /\ trace out
         = clock_updates e
           ++ [ Regmap.Update CS4245_DAC_CTL CS4245_DAC_CTL_DIF
                  (if width =? 16 then Z.shiftl 2 4 else Z.shiftl 3 4) ]
      /\ regcache (post out)
         = Regmap.update_bits CS4245_DAC_CTL CS4245_DAC_CTL_DIF
             (if width =? 16 then Z.shiftl 2 4 else Z.shiftl 3 4)
             (clocked e (regcache c)))
  /\ (sel = SND_SOC_DAIFMT_LEFT_J ->
      val out = 0
      /\ trace out
         = clock_updates e
           ++ [ Regmap.Update CS4245_DAC_CTL CS4245_DAC_CTL_DIF 0;
                Regmap.Update CS4245_ADC_CTL CS4245_ADC_DIF 0 ]
      /\ regcache (post out)
         = Regmap.update_bits CS4245_ADC_CTL CS4245_ADC_DIF 0
             (Regmap.update_bits CS4245_DAC_CTL CS4245_DAC_CTL_DIF 0
                (clocked e (regcache c))))
  /\ (~ known_format sel ->
      val out = - EINVAL
      /\ trace out = clock_updates e
      /\ regcache (post out) = clocked e (regcache c)).
Proof.
  intros Hc Hr Hcap Hin Hm Hra. cbv zeta.
  rewrite (hw_params_found c stream rate_arg width e) by assumption.
  unfold known_format.
  destruct (Z.eqb_spec (Z.land (format c) SND_SOC_DAIFMT_FORMAT_MASK)
                       SND_SOC_DAIFMT_I2S) as [E1 | N1];
    [| destruct (Z.eqb_spec (Z.land (format c) SND_SOC_DAIFMT_FORMAT_MASK)
                            SND_SOC_DAIFMT_RIGHT_J) as [E2 | N2];
       [| destruct (Z.eqb_spec (Z.land (format c) SND_SOC_DAIFMT_FORMAT_MASK)
                               SND_SOC_DAIFMT_LEFT_J) as [E3 | N3]]];
    cbn [val post trace format sysclk regcache with_regcache];
    (split; [reflexivity |]); (split; [reflexivity |]).
  - rewrite E1. split; [intros _; repeat split; reflexivity |].
    split; [discriminate |]. split; [discriminate |].
    intros H. exfalso. apply H. tauto.
  - rewrite E2. split; [discriminate |].
    split; [intros _; repeat split; reflexivity |].
    split; [discriminate |].
    intros H. exfalso. apply H. tauto.
  - rewrite E3. split; [discriminate |]. split; [discriminate |].
    split; [intros _; repeat split; reflexivity |].
    intros H. exfalso. apply H. tauto.
  - split; [contradiction |]. split; [contradiction |].
    split; [contradiction |].
    intros _. repeat split; reflexivity.
Qed.

End HwParamsFacts.

(** The return value of [cs4245_pcm_hw_params]. *)
Lemma hw_params_val
        (c : CS4245.cs4245_private) (stream rate width : Z)
        (Hclk : CInt.in_u32 (CS4245.sysclk c)) (Hrate : CInt.in_u32 rate) :
  let out := CS4245.cs4245_pcm_hw_params stream rate width c in
  (val out = 0 <->
   ~ Props.capture_right_justified stream (CS4245.format c)
   /\ Props.has_row (CS4245.sysclk c) rate
   /\ Props.known_format
        (Z.land (CS4245.format c) Linux.SND_SOC_DAIFMT_FORMAT_MASK))
  /\ (val out = 0 \/ val out = - Linux.EINVAL).
Proof.
  cbv zeta.
  destruct ((stream =? Linux.SNDRV_PCM_STREAM_CAPTURE)
            && (Z.land (CS4245.format c) Linux.SND_SOC_DAIFMT_FORMAT_MASK
                =? Linux.SND_SOC_DAIFMT_RIGHT_J)) eqn:Hrej.
  - apply capture_right_justified_test in Hrej.
    rewrite (hw_params_refused c stream rate width Hrej). simpl.
    split; [| right; reflexivity].
    split; [discriminate | tauto].
  - assert (Hcap : ~ Props.capture_right_justified stream (CS4245.format c)).
    { intros H. apply capture_right_justified_test in H. congruence. }
    destruct (clk_index_cases (CS4245.sysclk c) rate Hclk Hrate)
      as [[_ Hno] | (e & _ & Hin & Hm & Hra & _)].
    + rewrite (hw_params_no_row c stream rate width Hclk Hrate Hcap Hno).
      simpl. split; [| right; reflexivity].
      split; [discriminate | tauto].
    + destruct (hw_params_row c stream rate width e Hclk Hrate Hcap Hin Hm Hra)
        as (_ & _ & Hi2s & Hrj & Hlj & Hnone).
      assert (Hrow : Props.has_row (CS4245.sysclk c) rate)
        by (exists e; auto).
      destruct (known_format_dec
                  (Z.land (CS4245.format c) Linux.SND_SOC_DAIFMT_FORMAT_MASK))
        as [Hf | Hf].
      * assert (Hv : val (CS4245.cs4245_pcm_hw_params stream rate width c) = 0).
        { destruct Hf as [Hf | [Hf | Hf]];
            [apply Hi2s | apply Hrj | apply Hlj]; exact Hf. }
        split; [| left; exact Hv]. split; [intros _; auto | intros _; exact Hv].
      * destruct (Hnone Hf) as (Hv & _).
        split; [| right; exact Hv].
        rewrite Hv. split; [discriminate | tauto].
Qed.

(** X6.  [cs4245_pcm_hw_params] returns 0 exactly when the request is
    not a capture on a right-justified interface, some row of the clock
    table has the stored clock and the requested rate, and the stored
    format is I2S, right-justified or left-justified; in every other case
    it returns [-EINVAL]. *)
Theorem cs4245_pcm_hw_params_accepts
        (c : CS4245.cs4245_private) (stream rate width : Z)
        (Hclk : CInt.in_u32 (CS4245.sysclk c)) (Hrate : CInt.in_u32 rate) :
  let out := CS4245.cs4245_pcm_hw_params stream rate width c in
  (val out = 0 <->
   ~ Props.capture_right_justified stream (CS4245.format c)
   /\ Props.has_row (CS4245.sysclk c) rate
   /\ Props.known_format
        (Z.land (CS4245.format c) Linux.SND_SOC_DAIFMT_FORMAT_MASK))
  /\ (val out = 0 \/ val out = - Linux.EINVAL).
Proof. exact (hw_params_val c stream rate width Hclk Hrate). Qed.

Lemma cs4245_pcm_hw_params_accepts_witness :
  let c := CS4245.Private Linux.SND_SOC_DAIFMT_I2S 12288000 (fun _ => 0) in
  val (CS4245.cs4245_pcm_hw_params 0 48000 24 c) = 0.
Proof.
  intros c.
  assert (Hclk : CInt.in_u32 (CS4245.sysclk c))
    by (unfold CInt.in_u32; simpl; lia).
  assert (Hrate : CInt.in_u32 48000) by (unfold CInt.in_u32; lia).
  destruct (cs4245_pcm_hw_params_accepts c 0 48000 24 Hclk Hrate) as [Hiff _].
  apply Hiff. split; [| split].
  - intros [Hs _]. discriminate Hs.
  - exists (CS4245.cs4245_clk_para.P 12288000 48000 0 0).
    split; [| split; reflexivity].
    simpl. do 10 right. left. reflexivity.
  - left. reflexivity.
Defined.

Section HwParamsRegisters.

Import CInt Linux Spec Props CS4245 CS4245.cs4245_clk_para.

Ltac reg_neq := let H := fresh in intro H; vm_compute in H; discriminate H.

Ltac no_mask_bit :=
  let j := fresh "j" in
  let Hj := fresh "Hj" in
  intros j Hj;
  match type of Hj with
  | 0 <= j < 2 =>
      assert (j = 0 \/ j = 1) as [-> | ->] by lia
  | 0 <= j < 3 =>
      assert (j = 0 \/ j = 1 \/ j = 2) as [-> | [-> | ->]] by lia
  end; reflexivity.

(** One step in reading a field of a register after a chain of
    updates. *)
Ltac field_step :=
  first
    [ rewrite field_other by reg_neq
    | rewrite field_update_mask by (first [lia | reflexivity])
    | rewrite field_update_miss by (first [lia | no_mask_bit]) ].

(** The clock fields once the clock updates are made. *)
Lemma clocked_fields e cache :
  In e clk_map_table ->
  field (clocked e cache CS4245_ADC_CTL) 6 2 = fm_mode e
  /\ field (clocked e cache CS4245_MCLK_FREQ) 4 3 = mclkdiv e
  /\ field (clocked e cache CS4245_DAC_CTL) 4 2
     = field (cache CS4245_DAC_CTL) 4 2
  /\ Z.testbit (clocked e cache CS4245_ADC_CTL) 4
     = Z.testbit (cache CS4245_ADC_CTL) 4.
Proof.
  intros Hin. destruct (row_fields_fit e Hin) as [Hfm Hdiv].
  unfold clocked. split; [| split; [| split]].
  - repeat field_step. apply field_shiftl; [lia | lia | exact Hfm].
  - repeat field_step. apply field_shiftl; [lia | lia | exact Hdiv].
  - repeat field_step. reflexivity.
  - rewrite update_bits_keeps_bit by (first [lia | right; reg_neq]).
    rewrite update_bits_keeps_bit by (first [lia | left; reflexivity]).
    reflexivity.
Qed.

(** What a successful call implies. *)
Lemma hw_params_ok_inv c stream rate_arg width :
  val (cs4245_pcm_hw_params stream rate_arg width c) = 0 ->
  ~ capture_right_justified stream (format c).
Proof.
  intros Hok Hcap.
  rewrite (hw_params_refused c stream rate_arg width Hcap) in Hok.
  discriminate Hok.
Qed.

(** X7.  After a successful [cs4245_pcm_hw_params] the registers hold
    the row of the stored clock and the rate: bits 7:6 of the ADC control
    register are its [fm_mode] and bits 6:4 of the clock register its
    [mclkdiv]; bits 5:4 of the DAC control register are the interface
    code (1 for I2S, 0 for left-justified, 2 for right-justified 16-bit
    samples and 3 for other right-justified widths), and bit 4 of the ADC
    control register is set for I2S, cleared for left-justified and left
    alone for right-justified. *)
Theorem cs4245_pcm_hw_params_fields
        (c : cs4245_private) (stream rate_arg width : Z)
        (e : cs4245_clk_para.t)
        (Hclk : in_u32 (sysclk c)) (Hrate : in_u32 rate_arg)
        (Hin : In e clk_map_table)
        (Hm : mclk e = sysclk c) (Hr : rate e = rate_arg)
        (Hok : val (cs4245_pcm_hw_params stream rate_arg width c) = 0) :
  let regs := regcache (post (cs4245_pcm_hw_params stream rate_arg width c)) in
  let sel := Z.land (format c) SND_SOC_DAIFMT_FORMAT_MASK in
  field (regs CS4245_ADC_CTL) 6 2 = fm_mode e
  /\ field (regs CS4245_MCLK_FREQ) 4 3 = mclkdiv e
  /\ field (regs CS4245_DAC_CTL) 4 2
     = (if sel =? SND_SOC_DAIFMT_I2S then 1
        else if sel =? SND_SOC_DAIFMT_LEFT_J then 0
        else if width =? 16 then 2 else 3)
  /\ Z.testbit (regs CS4245_ADC_CTL) 4
     = (if sel =? SND_SOC_DAIFMT_RIGHT_J
        then Z.testbit (regcache c CS4245_ADC_CTL) 4
        else sel =? SND_SOC_DAIFMT_I2S).
Proof.
  pose proof (hw_params_ok_inv c stream rate_arg width Hok) as Hcap.
  destruct (hw_params_row c stream rate_arg width e Hclk Hrate Hcap Hin Hm Hr)
    as (_ & _ & Hi2s & Hrj & Hlj & Hnone).
  destruct (clocked_fields e (regcache c) Hin) as (Cfm & Cdiv & Cdac & Cbit).
  cbv zeta.
  destruct (known_format_dec (Z.land (format c) SND_SOC_DAIFMT_FORMAT_MASK))
    as [[Hf | [Hf | Hf]] | Hf].
  - destruct (Hi2s Hf) as (_ & _ & Hregs). rewrite Hregs, Hf.
    cbn [Z.eqb Pos.eqb SND_SOC_DAIFMT_I2S SND_SOC_DAIFMT_RIGHT_J
               SND_SOC_DAIFMT_LEFT_J].
    split; [repeat field_step; exact Cfm |].
    split; [repeat field_step; exact Cdiv |].
    split; [repeat field_step; reflexivity |].
    rewrite update_bits_testbit by lia. reflexivity.
  - destruct (Hrj Hf) as (_ & _ & Hregs). rewrite Hregs, Hf.
    cbn [Z.eqb Pos.eqb SND_SOC_DAIFMT_I2S SND_SOC_DAIFMT_RIGHT_J
               SND_SOC_DAIFMT_LEFT_J].
    split; [repeat field_step; exact Cfm |].
    split; [repeat field_step; exact Cdiv |].
    split; [repeat field_step; destruct (width =? 16); reflexivity |].
    rewrite update_bits_keeps_bit by (first [lia | right; reg_neq]).
    exact Cbit.
  - destruct (Hlj Hf) as (_ & _ & Hregs). rewrite Hregs, Hf.
    cbn [Z.eqb Pos.eqb SND_SOC_DAIFMT_I2S SND_SOC_DAIFMT_RIGHT_J
               SND_SOC_DAIFMT_LEFT_J].
    split; [repeat field_step; exact Cfm |].
    split; [repeat field_step; exact Cdiv |].
    split; [repeat field_step; reflexivity |].
    rewrite update_bits_testbit by lia. reflexivity.
  - destruct (Hnone Hf) as (Hv & _). rewrite Hv in Hok. discriminate Hok.
Qed.

Lemma cs4245_pcm_hw_params_fields_witness :
  let c := Private SND_SOC_DAIFMT_I2S 12288000 (fun _ => 255) in
  let regs := regcache (post (cs4245_pcm_hw_params 0 96000 24 c)) in
  field (regs CS4245_ADC_CTL) 6 2 = 1
  /\ field (regs CS4245_MCLK_FREQ) 4 3 = 0
  /\ field (regs CS4245_DAC_CTL) 4 2 = 1.
Proof.
  intros c regs.
  assert (Hclk : in_u32 (sysclk c)) by (unfold in_u32; simpl; lia).
  assert (Hrate : in_u32 96000) by (unfold in_u32; lia).
  assert (Hin : In (P 12288000 96000 1 0) clk_map_table).
  { simpl. do 25 right. left. reflexivity. }
  destruct (cs4245_pcm_hw_params_fields c 0 96000 24 (P 12288000 96000 1 0)
              Hclk Hrate Hin eq_refl eq_refl eq_refl)
    as (Hfm & Hdiv & Hdac & _).
  split; [exact Hfm |]. split; [exact Hdiv | exact Hdac].
Defined.

(** An update that [cs4245_pcm_hw_params] makes does not reach below
    bit 4, from bit 8 on, or into another register than the three it
    programs. *)
Lemma hw_update_untouched r m v cache a i :
  0 <= i ->
  In m [CS4245_ADC_FM; CS4245_MCLK_FREQ_MASK; CS4245_DAC_CTL_DIF;
        CS4245_ADC_DIF] ->
  In r [CS4245_DAC_CTL; CS4245_ADC_CTL; CS4245_MCLK_FREQ] ->
  i < 4 \/ 8 <= i
  \/ (a <> CS4245_DAC_CTL /\ a <> CS4245_ADC_CTL /\ a <> CS4245_MCLK_FREQ) ->
  Z.testbit (Regmap.update_bits r m v cache a) i = Z.testbit (cache a) i.
Proof.
  intros Hi Hm Hr Hout. apply update_bits_keeps_bit; [exact Hi |].
  assert (Hbits : i < 4 \/ 8 <= i -> Z.testbit m i = false).
  { intros Hrange. simpl in Hm.
    destruct Hm as [<- | [<- | [<- | [<- | []]]]].
    - change CS4245_ADC_FM with (Z.shiftl 12 4).
      apply high_nibble_bit; [lia | exact Hi | exact Hrange].
    - change CS4245_MCLK_FREQ_MASK with (Z.shiftl 7 4).
      apply high_nibble_bit; [lia | exact Hi | exact Hrange].
    - change CS4245_DAC_CTL_DIF with (Z.shiftl 3 4).
      apply high_nibble_bit; [lia | exact Hi | exact Hrange].
    - change CS4245_ADC_DIF with (Z.shiftl 1 4).
      apply high_nibble_bit; [lia | exact Hi | exact Hrange]. }
  destruct Hout as [H | [H | H]]; [left; auto | left; auto |].
  right. simpl in Hr. destruct Hr as [<- | [<- | [<- | []]]]; tauto.
Qed.

(** X8.  [cs4245_pcm_hw_params], whether it succeeds or fails, never
    changes the stored format or clock, any register other than the DAC
    control, ADC control and clock registers, or any bit of these outside
    bits 4 to 7: the mute bits and the ADC master bit are left as they
    are. *)
Theorem cs4245_pcm_hw_params_untouched
        (c : cs4245_private) (stream rate_arg width : Z)
        (Hclk : in_u32 (sysclk c)) (Hrate : in_u32 rate_arg) :
  let out := cs4245_pcm_hw_params stream rate_arg width c in
  format (post out) = format c
  /\ sysclk (post out) = sysclk c
  /\ forall a i,
       0 <= i ->
       i < 4 \/ 8 <= i
       \/ (a <> CS4245_DAC_CTL /\ a <> CS4245_ADC_CTL
           /\ a <> CS4245_MCLK_FREQ) ->
       Z.testbit (regcache (post out) a) i = Z.testbit (regcache c a) i.
Proof.
  cbv zeta.
  destruct ((stream =? SNDRV_PCM_STREAM_CAPTURE)
            && (Z.land (format c) SND_SOC_DAIFMT_FORMAT_MASK
                =? SND_SOC_DAIFMT_RIGHT_J)) eqn:Hrej.
  { apply capture_right_justified_test in Hrej.
    rewrite (hw_params_refused c stream rate_arg width Hrej). simpl. auto. }
  assert (Hcap : ~ capture_right_justified stream (format c)).
  { intros H. apply capture_right_justified_test in H. congruence. }
  destruct (clk_index_cases (sysclk c) rate_arg Hclk Hrate)
    as [[_ Hno] | (e & _ & Hin & Hm & Hra & _)].
  { rewrite (hw_params_no_row c stream rate_arg width Hclk Hrate Hcap Hno).
    simpl. auto. }
  destruct (hw_params_row c stream rate_arg width e Hclk Hrate Hcap Hin Hm Hra)
    as (Hfmt & Hsys & Hi2s & Hrj & Hlj & Hnone).
  split; [exact Hfmt |]. split; [exact Hsys |].
  intros a i Hi Hout.
  assert (Hclocked : Z.testbit (clocked e (regcache c) a) i
                     = Z.testbit (regcache c a) i).
  { unfold clocked.
    rewrite !hw_update_untouched
      by (first [exact Hi | exact Hout | simpl; auto 10]).
    reflexivity. }
  destruct (known_format_dec (Z.land (format c) SND_SOC_DAIFMT_FORMAT_MASK))
    as [[Hf | [Hf | Hf]] | Hf].
  - destruct (Hi2s Hf) as (_ & _ & Hregs). rewrite Hregs.
    rewrite !hw_update_untouched
      by (first [exact Hi | exact Hout | simpl; auto 10]).
    exact Hclocked.
  - destruct (Hrj Hf) as (_ & _ & Hregs). rewrite Hregs.
    rewrite !hw_update_untouched
      by (first [exact Hi | exact Hout | simpl; auto 10]).
    exact Hclocked.
  - destruct (Hlj Hf) as (_ & _ & Hregs). rewrite Hregs.
    rewrite !hw_update_untouched
      by (first [exact Hi | exact Hout | simpl; auto 10]).
    exact Hclocked.
  - destruct (Hnone Hf) as (_ & _ & Hregs). rewrite Hregs.
    exact Hclocked.
Qed.

Lemma cs4245_pcm_hw_params_untouched_witness :
  let c := Private SND_SOC_DAIFMT_I2S 12288000 (fun _ => 4) in
  Z.testbit (regcache (post (cs4245_pcm_hw_params 0 48000 24 c))
                      CS4245_DAC_CTL) 2 = true.
Proof.
  intros c.
  assert (Hclk : in_u32 (sysclk c)) by (unfold in_u32; simpl; lia).
  assert (Hrate : in_u32 48000) by (unfold in_u32; lia).
  destruct (cs4245_pcm_hw_params_untouched c 0 48000 24 Hclk Hrate)
    as (_ & _ & Hbits).
  rewrite Hbits; [reflexivity | lia | left; lia].
Defined.

(** X9.  While the stored format is not one of the three accepted ones
    (as before any successful [cs4245_set_fmt], the format being 0),
    [cs4245_pcm_hw_params] returns [-EINVAL] for every request; when a
    row has the stored clock and the rate, the failing call has already
    issued the two clock updates and the clock fields hold the row. *)
Theorem cs4245_pcm_hw_params_format_unset
        (c : cs4245_private) (stream rate_arg width : Z)
        (Hclk : in_u32 (sysclk c)) (Hrate : in_u32 rate_arg)
        (Hfmt : ~ known_format
                    (Z.land (format c) SND_SOC_DAIFMT_FORMAT_MASK)) :
  let out := cs4245_pcm_hw_params stream rate_arg width c in
  val out = - EINVAL
  /\ (forall e, In e clk_map_table -> mclk e = sysclk c ->
                rate e = rate_arg ->
        trace out
        = [ Regmap.Update CS4245_ADC_CTL CS4245_ADC_FM
                          (Z.shiftl (fm_mode e) 6);
            Regmap.Update CS4245_MCLK_FREQ CS4245_MCLK_FREQ_MASK
                          (Z.shiftl (mclkdiv e) 4) ]
        /\ field (regcache (post out) CS4245_ADC_CTL) 6 2 = fm_mode e
        /\ field (regcache (post out) CS4245_MCLK_FREQ) 4 3 = mclkdiv e)
  /\ (~ has_row (sysclk c) rate_arg -> trace out = [] /\ post out = c).
Proof.
  cbv zeta.
  assert (Hcap : ~ capture_right_justified stream (format c)).
  { intros [_ Hrj]. apply Hfmt. right. left. exact Hrj. }
  split; [| split].
  - destruct (clk_index_cases (sysclk c) rate_arg Hclk Hrate)
      as [[_ Hno] | (e & _ & Hin & Hm & Hra & _)].
    + rewrite (hw_params_no_row c stream rate_arg width Hclk Hrate Hcap Hno).
      reflexivity.
    + destruct (hw_params_row c stream rate_arg width e
                  Hclk Hrate Hcap Hin Hm Hra) as (_ & _ & _ & _ & _ & Hnone).
      apply (Hnone Hfmt).
  - intros e Hin Hm Hra.
    destruct (hw_params_row c stream rate_arg width e
                Hclk Hrate Hcap Hin Hm Hra) as (_ & _ & _ & _ & _ & Hnone).
    destruct (Hnone Hfmt) as (_ & Htr & Hregs).
    destruct (clocked_fields e (regcache c) Hin) as (Cfm & Cdiv & _).
    rewrite Hregs. split; [exact Htr |]. split; [exact Cfm | exact Cdiv].
  - intros Hno.
    rewrite (hw_params_no_row c stream rate_arg width Hclk Hrate Hcap Hno).
    split; reflexivity.
Qed.

Lemma cs4245_pcm_hw_params_format_unset_witness :
  let c := Private 0 12288000 (fun _ => 0) in
  val (cs4245_pcm_hw_params 0 48000 24 c) = - EINVAL.
Proof.
  intros c.
  assert (Hclk : in_u32 (sysclk c)) by (unfold in_u32; simpl; lia).
  assert (Hrate : in_u32 48000) by (unfold in_u32; lia).
  assert (Hfmt : ~ known_format
                   (Z.land (format c) SND_SOC_DAIFMT_FORMAT_MASK)).
  { intros [H | [H | H]]; discriminate H. }
  destruct (cs4245_pcm_hw_params_format_unset c 0 48000 24 Hclk Hrate Hfmt)
    as (Hv & _).
  exact Hv.
Defined.

End HwParamsRegisters.

(** *** The DAI operations together *)

Section DaiSequences.

Import CInt Linux Spec Props CS4245 CS4245.cs4245_clk_para.

Lemma set_fmt_ok_inv fmt c :
  val (cs4245_set_fmt fmt c) = 0 ->
  known_format (Z.land fmt SND_SOC_DAIFMT_FORMAT_MASK)
  /\ format (post (cs4245_set_fmt fmt c))
     = Z.land fmt SND_SOC_DAIFMT_FORMAT_MASK
  /\ sysclk (post (cs4245_set_fmt fmt c)) = sysclk c.
Proof.
  intros Hok.
  assert (Hm : known_master (Z.land fmt SND_SOC_DAIFMT_MASTER_MASK)).
  { unfold known_master.
    destruct (Z.eq_dec (Z.land fmt SND_SOC_DAIFMT_MASTER_MASK)
                       SND_SOC_DAIFMT_CBM_CFM) as [E | N1]; [tauto |].
    destruct (Z.eq_dec (Z.land fmt SND_SOC_DAIFMT_MASTER_MASK)
                       SND_SOC_DAIFMT_CBS_CFS) as [E | N2]; [tauto |].
    exfalso.
    rewrite (set_fmt_unknown_master fmt c) in Hok by (intros [H | H]; tauto).
    discriminate Hok. }
  destruct (set_fmt_known_master fmt c Hm) as (_ & Hclk & _ & Hfmt).
  destruct (known_format_dec (Z.land fmt SND_SOC_DAIFMT_FORMAT_MASK))
    as [Hf | Hf].
  - rewrite (set_fmt_iface_some fmt Hf) in Hfmt. tauto.
  - rewrite (set_fmt_iface_none fmt Hf) in Hfmt.
    destruct Hfmt as [Hv _]. rewrite Hv in Hok. discriminate Hok.
Qed.

Lemma set_fmt_format_cases fmt c :
  format (post (cs4245_set_fmt fmt c)) = format c
  \/ known_format (format (post (cs4245_set_fmt fmt c))).
Proof.
  assert (Hmdec : known_master (Z.land fmt SND_SOC_DAIFMT_MASTER_MASK)
                  \/ ~ known_master (Z.land fmt SND_SOC_DAIFMT_MASTER_MASK)).
  { unfold known_master.
    destruct (Z.eq_dec (Z.land fmt SND_SOC_DAIFMT_MASTER_MASK)
                       SND_SOC_DAIFMT_CBM_CFM); [tauto |].
    destruct (Z.eq_dec (Z.land fmt SND_SOC_DAIFMT_MASTER_MASK)
                       SND_SOC_DAIFMT_CBS_CFS); tauto. }
  destruct Hmdec as [Hm | Hm].
  - destruct (set_fmt_known_master fmt c Hm) as (_ & _ & _ & Hfmt).
    destruct (known_format_dec (Z.land fmt SND_SOC_DAIFMT_FORMAT_MASK))
      as [Hf | Hf].
    + rewrite (set_fmt_iface_some fmt Hf) in Hfmt.
      right. destruct Hfmt as [_ ->]. exact Hf.
    + rewrite (set_fmt_iface_none fmt Hf) in Hfmt. left. apply Hfmt.
  - rewrite (set_fmt_unknown_master fmt c Hm). left. reflexivity.
Qed.

Lemma set_fmt_sysclk fmt c :
  sysclk (post (cs4245_set_fmt fmt c)) = sysclk c.
Proof.
  unfold cs4245_set_fmt, snd_soc_component_update_bits, bind.
  cbv zeta.
  destruct (Z.land fmt SND_SOC_DAIFMT_MASTER_MASK =? SND_SOC_DAIFMT_CBM_CFM);
    [| destruct (Z.land fmt SND_SOC_DAIFMT_MASTER_MASK
                 =? SND_SOC_DAIFMT_CBS_CFS)];
    destruct (set_fmt_iface fmt); reflexivity.
Qed.

(** What [cs4245_set_sysclk] leaves stored. *)
Lemma set_sysclk_cases clk_id freq dir c :
  let out := cs4245_set_sysclk clk_id freq dir c in
  format (post out) = format c
  /\ regcache (post out) = regcache c
  /\ trace out = []
  /\ ((val out = 0 /\ freq <> 0 /\ clk_id = 0
       /\ has_mclk mclk clk_map_table freq /\ sysclk (post out) = freq)
      \/ (val out = 0 /\ freq = 0 /\ sysclk (post out) = sysclk c)
      \/ (val out = - EINVAL /\ freq <> 0 /\ clk_id <> 0
          /\ sysclk (post out) = sysclk c)
      \/ (val out = - EINVAL /\ freq <> 0 /\ clk_id = 0
          /\ ~ has_mclk mclk clk_map_table freq /\ sysclk (post out) = 0)).
Proof.
  cbv zeta. unfold cs4245_set_sysclk.
  destruct (Z.eqb_spec freq 0) as [F0 | F0];
    [| destruct (Z.eqb_spec clk_id 0) as [K0 | K0]]; cbn [negb].
  - repeat split; try reflexivity. right. left. auto.
  - destruct (sysclk_scan clk_map_table freq) eqn:Hscan.
    + apply cs4245_sysclk_scan in Hscan.
      repeat split; try reflexivity. left. auto.
    + assert (Hno : ~ has_mclk mclk clk_map_table freq).
      { intros H. apply cs4245_sysclk_scan in H. congruence. }
      repeat split; try reflexivity. right. right. right. auto.
  - repeat split; try reflexivity. right. right. left. auto.
Qed.

Lemma has_mclk_in_u32 freq :
  has_mclk mclk clk_map_table freq -> in_u32 freq.
Proof.
  intros (e & Hin & <-).
  assert (Hs : forallb (row_small mclk rate) clk_map_table = true)
    by (vm_compute; reflexivity).
  destruct (table_row_small mclk rate clk_map_table Hs e Hin) as [Hm _].
  unfold in_u32. assert (2 ^ 31 < 2 ^ 32) by reflexivity. lia.
Qed.

Lemma format_mask_idem fmt :
  Z.land (Z.land fmt SND_SOC_DAIFMT_FORMAT_MASK) SND_SOC_DAIFMT_FORMAT_MASK
  = Z.land fmt SND_SOC_DAIFMT_FORMAT_MASK.
Proof. rewrite <- Z.land_assoc, Z.land_diag. reflexivity. Qed.

(** The return values of the two setters do not depend on the state. *)
Lemma set_fmt_val fmt c c' :
  val (cs4245_set_fmt fmt c) = val (cs4245_set_fmt fmt c').
Proof.
  unfold cs4245_set_fmt, snd_soc_component_update_bits, bind.
  cbv zeta.
  destruct (Z.land fmt SND_SOC_DAIFMT_MASTER_MASK =? SND_SOC_DAIFMT_CBM_CFM);
    [| destruct (Z.land fmt SND_SOC_DAIFMT_MASTER_MASK
                 =? SND_SOC_DAIFMT_CBS_CFS)];
    destruct (set_fmt_iface fmt); reflexivity.
Qed.

Lemma set_sysclk_val clk_id freq dir c c' :
  val (cs4245_set_sysclk clk_id freq dir c)
  = val (cs4245_set_sysclk clk_id freq dir c').
Proof.
  unfold cs4245_set_sysclk.
  destruct (freq =? 0); [reflexivity |].
  destruct (negb (clk_id =? 0)); [reflexivity |].
  destruct (sysclk_scan clk_map_table freq); reflexivity.
Qed.

(** The state both orders of the two setters lead to, as far as
    [cs4245_pcm_hw_params] reads it. *)
Lemma negotiated c fmt freq dir :
  val (cs4245_set_fmt fmt c) = 0 -> freq <> 0 ->
  val (cs4245_set_sysclk 0 freq dir c) = 0 ->
  forall c2,
    c2 = post (cs4245_set_sysclk 0 freq dir (post (cs4245_set_fmt fmt c)))
    \/ c2 = post (cs4245_set_fmt fmt (post (cs4245_set_sysclk 0 freq dir c))) ->
    format c2 = Z.land fmt SND_SOC_DAIFMT_FORMAT_MASK
    /\ sysclk c2 = freq
    /\ known_format (Z.land fmt SND_SOC_DAIFMT_FORMAT_MASK)
    /\ in_u32 freq.
Proof.
  intros Hfmt Hfreq Hclk c2 Hc2.
  assert (Hu : in_u32 freq).
  { destruct (set_sysclk_cases 0 freq dir c) as (_ & _ & _ & Hcases).
    destruct Hcases as [(_ & _ & _ & Hrow & _)
                       | [(_ & F0 & _) | [(Hv & _) | (Hv & _)]]].
    - apply has_mclk_in_u32. exact Hrow.
    - contradiction.
    - rewrite Hv in Hclk. discriminate Hclk.
    - rewrite Hv in Hclk. discriminate Hclk. }
  destruct Hc2 as [-> | ->].
  - destruct (set_fmt_ok_inv fmt c Hfmt) as (Hk & Hf & Hs).
    rewrite (set_sysclk_val 0 freq dir c (post (cs4245_set_fmt fmt c)))
      in Hclk.
    destruct (set_sysclk_cases 0 freq dir (post (cs4245_set_fmt fmt c)))
      as (Hf' & _ & _ & Hcases).
    rewrite Hf', Hf. split; [reflexivity |].
    split; [| split; [exact Hk | exact Hu]].
    destruct Hcases as [(_ & _ & _ & _ & Hst)
                       | [(_ & F0 & _) | [(Hv & _) | (Hv & _)]]].
    + exact Hst.
    + contradiction.
    + rewrite Hv in Hclk. discriminate Hclk.
    + rewrite Hv in Hclk. discriminate Hclk.
  - rewrite (set_fmt_val fmt c (post (cs4245_set_sysclk 0 freq dir c)))
      in Hfmt.
    destruct (set_fmt_ok_inv fmt _ Hfmt) as (Hk & Hf & Hs).
    rewrite Hf, Hs. split; [reflexivity |].
    split; [| split; [exact Hk | exact Hu]].
    destruct (set_sysclk_cases 0 freq dir c) as (_ & _ & _ & Hcases).
    destruct Hcases as [(_ & _ & _ & _ & Hst)
                       | [(_ & F0 & _) | [(Hv & _) | (Hv & _)]]].
    + exact Hst.
    + contradiction.
    + rewrite Hv in Hclk. discriminate Hclk.
    + rewrite Hv in Hclk. discriminate Hclk.
Qed.

(** X10.  Once [cs4245_set_fmt] and [cs4245_set_sysclk] (on clock id 0,
    with a non-zero frequency) have both succeeded, in either order,
    [cs4245_pcm_hw_params] succeeds exactly for the rates that the clock
    table pairs with that frequency, except for a capture stream on a
    right-justified format. *)
Theorem cs4245_negotiation
        (c : cs4245_private) (fmt freq dir stream rate_arg width : Z)
        (Hfmt : val (cs4245_set_fmt fmt c) = 0)
        (Hfreq : freq <> 0)
        (Hclk : val (cs4245_set_sysclk 0 freq dir c) = 0)
        (Hrate : in_u32 rate_arg) :
  let c_fmt_clk :=
    post (cs4245_set_sysclk 0 freq dir (post (cs4245_set_fmt fmt c))) in
  let c_clk_fmt :=
    post (cs4245_set_fmt fmt (post (cs4245_set_sysclk 0 freq dir c))) in
  (val (cs4245_pcm_hw_params stream rate_arg width c_fmt_clk) = 0
   <-> has_row freq rate_arg /\ ~ capture_right_justified stream fmt)
  /\
  (val (cs4245_pcm_hw_params stream rate_arg width c_clk_fmt) = 0
   <-> has_row freq rate_arg /\ ~ capture_right_justified stream fmt).
Proof.
  cbv zeta.
  assert (Hboth : forall c2,
             format c2 = Z.land fmt SND_SOC_DAIFMT_FORMAT_MASK ->
             sysclk c2 = freq ->
             known_format (Z.land fmt SND_SOC_DAIFMT_FORMAT_MASK) ->
             in_u32 freq ->
             (val (cs4245_pcm_hw_params stream rate_arg width c2) = 0
              <-> has_row freq rate_arg
                  /\ ~ capture_right_justified stream fmt)).
  { intros c2 Hf Hs Hk Hu.
    assert (Hu2 : in_u32 (sysclk c2)) by (rewrite Hs; exact Hu).
    destruct (hw_params_val c2 stream rate_arg width Hu2 Hrate) as [Hiff _].
    rewrite Hiff. unfold capture_right_justified.
    rewrite Hf, Hs, format_mask_idem. tauto. }
  split.
  - destruct (negotiated c fmt freq dir Hfmt Hfreq Hclk _ (or_introl eq_refl))
      as (Hf & Hs & Hk & Hu).
    apply Hboth; assumption.
  - destruct (negotiated c fmt freq dir Hfmt Hfreq Hclk _ (or_intror eq_refl))
      as (Hf & Hs & Hk & Hu).
    apply Hboth; assumption.
Qed.

Lemma cs4245_negotiation_witness :
  let c := Private 0 0 (fun _ => 0) in
  let fmt := Z.lor SND_SOC_DAIFMT_CBS_CFS SND_SOC_DAIFMT_I2S in
  val (cs4245_pcm_hw_params 0 44100 16
         (post (cs4245_set_sysclk 0 11289600 0
                  (post (cs4245_set_fmt fmt c))))) = 0.
Proof.
  intros c fmt.
  assert (Hfreq : 11289600 <> 0) by discriminate.
  assert (Hrate : in_u32 44100) by (unfold in_u32; lia).
  destruct (cs4245_negotiation c fmt 11289600 0 0 44100 16
              eq_refl Hfreq eq_refl Hrate) as [Hiff _].
  apply Hiff. split.
  - exists (P 11289600 44100 0 0). split; [| split; reflexivity].
    simpl. do 5 right. left. reflexivity.
  - intros [Hs _]. discriminate Hs.
Defined.

(** A call keeps an invariant that only reads the stored format and
    clock, when it stores nothing. *)
Lemma digital_mute_private mute direction c :
  format (post (cs4245_digital_mute mute direction c)) = format c
  /\ sysclk (post (cs4245_digital_mute mute direction c)) = sysclk c.
Proof.
  unfold cs4245_digital_mute, bind. destruct (mute =? 0); split; reflexivity.
Qed.

Lemma hw_params_private stream rate_arg width c :
  format (post (cs4245_pcm_hw_params stream rate_arg width c)) = format c
  /\ sysclk (post (cs4245_pcm_hw_params stream rate_arg width c)) = sysclk c.
Proof.
  unfold cs4245_pcm_hw_params, snd_soc_component_update_bits, bind, gets.
  cbn -[Regmap.update_bits Z.shiftl Z.land cs4245_get_clk_index
        clk_map_table_at Z.leb Z.eqb].
  destruct ((stream =? SNDRV_PCM_STREAM_CAPTURE)
            && (Z.land (format c) SND_SOC_DAIFMT_FORMAT_MASK
                =? SND_SOC_DAIFMT_RIGHT_J)); [split; reflexivity |].
  cbn -[Regmap.update_bits Z.shiftl Z.land cs4245_get_clk_index
        clk_map_table_at Z.leb Z.eqb].
  destruct (0 <=? cs4245_get_clk_index (to_int (sysclk c)) (to_int rate_arg));
    [| split; reflexivity].
  destruct (Z.land (format c) SND_SOC_DAIFMT_FORMAT_MASK
            =? SND_SOC_DAIFMT_I2S);
    [| destruct (Z.land (format c) SND_SOC_DAIFMT_FORMAT_MASK
                 =? SND_SOC_DAIFMT_RIGHT_J);
       [| destruct (Z.land (format c) SND_SOC_DAIFMT_FORMAT_MASK
                    =? SND_SOC_DAIFMT_LEFT_J)]];
    try destruct (width =? 16); split; reflexivity.
Qed.

Lemma dai_run_private_ok call c :
  private_ok c -> private_ok (post (dai_run call c)).
Proof.
  unfold private_ok. intros [Hf Hs].
  destruct call as [clk_id freq dir | fmt | mute direction
                   | stream rate_arg width]; unfold dai_run.
  - destruct (set_sysclk_cases clk_id freq dir c) as (Hfmt & _ & _ & Hcases).
    rewrite Hfmt. split; [exact Hf |].
    destruct Hcases as [(_ & _ & _ & Hrow & ->)
                       | [(_ & _ & ->) | [(_ & _ & _ & ->) | (_ & _ & _ & _ & ->)]]];
      auto.
  - rewrite set_fmt_sysclk. split; [| exact Hs].
    destruct (set_fmt_format_cases fmt c) as [-> | Hk]; auto.
  - destruct (digital_mute_private mute direction c) as [-> ->]. auto.
  - destruct (hw_params_private stream rate_arg width c) as [-> ->]. auto.
Qed.

(** X11.  Whatever DAI operations are called, with whatever arguments
    and in whatever order, the stored format stays unset (0) or one of the
    three accepted formats, and the stored clock stays unset (0) or a
    master clock of the table. *)
Theorem cs4245_private_invariant
        (calls : list dai_call) (c : cs4245_private)
        (Hc : private_ok c) :
  private_ok (dai_runs calls c).
Proof.
  revert c Hc. induction calls as [| call rest IH]; intros c Hc; simpl.
  - exact Hc.
  - apply IH, dai_run_private_ok, Hc.
Qed.

Lemma cs4245_private_invariant_witness :
  private_ok
    (dai_runs [call_set_sysclk 0 12345 0; call_set_fmt 4097;
               call_hw_params 0 48000 16; call_set_sysclk 0 12288000 0]
              (Private 0 0 (fun _ => 0))).
Proof.
  apply cs4245_private_invariant.
  split; left; reflexivity.
Defined.

End DaiSequences.

(** ** Further properties of the board controls of the Duo X *)

Section TraceFacts.

Import Props.

Context {S E : Type}.

Lemma emits_only_bind {A B} (P : E -> Prop) (m : M S E A)
      (f : A -> M S E B) :
  emits_only P m -> (forall a, emits_only P (f a)) ->
  emits_only P (bind m f).
Proof.
  intros Hm Hf s. unfold bind. simpl.
  apply Forall_app. split; [apply Hm | apply Hf].
Qed.

Lemma emits_only_ret {A} (P : E -> Prop) (a : A) :
  emits_only P (ret (S := S) a).
Proof. intros s. constructor. Qed.

Lemma emits_only_gets {A} (P : E -> Prop) (f : S -> A) :
  emits_only P (gets f).
Proof. intros s. constructor. Qed.

Lemma emits_only_modify (P : E -> Prop) (f : S -> S) :
  emits_only P (modify f).
Proof. intros s. constructor. Qed.

Lemma emits_only_emit (P : E -> Prop) (e : E) :
  P e -> emits_only P (emit (S := S) e).
Proof. intros He s. simpl. constructor; [exact He | constructor]. Qed.

Lemma emits_only_for_lt (P : E -> Prop) (bound : Z) (body : M S E unit) :
  emits_only P body -> emits_only P (for_lt bound body).
Proof.
  intros Hbody. unfold for_lt.
  induction (Z.to_nat bound) as [| n IH]; intros s; simpl.
  - constructor.
  - apply Forall_app. split; [apply Hbody | apply IH].
Qed.

End TraceFacts.


Section TraceFacts2.

Import Props.

Context {S E : Type}.

(** A first command that only hands over a known value. *)
Lemma emits_only_bind_ret {A B C} (P : E -> Prop) (m : M S E A) (x : B)
      (f : B -> M S E C) :
  emits_only P m -> emits_only P (f x) ->
  emits_only P (bind (bind m (fun _ => ret x)) f).
Proof.
  intros Hm Hf s. unfold bind. simpl.
  apply Forall_app. split; [| apply Hf].
  apply Forall_app. split; [apply Hm | constructor].
Qed.


(** The same for an invariant. *)
Lemma preserves_bind_ret {A B C} (I : S -> Prop) (m : M S E A) (x : B)
      (f : B -> M S E C) :
  preserves I m -> preserves I (f x) ->
  preserves I (bind (bind m (fun _ => ret x)) f).
Proof.
  intros Hm Hf s Hs. unfold bind, ret. cbn [val post].
  apply Hf, Hm, Hs.
Qed.



End TraceFacts2.

(** Steps of the proofs about commands.  A test between constants is
    decided, any other one split. *)
Ltac decide_test b :=
  lazymatch b with
  | ?x =? ?y =>
      tryif (first [is_const x | is_constructor x];
             first [is_const y | is_constructor y])
      then (let r := eval vm_compute in b in change b with r; cbv iota)
      else destruct b
  | _ => destruct b
  end.

(** One step of a proof that a command keeps an invariant which the
    state updates of the command leave as it is, by computation. *)
Ltac getter_step :=
  match goal with
  | |- preserves _ (bind _ _) => apply preserves_bind; [| intros ?]
  | |- preserves _ (ret _) => apply preserves_ret
  | |- preserves _ (gets _) => apply preserves_gets
  | |- preserves _ (emit _) => apply preserves_emit
  | |- preserves _ (for_lt _ _) => apply preserves_for_lt
  | |- preserves _ (modify _) =>
      apply preserves_modify;
      let s := fresh "s" in let H := fresh "H" in
      intros s H; exact H
  | |- preserves _ (if ?b then _ else _) => decide_test b
  | |- preserves _ (match ?x with Some _ => _ | None => _ end) =>
      destruct x as [[? ?] |]
  end.

(** The same, with the lines a command has selected kept known. *)
Ltac frame_step :=
  lazymatch goal with
  | |- preserves _ (bind (bind _ (fun _ => ret _)) _) =>
      apply preserves_bind_ret
  | |- preserves _ ((fun _ => _) _) => cbv beta
  | |- preserves _ (match (_, _) with pair _ _ => _ end) => cbv iota
  | |- preserves _ (match Some _ with Some _ => _ | None => _ end) => cbv iota
  | _ => getter_step
  end.

(** One step of a proof that a command only drives given lines. *)
Ltac lines_step :=
  match goal with
  | |- Props.emits_only _ (bind (bind _ (fun _ => ret _)) _) =>
      apply emits_only_bind_ret
  | |- Props.emits_only _ (bind _ _) => apply emits_only_bind; [| intros ?]
  | |- Props.emits_only _ (ret _) => apply emits_only_ret
  | |- Props.emits_only _ (gets _) => apply emits_only_gets
  | |- Props.emits_only _ (modify _) => apply emits_only_modify
  | |- Props.emits_only _ (emit _) => apply emits_only_emit; simpl; auto
  | |- Props.emits_only _ (for_lt _ _) => apply emits_only_for_lt
  | |- Props.emits_only _ (if ?b then _ else _) => decide_test b
  | |- Props.emits_only _ _ => progress cbv beta iota
  end.



Section DuoXControls.

Import CInt Spec Props DuoX CS4265.

Ltac open_handlers :=
  unfold handle, headphone_put, input_left_gain_stage_put,
    input_right_gain_stage_put, left_true_bypass_put,
    right_true_bypass_put, headphone_cv_mode_put, cv_exp_pedal_mode_put,
    exp_pedal_mode_put, exp_flag_irq_handler,
    set_headphone_volume, set_gain_stage, gain_stage_select,
    set_true_bypass, set_headphone_cv_mode, set_cv_exp_pedal_mode,
    set_exp_pedal_mode, gpiod_set_value.

(** [set_exp_pedal_mode] on a side leaves that side remembered. *)
Lemma set_exp_pedal_mode_side (side : bool) s :
  exp_pedal_mode (post (set_exp_pedal_mode (of_bool side) s)) = side.
Proof.
  unfold set_exp_pedal_mode, gpiod_set_value, bind, gets.
  destruct side; cbn [of_bool Z.eqb orb Pos.eqb];
    cbn [val post trace];
    destruct (cv_exp_pedal_mode s && initialized s);
    try destruct ((irqFlag1 s <=? 0) || (irqFlag2 s <=? 0));
    reflexivity.
Qed.

(** Switching to expression-pedal mode re-selects the remembered side
    without changing it. *)
Lemma set_cv_exp_pedal_mode_side mode s :
  exp_pedal_mode (post (set_cv_exp_pedal_mode mode s)) = exp_pedal_mode s.
Proof.
  unfold set_cv_exp_pedal_mode.
  destruct (mode =? 0).
  - unfold gpiod_set_value, bind, gets, modify, emit, ret.
    cbn [val post]. cbn [initialized with_cv_exp_pedal_mode].
    destruct (initialized s); reflexivity.
  - destruct (mode =? 1); [| reflexivity].
    unfold bind at 1 2. unfold gets, modify. cbn [val post].
    rewrite set_exp_pedal_mode_side. reflexivity.
Qed.

Lemma handle_getter ev k v0 :
  control_of ev <> k ->
  preserves (fun s => val (get k s) = v0) (handle ev).
Proof.
  intros Hne.
  destruct ev as [v | v | v | v | v | v | v | v | irq];
    destruct k; try (exfalso; apply Hne; reflexivity);
    try (open_handlers; repeat getter_step; fail).
  (* what is left: the mode control against the remembered side *)
  intros s Hs. unfold handle, cv_exp_pedal_mode_put, bind, gets, ret.
  cbn [val post].
  destruct (negb (of_bool (cv_exp_pedal_mode s) =? v)); cbn [val post];
    [| exact Hs].
  unfold get, exp_pedal_mode_get, gets in *. cbn [val] in *.
  rewrite set_cv_exp_pedal_mode_side. exact Hs.
Qed.

(** X12.  The board controls of the Duo X are independent: a write to
    one control, and the sense-line interrupt (which acts on the
    CV / expression-pedal mode), never changes the value that the getter
    of any other control returns.  In particular the remembered signal
    side survives every mode switch and every interrupt. *)
Theorem duox_controls_independent
        (ev : event) (k : control) (s : state)
        (Hother : control_of ev <> k) :
  val (get k (post (handle ev s))) = val (get k s).
Proof.
  apply (handle_getter ev k (val (get k s)) Hother s). reflexivity.
Qed.

Lemma duox_controls_independent_witness :
  let s := State 7 2 1 true false true true true true 5 6
                 (fun _ => false) [6; 5] in
  val (get k_exp_pedal_mode (post (handle (exp_flag_irq 5) s))) = 1.
Proof.
  intros s.
  assert (Hother : control_of (exp_flag_irq 5) <> k_exp_pedal_mode)
    by discriminate.
  exact (duox_controls_independent (exp_flag_irq 5) k_exp_pedal_mode s
           Hother).
Defined.

(** X13.  A control write only ever drives the lines of its own
    control, and the interrupt only the two [exp_enable] lines, whatever
    the value written and the state. *)
Theorem duox_writes_own_lines (ev : event) (s : state) :
  Forall (fun w => In (fst w) (lines (control_of ev)))
         (trace (handle ev s)).
Proof.
  revert s. change (emits_only
                      (fun w : gpio_write => In (fst w) (lines (control_of ev)))
                      (handle ev)).
  destruct ev as [v | v | v | v | v | v | v | v | irq];
    open_handlers;
    change (CHANNEL_LEFT =? CHANNEL_LEFT) with true;
    change (CHANNEL_RIGHT =? CHANNEL_LEFT) with false;
    change (CHANNEL_RIGHT =? CHANNEL_RIGHT) with true;
    cbv iota;
    repeat lines_step.
Qed.


Ltac run := unfold gpiod_set_value, bind, gets, modify, emit, ret;
            cbn [val post trace].
Ltac chan :=
    change (CHANNEL_LEFT =? CHANNEL_LEFT) with true;
    change (CHANNEL_RIGHT =? CHANNEL_LEFT) with false;
    change (CHANNEL_RIGHT =? CHANNEL_RIGHT) with true;
    cbv iota.

Lemma set_gain_stage_left_mirror lvl s :
  input_left_gain_stage (post (set_gain_stage CHANNEL_LEFT lvl s)) = lvl.
Proof.
  unfold set_gain_stage, gain_stage_select. chan. run.
  cbn [initialized with_input_left_gain_stage].
  destruct (negb (initialized s)); [reflexivity|].
  repeat match goal with |- context [if ?b then _ else _] => destruct b end;
    reflexivity.
Qed.
Lemma set_gain_stage_right_mirror lvl s :
  input_right_gain_stage (post (set_gain_stage CHANNEL_RIGHT lvl s)) = lvl.
Proof.
  unfold set_gain_stage, gain_stage_select. chan. run.
  cbn [initialized with_input_right_gain_stage].
  destruct (negb (initialized s)); [reflexivity|].
  repeat match goal with |- context [if ?b then _ else _] => destruct b end;
    reflexivity.
Qed.
Lemma set_true_bypass_left_mirror b s :
  left_true_bypass (post (set_true_bypass CHANNEL_LEFT b s)) = b.
Proof.
  unfold set_true_bypass. chan. run.
  destruct (initialized s); reflexivity.
Qed.
Lemma set_true_bypass_right_mirror b s :
  right_true_bypass (post (set_true_bypass CHANNEL_RIGHT b s)) = b.
Proof.
  unfold set_true_bypass. chan. run.
  destruct (initialized s); reflexivity.
Qed.
Lemma set_headphone_cv_mode_mirror (b : bool) s :
  headphone_cv_mode (post (set_headphone_cv_mode (of_bool b) s)) = b.
Proof.
  unfold set_headphone_cv_mode.
  destruct b; cbn [of_bool Z.eqb orb Pos.eqb negb]; run;
    destruct (initialized s); reflexivity.
Qed.
Lemma set_exp_pedal_mode_getter k v0 mode :
  k <> k_exp_pedal_mode ->
  preserves (fun s => val (get k s) = v0) (set_exp_pedal_mode mode).
Proof.
  intros Hne. destruct k; try (exfalso; apply Hne; reflexivity);
    unfold set_exp_pedal_mode, gpiod_set_value; repeat getter_step.
Qed.

Lemma set_cv_exp_pedal_mode_mirror (b : bool) s :
  cv_exp_pedal_mode (post (set_cv_exp_pedal_mode (of_bool b) s)) = b.
Proof.
  unfold set_cv_exp_pedal_mode.
  destruct b; cbn [of_bool Z.eqb orb Pos.eqb negb].
  - unfold bind at 1 2. unfold gets at 1. unfold modify at 1.
    cbn [val post].
    assert (Hk : k_cv_exp_pedal_mode <> k_exp_pedal_mode) by discriminate.
    pose proof (set_exp_pedal_mode_getter k_cv_exp_pedal_mode 1
                  (of_bool (exp_pedal_mode (with_cv_exp_pedal_mode true s)))
                  Hk (with_cv_exp_pedal_mode true s) eq_refl) as H.
    unfold get, cv_exp_pedal_mode_get, gets in H. cbn [val] in H.
    destruct (cv_exp_pedal_mode _); [reflexivity | discriminate H].
  - run. cbn [initialized with_cv_exp_pedal_mode].
    destruct (initialized s); reflexivity.
Qed.

Lemma flag_value v : v = 0 \/ v = 1 -> exists b, v = of_bool b.
Proof. intros [H | H]; [exists false | exists true]; exact H. Qed.

(** A put of the value the control already has. *)
Lemma put_unchanged k v s :
  val (get k s) = v -> put k v s = Outcome 0 s [].
Proof.
  intros H. destruct k; unfold get, put in *;
    unfold headphone_get, input_left_gain_stage_get,
      input_right_gain_stage_get, left_true_bypass_get,
      right_true_bypass_get, headphone_cv_mode_get, cv_exp_pedal_mode_get,
      exp_pedal_mode_get, gets in H; cbn [val] in H;
    unfold headphone_put, input_left_gain_stage_put,
      input_right_gain_stage_put, left_true_bypass_put,
      right_true_bypass_put, headphone_cv_mode_put, cv_exp_pedal_mode_put,
      exp_pedal_mode_put; unfold bind at 1; unfold gets;
    cbn [val post trace]; rewrite H, Z.eqb_refl; reflexivity.
Qed.

(** A put of another value goes through the setter. *)
Lemma put_changed k v s :
  val (get k s) <> v -> valid k v ->
  val (put k v s) = 1 /\ val (get k (post (put k v s))) = v.
Proof.
  intros Hne Hv. apply Z.eqb_neq in Hne.
  destruct k; unfold get, put, valid in *;
    unfold headphone_get, input_left_gain_stage_get,
      input_right_gain_stage_get, left_true_bypass_get,
      right_true_bypass_get, headphone_cv_mode_get, cv_exp_pedal_mode_get,
      exp_pedal_mode_get, gets in *; cbn [val] in *;
    unfold headphone_put, input_left_gain_stage_put,
      input_right_gain_stage_put, left_true_bypass_put,
      right_true_bypass_put, headphone_cv_mode_put, cv_exp_pedal_mode_put,
      exp_pedal_mode_put; unfold bind, gets, ret;
    cbn [val post trace]; rewrite Hne; cbn [negb val post ret];
    (split; [reflexivity |]);
    try (rewrite (to_int_id v Hv));
    try (apply flag_value in Hv; destruct Hv as [b Hb]; subst v;
         rewrite ?(to_int_id (of_bool b))
           by (destruct b; unfold in_int, int_min, int_max; simpl; lia)).
  - destruct (initialized s) eqn:Hi.
    + apply (cs4265_set_headphone_volume_on s v Hi).
    + apply (cs4265_set_headphone_volume_off s v Hi).
  - apply set_gain_stage_left_mirror.
  - apply set_gain_stage_right_mirror.
  - replace (to_bool (of_bool b)) with b by (destruct b; reflexivity).
    rewrite set_true_bypass_left_mirror. reflexivity.
  - replace (to_bool (of_bool b)) with b by (destruct b; reflexivity).
    rewrite set_true_bypass_right_mirror. reflexivity.
  - rewrite set_headphone_cv_mode_mirror. reflexivity.
  - rewrite set_cv_exp_pedal_mode_mirror. reflexivity.
  - rewrite set_exp_pedal_mode_side. reflexivity.
Qed.

(** X14.  Round trip of the eight board controls: after a put of a
    value the control is meant for (an [int] for the volume and the two
    gain stages, 0 or 1 for the five switches) the getter returns that
    value; the put reports a change exactly when the getter returned
    another value before; and the same put again reports no change,
    writes no pin and leaves the state as it is. *)
Theorem duox_put_get (k : control) (v : Z) (s : state)
        (Hv : valid k v) :
  let out := put k v s in
  val (get k (post out)) = v
  /\ val out = (if val (get k s) =? v then 0 else 1)
  /\ put k v (post out) = Outcome 0 (post out) [].
Proof.
  intros out. subst out.
  assert (Hget : val (get k (post (put k v s))) = v
                 /\ val (put k v s) = (if val (get k s) =? v then 0 else 1)).
  { destruct (Z.eqb_spec (val (get k s)) v) as [Heq | Hne].
    - rewrite (put_unchanged k v s Heq). cbn [val post]. auto.
    - destruct (put_changed k v s Hne Hv) as [H1 H2]. auto. }
  destruct Hget as [Hg Hval].
  split; [exact Hg | split; [exact Hval |]].
  apply put_unchanged, Hg.
Qed.

Lemma duox_put_get_witness :
  let s := State 7 2 1 true false true true false true 5 6
                 (fun _ => false) [6; 5] in
  let out := put k_exp_pedal_mode 1 s in
  val (get k_exp_pedal_mode (post out)) = 1
  /\ val out = (if val (get k_exp_pedal_mode s) =? 1 then 0 else 1)
  /\ put k_exp_pedal_mode 1 (post out) = Outcome 0 (post out) [].
Proof.
  intros s.
  assert (Hv : valid k_exp_pedal_mode 1) by (right; reflexivity).
  exact (duox_put_get k_exp_pedal_mode 1 s Hv).
Defined.

(** X15.  A write of a value that is neither 0 nor 1 (as an [int]) to
    one of the three mode switches is reported as a change although
    nothing changes: the setter ignores the value, so the put returns
    1, writes no pin and leaves every variable as it was. *)
Theorem duox_mode_put_out_of_range (k : control) (v : Z) (s : state)
        (Hk : mode_control k = true)
        (H0 : to_int v <> 0) (H1 : to_int v <> 1) :
  put k v s = Outcome 1 s [].
Proof.
  assert (Hb : forall b, (of_bool b =? v) = false).
  { intros b. apply Z.eqb_neq. intros Hv. subst v.
    destruct b; [apply H1 | apply H0]; reflexivity. }
  apply Z.eqb_neq in H0. apply Z.eqb_neq in H1.
  destruct k; try discriminate Hk; unfold put.
  - unfold headphone_cv_mode_put, set_headphone_cv_mode, bind, gets, ret.
    cbn [val post trace]. rewrite Hb, H0, H1. reflexivity.
  - unfold cv_exp_pedal_mode_put, set_cv_exp_pedal_mode, bind, gets, ret.
    cbn [val post trace]. rewrite Hb, H0, H1. reflexivity.
  - unfold exp_pedal_mode_put, set_exp_pedal_mode, bind, gets, ret.
    cbn [val post trace]. rewrite Hb, H0, H1. reflexivity.
Qed.

Lemma duox_mode_put_out_of_range_witness :
  let s := State 7 2 1 true false true true false true 5 6
                 (fun _ => false) [6; 5] in
  put k_headphone_cv_mode 2 s = Outcome 1 s [].
Proof.
  intros s.
  assert (H0 : to_int 2 <> 0) by discriminate.
  assert (H1 : to_int 2 <> 1) by discriminate.
  exact (duox_mode_put_out_of_range k_headphone_cv_mode 2 s eq_refl H0 H1).
Defined.



(** Evaluation of a command as far as its tests allow. *)
Ltac eval_cmd :=
  cbn [val post trace bind gets modify emit ret gpiod_set_value].



















End DuoXControls.

(** ** Further properties of the board controls of the Duo *)

Section DuoControls.

Import CInt Spec Props Duo CS4245 CS4245.modduo_gpios.

Ltac open_puts :=
  unfold put, headphone_put, input_left_gain_stage_put,
    input_right_gain_stage_put, left_true_bypass_put,
    right_true_bypass_put.

Ltac open_gets :=
  unfold get, headphone_get, input_left_gain_stage_get,
    input_right_gain_stage_get, left_true_bypass_get,
    right_true_bypass_get, gets.

Ltac open_gets_in H :=
  unfold get, headphone_get, input_left_gain_stage_get,
    input_right_gain_stage_get, left_true_bypass_get,
    right_true_bypass_get, gets in H.

Ltac open_setters :=
  unfold set_headphone_volume, set_gain_stage, gain_stage_select,
    set_true_bypass, gpiod_set_value.

Ltac chan :=
  change (CHANNEL_LEFT =? CHANNEL_LEFT) with true;
  change (CHANNEL_RIGHT =? CHANNEL_LEFT) with false;
  change (CHANNEL_RIGHT =? CHANNEL_RIGHT) with true;
  cbv iota.

Ltac eval_cmd :=
  cbn [val post trace bind gets modify emit ret gpiod_set_value].

(** What each setter leaves in its own variable. *)
Lemma duo_set_gain_stage_left lvl s :
  input_left_gain_stage (post (set_gain_stage CHANNEL_LEFT lvl s)) = lvl.
Proof.
  unfold set_gain_stage, gain_stage_select. chan. eval_cmd.
  destruct (negb (initialized _)); [reflexivity |].
  repeat match goal with
         | |- context [if ?b then _ else _] => destruct b
         end; reflexivity.
Qed.

Lemma duo_set_gain_stage_right lvl s :
  input_right_gain_stage (post (set_gain_stage CHANNEL_RIGHT lvl s)) = lvl.
Proof.
  unfold set_gain_stage, gain_stage_select. chan. eval_cmd.
  destruct (negb (initialized _)); [reflexivity |].
  repeat match goal with
         | |- context [if ?b then _ else _] => destruct b
         end; reflexivity.
Qed.

Lemma duo_set_true_bypass_left b s :
  left_true_bypass (post (set_true_bypass CHANNEL_LEFT b s)) = b.
Proof.
  unfold set_true_bypass. chan. eval_cmd.
  destruct (initialized s); reflexivity.
Qed.

Lemma duo_set_true_bypass_right b s :
  right_true_bypass (post (set_true_bypass CHANNEL_RIGHT b s)) = b.
Proof.
  unfold set_true_bypass. chan. eval_cmd.
  destruct (initialized s); reflexivity.
Qed.

(** A put of the value the control already has. *)
Lemma duo_put_unchanged k v s :
  val (get k s) = v -> put k v s = Outcome 0 s [].
Proof.
  intros H. destruct k; open_gets; open_gets_in H; cbn [val] in H;
    open_puts; unfold bind at 1; unfold gets;
    cbn [val post trace]; rewrite H, Z.eqb_refl; reflexivity.
Qed.

(** A put of another value goes through the setter. *)
Lemma duo_put_changed k v s :
  val (get k s) <> v -> valid k v ->
  val (put k v s) = 1 /\ val (get k (post (put k v s))) = v.
Proof.
  intros Hne Hv. apply Z.eqb_neq in Hne.
  destruct k; unfold valid in Hv; open_gets; open_gets_in Hne;
    cbn [val] in *; open_puts; unfold bind, gets, ret;
    cbn [val post trace]; rewrite Hne; cbn [negb val post trace];
    (split; [reflexivity |]);
    try (rewrite (to_int_id v Hv)).
  - destruct (initialized s) eqn:Hi.
    + apply (cs4245_set_headphone_volume_on s v Hi).
    + apply (cs4245_set_headphone_volume_off s v Hi).
  - apply duo_set_gain_stage_left.
  - apply duo_set_gain_stage_right.
  - rewrite duo_set_true_bypass_left.
    destruct Hv as [Hv | Hv]; subst v; reflexivity.
  - rewrite duo_set_true_bypass_right.
    destruct Hv as [Hv | Hv]; subst v; reflexivity.
Qed.

(** X19.  Round trip of the five board controls of the Duo: after a
    put of a value the control is meant for (an [int] for the volume
    and the two gain stages, 0 or 1 for the two bypass switches) the
    getter returns that value; the put reports a change exactly when
    the getter returned another value before; and the same put again
    reports no change, writes no pin and leaves the state as it is. *)
Theorem duo_put_get (k : control) (v : Z) (s : state)
        (Hv : valid k v) :
  let out := put k v s in
  val (get k (post out)) = v
  /\ val out = (if val (get k s) =? v then 0 else 1)
  /\ put k v (post out) = Outcome 0 (post out) [].
Proof.
  intros out. subst out.
  assert (Hget : val (get k (post (put k v s))) = v
                 /\ val (put k v s) = (if val (get k s) =? v then 0 else 1)).
  { destruct (Z.eqb_spec (val (get k s)) v) as [Heq | Hne].
    - rewrite (duo_put_unchanged k v s Heq). cbn [val post]. auto.
    - destruct (duo_put_changed k v s Hne Hv) as [H1 H2]. auto. }
  destruct Hget as [Hg Hval].
  split; [exact Hg | split; [exact Hval |]].
  apply duo_put_unchanged, Hg.
Qed.

Lemma duo_put_get_witness :
  let s := State 7 2 1 true false true (fun _ => false) in
  let out := put k_gain_left 3 s in
  val (get k_gain_left (post out)) = 3
  /\ val out = (if val (get k_gain_left s) =? 3 then 0 else 1)
  /\ put k_gain_left 3 (post out) = Outcome 0 (post out) [].
Proof.
  intros s.
  assert (Hv : valid k_gain_left 3)
    by (unfold valid, in_int, int_min, int_max; simpl; lia).
  exact (duo_put_get k_gain_left 3 s Hv).
Defined.

Lemma duo_put_getter k k' v v0 :
  k <> k' ->
  preserves (fun s => val (get k' s) = v0) (put k v).
Proof.
  intros Hne.
  destruct k, k'; try (exfalso; apply Hne; reflexivity);
    open_puts; open_setters; repeat frame_step.
Qed.

Lemma duo_put_lines k v :
  emits_only (fun w : gpio_write => In (fst w) (lines k)) (put k v).
Proof.
  destruct k; open_puts; open_setters; chan; repeat lines_step.
Qed.

(** X20.  The board controls of the Duo are independent: a write to
    one control never changes the value that the getter of another
    control returns, and it only ever drives the lines of its own
    control, whatever the value written and the state. *)
Theorem duo_controls_independent
        (k k' : control) (v : Z) (s : state) (Hother : k <> k') :
  val (get k' (post (put k v s))) = val (get k' s)
  /\ Forall (fun w => In (fst w) (lines k)) (trace (put k v s)).
Proof.
  split.
  - apply (duo_put_getter k k' v (val (get k' s)) Hother s). reflexivity.
  - apply duo_put_lines.
Qed.

Lemma duo_controls_independent_witness :
  let s := State 7 2 1 true false true (fun _ => false) in
  val (get k_bypass_left (post (put k_headphone 9 s))) = 1
  /\ Forall (fun w => In (fst w) (lines k_headphone))
            (trace (put k_headphone 9 s)).
Proof.
  intros s.
  assert (Hother : k_headphone <> k_bypass_left) by discriminate.
  exact (duo_controls_independent k_headphone k_bypass_left 9 s Hother).
Defined.

End DuoControls.
